(** * SEVIR skill scores and the FNO forward pass

    A shallow embedding of
    - [examples/earthformer/sevir/helps.py]: the thresholding helper
      [_threshold] and the class [SEVIRSkillScore];
    - [ppsci/arch/tfnonet.py]: the constructor's choice of domain padding
      and [FNONet.forward].

    Conventions of the embedding.
    - A tensor is a shape together with a function from multi-indices to
      elements.  Input fields hold IEEE-754 values ([spec_float], with
      NaN, infinities and signed zeros).
    - The indicator tensors of [_threshold], their sums and the stored
      confusion counts are float32 tensors whose elements are integers.
      Such an element is modelled by the integer it holds ([Z]), and
      every addition of two of them rounds its result to float32
      ([round_f32]): the model is exact up to 2^24 and rounds above it,
      as float32 does.
    - Scores are quotients of counts; they are modelled by real numbers,
      the division of an array by zero and the mean of an empty array by
      a value that is not a number.
    - A Python exception is a value [Raise e]; a method that mutates
      [self] returns the instance it leaves behind, also when it raises. *)

From Stdlib Require Import ZArith List String Ascii Bool Lia Reals Lra.
From Stdlib Require Import Permutation.
From Stdlib Require Import FunctionalExtensionality.
From Stdlib Require Import Floats.SpecFloat.
Import ListNotations.

Set Implicit Arguments.

(** ** Python values the code relies on *)

Module Py.

Inductive exn : Type :=
| NotImplementedError
| AssertionError
| IndexError
| KeyError
| TypeError
| ValueError
| ZeroDivisionError.

Inductive result (A : Type) : Type :=
| Ok (a : A)
| Raise (e : exn).

Arguments Ok {A} a.
Arguments Raise {A} e.

Definition bind {A B : Type} (m : result A) (k : A -> result B) : result B :=
  match m with
  | Ok a => k a
  | Raise e => Raise e
  end.

(** [s.find(c)]: the lowest index of [c] in [s], or -1. *)
Fixpoint find (s : string) (c : ascii) : Z :=
  match s with
  | EmptyString => (-1)%Z
  | String a s' =>
      if Ascii.eqb a c then 0%Z
      else match find s' c with
           | Zneg _ => (-1)%Z
           | k => (k + 1)%Z
           end
  end.

(** [list(range(n))] *)
Definition range (n : nat) : list nat := seq 0 n.

Fixpoint remove_at {A : Type} (i : nat) (l : list A) : list A :=
  match l, i with
  | [], _ => []
  | _ :: l', O => l'
  | a :: l', S j => a :: remove_at j l'
  end.

(** [l.pop(i)], keeping the list that is left: a negative index counts
    from the end, and an index outside the list raises [IndexError]. *)
Definition pop {A : Type} (l : list A) (i : Z) : result (list A) :=
  let n := Z.of_nat (List.length l) in
  let j := if (i <? 0)%Z then (i + n)%Z else i in
  if ((j <? 0) || (n <=? j))%Z then Raise IndexError
  else Ok (remove_at (Z.to_nat j) l).

(** [enumerate(l)] *)
Definition enumerate {A : Type} (l : list A) : list (nat * A) :=
  combine (seq 0 (List.length l)) l.

(** [x in (a, b, ...)] on strings *)
Definition str_in (x : string) (l : list string) : bool :=
  existsb (String.eqb x) l.

End Py.

Import Py.

Notation "x <- m ;; k" := (bind m (fun x => k))
  (at level 61, m at next level, right associativity).
Notation "' p <- m ;; k" := (bind m (fun x => let p := x in k))
  (at level 61, p pattern, m at next level, right associativity).

(** ** Tensors *)

Module Tensor.

Record tensor (A : Type) : Type := mkTensor {
  shape : list nat;
  data : list nat -> A
}.

Definition ndim {A : Type} (x : tensor A) : nat := List.length (shape x).

(** A multi-index addresses an element when it has one coordinate per
    dimension, each below the size of its dimension. *)
Fixpoint in_range (sh idx : list nat) : bool :=
  match sh, idx with
  | [], [] => true
  | n :: sh', i :: idx' => (i <? n) && in_range sh' idx'
  | _, _ => false
  end.

Definition shape_eqb (s1 s2 : list nat) : bool :=
  if list_eq_dec Nat.eq_dec s1 s2 then true else false.

(** Every multi-index of a shape, in row-major order. *)
Fixpoint all_indices (sh : list nat) : list (list nat) :=
  match sh with
  | [] => [[]]
  | n :: sh' =>
      flat_map (fun i => map (cons i) (all_indices sh')) (seq 0 n)
  end.

Definition numel (sh : list nat) : nat := fold_right Nat.mul 1 sh.

(** A scalar as a 0-d tensor, and a literal vector as a 1-d tensor. *)
Definition scalar {A : Type} (a : A) : tensor A :=
  mkTensor [] (fun _ => a).

Definition of_list {A : Type} (d : A) (l : list A) : tensor A :=
  mkTensor [List.length l] (fun idx => nth (hd 0 idx) l d).

(** [paddle.zeros(shape=sh)] *)
Definition zeros (sh : list nat) : tensor Z :=
  mkTensor sh (fun _ => 0%Z).

(** Elementwise application of a function. *)
Definition tmap {A B : Type} (f : A -> B) (x : tensor A) : tensor B :=
  mkTensor (shape x) (fun idx => f (data x idx)).

(** Elementwise binary operation on two tensors.  For operands of equal
    shape the result is pointwise; a 0-d operand is broadcast against the
    other one.  These are the cases that the code below produces; any
    other pair of shapes is rejected. *)
Definition tzip {A B C : Type} (f : A -> B -> C)
    (x : tensor A) (y : tensor B) : result (tensor C) :=
  if shape_eqb (shape x) (shape y) then
    Ok (mkTensor (shape x) (fun idx => f (data x idx) (data y idx)))
  else match shape x, shape y with
       | [], _ => Ok (mkTensor (shape y) (fun idx => f (data x []) (data y idx)))
       | _, [] => Ok (mkTensor (shape x) (fun idx => f (data x idx) (data y [])))
       | _, _ => Raise ValueError
       end.

(** [x[mask] = v] for a boolean mask of the shape of [x]. *)
Definition masked_fill {A : Type} (x : tensor A) (mask : tensor bool) (v : A)
    : result (tensor A) :=
  if shape_eqb (shape mask) (shape x) then
    Ok (mkTensor (shape x) (fun idx => if data mask idx then v else data x idx))
  else Raise ValueError.

(** [x[i]]: the sub-tensor at position [i] of the first dimension. *)
Definition getitem {A : Type} (x : tensor A) (i : nat) : result (tensor A) :=
  match shape x with
  | [] => Raise IndexError
  | n :: sh' =>
      if i <? n then Ok (mkTensor sh' (fun idx => data x (i :: idx)))
      else Raise IndexError
  end.

(** Broadcasting of a value against a slot, aligned on the last
    dimension: [bcast_index vsh idx] is the index at which a value of
    shape [vsh] is read for the slot index [idx]. *)
Fixpoint bcast_index_rev (vsh_rev idx_rev : list nat) : list nat :=
  match vsh_rev with
  | [] => []
  | d :: vs =>
      match idx_rev with
      | [] => 0 :: bcast_index_rev vs []
      | i :: idx' => (if d =? 1 then 0 else i) :: bcast_index_rev vs idx'
      end
  end.

Definition bcast_index (vsh idx : list nat) : list nat :=
  rev (bcast_index_rev (rev vsh) (rev idx)).

Fixpoint strip_ones (sh : list nat) : list nat :=
  match sh with
  | 1 :: sh' => strip_ones sh'
  | _ => sh
  end.

Fixpoint match_rev (first_rev second_rev : list nat) : bool :=
  match second_rev with
  | [] => true
  | b :: s' =>
      match first_rev with
      | [] => false
      | a :: f' => ((a =? b) || (b =? 1)) && match_rev f' s'
      end
  end.

(** The check of an assignment [x[...] = v]: a value with a single
    element always fits; otherwise, leading dimensions of size 1 apart,
    the dimensions of the value must match the last dimensions of the
    slot, a dimension of size 1 matching any size. *)
Definition dims_match (slot value : list nat) : bool :=
  match strip_ones value with
  | [] => true
  | s => match_rev (rev (strip_ones slot)) (rev s)
  end.

(** [x[i] = v] on the first dimension. *)
Definition setitem {A : Type} (x : tensor A) (i : nat) (v : tensor A)
    : result (tensor A) :=
  match shape x with
  | [] => Raise IndexError
  | n :: sh' =>
      if negb (i <? n) then Raise IndexError
      else if dims_match sh' (shape v) then
        Ok (mkTensor (shape x)
              (fun idx => match idx with
                          | j :: idx' =>
                              if j =? i then data v (bcast_index (shape v) idx')
                              else data x idx
                          | [] => data x idx
                          end))
      else Raise ValueError
  end.

(** *** float32 values that are integers *)

(** The float32 nearest to an integer, ties going to the even
    significand.  A float32 has 24 significant bits: every integer up to
    2^24 in magnitude is a float32, and a greater one is rounded to a
    multiple of the power of two that its 24 leading bits leave.  (No
    count of this development comes near 2^128, where float32 ends.) *)
Definition round_f32 (z : Z) : Z :=
  let a := Z.abs z in
  if (a <=? 2 ^ 24)%Z then z
  else
    let e := (Z.log2 a - 23)%Z in
    let q := (a / 2 ^ e)%Z in
    let r := (a mod 2 ^ e)%Z in
    let half := (2 ^ (e - 1))%Z in
    let q' := if (r <? half)%Z then q
              else if (half <? r)%Z then (q + 1)%Z
              else if Z.even q then q else (q + 1)%Z in
    (Z.sgn z * (q' * 2 ^ e))%Z.

(** [a + b], [a - b] and [a * b] in float32 *)
Definition fadd (a b : Z) : Z := round_f32 (a + b).
Definition fsub (a b : Z) : Z := round_f32 (a - b).
Definition fmul (a b : Z) : Z := round_f32 (a * b).

(** [x.astype('int32')] of one float32 integer: the integer itself when
    it is an int32.  Outside this range the framework does not define
    the conversion; the model returns what the conversion instruction
    of x86 returns. *)
Definition int32_of_float (z : Z) : Z :=
  if ((- 2 ^ 31 <=? z) && (z <? 2 ^ 31))%Z then z else (- 2 ^ 31)%Z.

(** *** Reduction *)

(** The sum of [f 0], ..., [f (n - 1)] in float32, every partial sum
    being rounded. *)
Fixpoint frange_sum (n : nat) (f : nat -> Z) : Z :=
  match n with
  | O => 0%Z
  | S k => fadd (frange_sum k f) (f k)
  end.

(** [fsum_over d sh axes f out]: [sh] are the sizes of the dimensions
    from position [d] on; a dimension whose position is in [axes] is
    summed in float32, any other one is read at the next coordinate of
    [out]. *)
Fixpoint fsum_over (d : nat) (sh axes : list nat) (f : list nat -> Z)
    (out : list nat) : Z :=
  match sh with
  | [] => f []
  | n :: sh' =>
      if existsb (Nat.eqb d) axes then
        frange_sum n (fun i => fsum_over (S d) sh' axes (fun ix => f (i :: ix)) out)
      else
        match out with
        | j :: out' => fsum_over (S d) sh' axes (fun ix => f (j :: ix)) out'
        | [] => 0%Z
        end
  end.

(** The dimensions that a reduction over [axes] leaves. *)
Fixpoint kept_shape (d : nat) (sh axes : list nat) : list nat :=
  match sh with
  | [] => []
  | n :: sh' =>
      if existsb (Nat.eqb d) axes then kept_shape (S d) sh' axes
      else n :: kept_shape (S d) sh' axes
  end.

(** The axes that [paddle.sum] reduces: an empty list of axes stands for
    every dimension, as [axis=None] does. *)
Definition reduce_axes (n : nat) (axes : list nat) : list nat :=
  match axes with
  | [] => range n
  | _ => axes
  end.

(** [paddle.sum(x, axis=axes)] of a float32 tensor of integers, for a
    list of non-negative axes.  An axis that is not a dimension of [x]
    is an error.  The framework does not fix the order in which it adds
    the elements; the model adds along each reduced dimension from the
    first index to the last.  While no partial sum passes 2^24 no
    addition rounds, and every order gives the exact sum. *)
Definition sum (x : tensor Z) (axes : list nat) : result (tensor Z) :=
  if negb (forallb (fun a => a <? ndim x) axes) then Raise ValueError
  else
    let axes' := reduce_axes (ndim x) axes in
    Ok (mkTensor (kept_shape 0 (shape x) axes')
                 (fsum_over 0 (shape x) axes' (data x))).

(** [x.astype('int32')] of a float32 tensor of integers *)
Definition astype_int32 (x : tensor Z) : tensor Z := tmap int32_of_float x.

End Tensor.

Import Tensor.

(** ** [_threshold] *)

Definition is_nan (v : spec_float) : bool :=
  match v with
  | S754_nan => true
  | _ => false
  end.

(** [x >= y] on floats: [y <= x], which is false as soon as one of them
    is NaN. *)
Definition SFgeb (x y : spec_float) : bool := SFleb y x.

(** [x >= T], elementwise, for a scalar [T] *)
Definition ge_scalar (x : tensor spec_float) (T : spec_float) : tensor bool :=
  tmap (fun v => SFgeb v T) x.

(** [b.astype('float32')] of a boolean tensor: the float32 1.0 for
    [True] and 0.0 for [False], each given by the integer it holds *)
Definition astype_float32 (b : tensor bool) : tensor Z := tmap Z.b2z b.

Definition isnan (x : tensor spec_float) : tensor bool := tmap is_nan x.

(** [paddle.logical_or(a, b)].  Operands of different shapes are
    rejected here: were they broadcast instead, the mask would no longer
    have the shape of both indicator tensors and the masked assignments
    of [_threshold] would fail in its place. *)
Definition logical_or (a b : tensor bool) : result (tensor bool) :=
  if shape_eqb (shape a) (shape b) then
    Ok (mkTensor (shape a) (fun idx => data a idx || data b idx))
  else Raise ValueError.

Definition _threshold (target pred : tensor spec_float) (T : spec_float)
    : result (tensor Z * tensor Z) :=
  let t := astype_float32 (ge_scalar target T) in
  let p := astype_float32 (ge_scalar pred T) in
  is_nan <- logical_or (isnan target) (isnan pred) ;;
  t <- masked_fill t is_nan 0%Z ;;
  p <- masked_fill p is_nan 0%Z ;;
  Ok (t, p).

(** ** Dictionaries and numpy values used for the scores *)

Module Scores.

(** A key of the returned mapping: a threshold (an [int]) or ["avg"]. *)
Inductive key : Type :=
| KInt (z : Z)
| KStr (s : string).

Definition key_eqb (a b : key) : bool :=
  match a, b with
  | KInt x, KInt y => (x =? y)%Z
  | KStr x, KStr y => String.eqb x y
  | _, _ => false
  end.

(** A stored score: a Python float or a numpy array of real numbers, or
    a float ([VNaN]) or an array of shape [sh] ([VNaNs sh]) that holds
    no real number: NaN or infinities, which the division of an array
    by zero and the mean of an empty array leave. *)
Inductive value : Type :=
| VFloat (r : R)
| VArray (a : tensor R)
| VNaN
| VNaNs (sh : list nat).

(** Python dictionaries, in insertion order. *)
Definition dict (K V : Type) : Type := list (K * V).

Fixpoint dict_get {K V : Type} (eqb : K -> K -> bool) (d : dict K V) (k : K)
    : option V :=
  match d with
  | [] => None
  | (k', v) :: d' => if eqb k' k then Some v else dict_get eqb d' k
  end.

(** [d[k] = v] *)
Fixpoint dict_set {K V : Type} (eqb : K -> K -> bool) (d : dict K V) (k : K)
    (v : V) : dict K V :=
  match d with
  | [] => [(k, v)]
  | (k', v') :: d' =>
      if eqb k' k then (k', v) :: d' else (k', v') :: dict_set eqb d' k v
  end.

Definition ret_dict : Type := dict key (dict string value).

(** [ret[k][metrics] = v] *)
Definition set_entry (ret : ret_dict) (k : key) (metrics : string) (v : value)
    : result ret_dict :=
  match dict_get key_eqb ret k with
  | None => Raise KeyError
  | Some inner => Ok (dict_set key_eqb ret k (dict_set String.eqb inner metrics v))
  end.

Definition rsum (l : list R) : R := fold_right Rplus 0%R l.

(** [np.zeros((n,))] *)
Definition np_zeros (n : option Z) : result (tensor R) :=
  match n with
  | None => Raise TypeError
  | Some n =>
      if (n <? 0)%Z then Raise ValueError
      else Ok (mkTensor [Z.to_nat n] (fun _ => 0%R))
  end.

(** [a += b] on numpy arrays: [b] is broadcast to the shape of [a]. *)
Definition np_iadd (a b : tensor R) : result (tensor R) :=
  if match_rev (rev (shape a)) (rev (shape b)) then
    Ok (mkTensor (shape a)
          (fun idx => (data a idx + data b (bcast_index (shape b) idx))%R))
  else Raise ValueError.

(** [np.mean(a)]: the mean over all elements. *)
Definition np_mean (a : tensor R) : R :=
  (rsum (map (data a) (all_indices (shape a))) / INR (numel (shape a)))%R.

(** [a.item()] *)
Definition item (a : tensor R) : result R :=
  if numel (shape a) =? 1 then Ok (data a (map (fun _ => 0) (shape a)))
  else Raise ValueError.

(** [np.mean(v).item()]: a float; the mean of an empty array is NaN. *)
Definition value_mean (v : value) : value :=
  match v with
  | VFloat r => VFloat r
  | VArray a => if numel (shape a) =? 0 then VNaN else VFloat (np_mean a)
  | VNaN => VNaN
  | VNaNs _ => VNaN
  end.

(** The shape of a value as an operand of numpy: a float has none. *)
Definition value_shape (v : value) : list nat :=
  match v with
  | VFloat _ => []
  | VArray a => shape a
  | VNaN => []
  | VNaNs sh => sh
  end.

(** [acc += score].  A float takes the shape of the other operand; an
    array is updated in place and the other operand must broadcast to
    its shape.  A sum with an operand that holds no real number holds
    none either. *)
Definition value_iadd (acc score : value) : result value :=
  match acc, score with
  | VFloat a, VFloat s => Ok (VFloat (a + s))
  | VArray a, VArray s => r <- np_iadd a s ;; Ok (VArray r)
  | VArray a, VFloat s => Ok (VArray (tmap (fun x => (x + s)%R) a))
  | VFloat a, VArray s => Ok (VArray (tmap (fun x => (a + x)%R) s))
  | VFloat _, VNaN => Ok VNaN
  | VNaN, VFloat _ => Ok VNaN
  | VNaN, VNaN => Ok VNaN
  | VFloat _, VNaNs sh => Ok (VNaNs sh)
  | VNaN, VArray s => Ok (VNaNs (shape s))
  | VNaN, VNaNs sh => Ok (VNaNs sh)
  | (VArray _ | VNaNs _), (VNaN | VNaNs _)
  | VNaNs _, (VFloat _ | VArray _) =>
      if match_rev (rev (value_shape acc)) (rev (value_shape score))
      then Ok (VNaNs (value_shape acc))
      else Raise ValueError
  end.

(** [acc /= n] for a Python [int] [n]: on a float, Python raises when
    [n] is zero; on an array, numpy divides every element and never
    raises, and the quotients by zero are NaN or infinite. *)
Definition value_idiv (acc : value) (n : nat) : result value :=
  match acc with
  | VFloat a => if n =? 0 then Raise ZeroDivisionError else Ok (VFloat (a / INR n))
  | VArray a =>
      if n =? 0 then Ok (VNaNs (shape a))
      else Ok (VArray (tmap (fun x => (x / INR n)%R) a))
  | VNaN => if n =? 0 then Raise ZeroDivisionError else Ok VNaN
  | VNaNs sh => Ok (VNaNs sh)
  end.

(** A [for] loop that threads an accumulator and stops at the first
    exception. *)
Fixpoint foldM {A S : Type} (body : S -> A -> result S) (l : list A) (s : S)
    : result S :=
  match l with
  | [] => Ok s
  | a :: l' => s' <- body s a ;; foldM body l' s'
  end.

End Scores.

Import Scores.

(** ** The skill-score accumulator *)

Module SEVIR.

Record SEVIRSkillScore : Type := mkSkillScore {
  layout : string;
  preprocess_type : string;
  threshold_list : list Z;
  metrics_list : list string;
  eps : R;
  mode : string;
  seq_len : option Z;
  keep_seq_len_dim : bool;
  hits : tensor Z;
  misses : tensor Z;
  fas : tensor Z
}.

(** The local [state_shape] of [__init__] in the modes that keep the
    sequence dimension. *)
Definition state_shape_seq (threshold_list : list Z) (seq_len : Z) : list Z :=
  [Z.of_nat (List.length threshold_list); seq_len].

(** [__init__]: [seq_len] is [None] or an [int]; the assertion of the
    modes "1" and "2" fails on [None].  The three counts are allocated
    before the branch on the mode, and [state_shape] is not used after
    it is computed. *)
Definition __init__ (layout mode : string) (seq_len : option Z)
    (preprocess_type : string) (threshold_list : list Z)
    (metrics_list : list string) (eps : R) : result SEVIRSkillScore :=
  let hits := zeros [List.length threshold_list] in
  let misses := zeros [List.length threshold_list] in
  let fas := zeros [List.length threshold_list] in
  let self keep :=
    mkSkillScore layout preprocess_type threshold_list metrics_list eps mode
      seq_len keep hits misses fas in
  if str_in mode ["0"%string] then
    let state_shape := [Z.of_nat (List.length threshold_list)] in
    Ok (self false)
  else if str_in mode ["1"%string; "2"%string] then
    match seq_len with
    | None => Raise AssertionError
    | Some n =>
        let state_shape := state_shape_seq threshold_list n in
        Ok (self true)
    end
  else Raise NotImplementedError.

(** *** The metrics, on tensors of counts *)

Definition add_scalar (x : tensor R) (c : R) : tensor R :=
  tmap (fun v => (v + c)%R) x.

Definition pod (hits misses fas : tensor R) (eps : R) : result (tensor R) :=
  s <- tzip Rplus hits misses ;;
  tzip Rdiv hits (add_scalar s eps).

Definition sucr (hits misses fas : tensor R) (eps : R) : result (tensor R) :=
  s <- tzip Rplus hits fas ;;
  tzip Rdiv hits (add_scalar s eps).

Definition csi (hits misses fas : tensor R) (eps : R) : result (tensor R) :=
  s <- tzip Rplus hits misses ;;
  s <- tzip Rplus s fas ;;
  tzip Rdiv hits (add_scalar s eps).

Definition bias (hits misses fas : tensor R) (eps : R) : result (tensor R) :=
  n <- tzip Rplus hits fas ;;
  s <- tzip Rplus hits misses ;;
  bias <- tzip Rdiv n (add_scalar s eps) ;;
  let logbias := tmap (fun b => ((b / ln 2) ^ 2)%R) bias in
  Ok logbias.

(** *** Confusion counts of one batch *)

(** The property [hits_misses_fas_reduce_dims].  The source caches the
    list on first use; it is computed from [layout] and
    [keep_seq_len_dim], which no method assigns after [__init__]. *)
Definition hits_misses_fas_reduce_dims (self : SEVIRSkillScore)
    : result (list nat) :=
  let seq_dim := find (layout self) "T"%char in
  let dims := range (String.length (layout self)) in
  if keep_seq_len_dim self then pop dims seq_dim else Ok dims.

(** A threshold of [threshold_list], an [int], as the float32 scalar
    with which the fields are compared. *)
Definition float_of_int (z : Z) : spec_float := binary_normalize 24 128 z 0 false.

(** The products and the sums are taken in float32, and each sum is
    then cast to int32. *)
Definition calc_seq_hits_misses_fas (self : SEVIRSkillScore)
    (pred target : tensor spec_float) (threshold : Z)
    : result (tensor Z * tensor Z * tensor Z) :=
  '(t, p) <- _threshold target pred (float_of_int threshold) ;;
  tp <- tzip fmul t p ;;
  axis <- hits_misses_fas_reduce_dims self ;;
  hits <- Tensor.sum tp axis ;;
  let hits := astype_int32 hits in
  tnp <- tzip fmul t (tmap (fun v => fsub 1 v) p) ;;
  misses <- Tensor.sum tnp axis ;;
  let misses := astype_int32 misses in
  ntp <- tzip fmul (tmap (fun v => fsub 1 v) t) p ;;
  fas <- Tensor.sum ntp axis ;;
  let fas := astype_int32 fas in
  Ok (hits, misses, fas).

(** *** Methods that read or assign [self] *)

Definition M (A : Type) : Type :=
  SEVIRSkillScore -> SEVIRSkillScore * result A.

Definition mret {A : Type} (a : A) : M A := fun self => (self, Ok a).

Definition mbind {A B : Type} (m : M A) (k : A -> M B) : M B :=
  fun self =>
    match m self with
    | (self', Ok a) => k a self'
    | (self', Raise e) => (self', Raise e)
    end.

Definition reads {A : Type} (f : SEVIRSkillScore -> result A) : M A :=
  fun self => (self, f self).

Fixpoint for_each {A : Type} (l : list A) (body : A -> M unit) : M unit :=
  match l with
  | [] => mret tt
  | a :: l' => mbind (body a) (fun _ => for_each l' body)
  end.

Definition set_hits (self : SEVIRSkillScore) (h : tensor Z) : SEVIRSkillScore :=
  mkSkillScore (layout self) (preprocess_type self) (threshold_list self)
    (metrics_list self) (eps self) (mode self) (seq_len self)
    (keep_seq_len_dim self) h (misses self) (fas self).

Definition set_misses (self : SEVIRSkillScore) (m : tensor Z) : SEVIRSkillScore :=
  mkSkillScore (layout self) (preprocess_type self) (threshold_list self)
    (metrics_list self) (eps self) (mode self) (seq_len self)
    (keep_seq_len_dim self) (hits self) m (fas self).

Definition set_fas (self : SEVIRSkillScore) (f : tensor Z) : SEVIRSkillScore :=
  mkSkillScore (layout self) (preprocess_type self) (threshold_list self)
    (metrics_list self) (eps self) (mode self) (seq_len self)
    (keep_seq_len_dim self) (hits self) (misses self) f.

(** [x[i] += v] for a float32 tensor [x] and an int32 tensor [v]: the
    framework converts [v] to float32, the type of [x[i]], and adds in
    float32. *)
Definition iadd_item (x : tensor Z) (i : nat) (v : tensor Z) : result (tensor Z) :=
  cur <- getitem x i ;;
  s <- tzip fadd cur (tmap round_f32 v) ;;
  setitem x i s.

(** An assignment [self.field[i] += v]: [self] changes only when the
    assignment goes through. *)
Definition iadd_field (field : SEVIRSkillScore -> tensor Z)
    (set : SEVIRSkillScore -> tensor Z -> SEVIRSkillScore)
    (i : nat) (v : tensor Z) : M unit :=
  fun self =>
    match iadd_item (field self) i v with
    | Ok x => (set self x, Ok tt)
    | Raise e => (self, Raise e)
    end.

Definition metrics_dict
    : dict string (tensor R -> tensor R -> tensor R -> R -> result (tensor R)) :=
  [("pod"%string, pod); ("csi"%string, csi); ("sucr"%string, sucr);
   ("bias"%string, bias)].

(** The two branches on [self.mode] of [compute], one for the score of a
    threshold and one for the average: both store the score as it is in
    modes "0" and "1", and its mean in mode "2". *)
Definition store (mode : string) (ret : ret_dict) (k : key) (metrics : string)
    (score : value) : result ret_dict :=
  if str_in mode ["0"%string; "1"%string] then set_entry ret k metrics score
  else if str_in mode ["2"%string] then
    set_entry ret k metrics (value_mean score)
  else Raise NotImplementedError.

(** [scores[i]], or [scores[i].item()] when the sequence dimension is not
    kept *)
Definition score_at (keep : bool) (scores : tensor R) (i : nat) : result value :=
  s <- getitem scores i ;;
  if keep then Ok (VArray s) else (r <- item s ;; Ok (VFloat r)).

(** The body of the loop over [enumerate(self.threshold_list)] for one
    metric. *)
Definition threshold_step (self : SEVIRSkillScore) (metrics : string)
    (scores : tensor R) (acc : ret_dict * value) (it : nat * Z)
    : result (ret_dict * value) :=
  let '(ret, score_avg) := acc in
  let '(i, threshold) := it in
  score <- score_at (keep_seq_len_dim self) scores i ;;
  ret <- store (mode self) ret (KInt threshold) metrics score ;;
  score_avg <- value_iadd score_avg score ;;
  Ok (ret, score_avg).

(** The body of the loop over [self.metrics_list]. *)
Definition metric_step (self : SEVIRSkillScore) (ret : ret_dict)
    (metrics : string) : result ret_dict :=
  score_avg <- (if keep_seq_len_dim self
                then (z <- np_zeros (seq_len self) ;; Ok (VArray z))
                else Ok (VFloat 0)) ;;
  f <- match dict_get String.eqb metrics_dict metrics with
       | Some f => Ok f
       | None => Raise KeyError
       end ;;
  scores <- f (tmap IZR (hits self)) (tmap IZR (misses self))
              (tmap IZR (fas self)) (eps self) ;;
  '(ret, score_avg) <- foldM (threshold_step self metrics scores)
                         (enumerate (threshold_list self)) (ret, score_avg) ;;
  score_avg <- value_idiv score_avg (List.length (threshold_list self)) ;;
  store (mode self) ret (KStr "avg") metrics score_avg.

(** The second part of [compute]: the scores from the accumulated
    counts. *)
Definition scores_of (self : SEVIRSkillScore) : result ret_dict :=
  let ret :=
    fold_left (fun ret threshold => dict_set key_eqb ret (KInt threshold) [])
      (threshold_list self) [] in
  let ret := dict_set key_eqb ret (KStr "avg") [] in
  foldM (metric_step self) (metrics_list self) ret.

Section WithDataset.

(** [SEVIRDataset.process_data_dict_back] on the field ['vil'], which is
    outside this repository's sources. *)
Variable process_data_dict_back : tensor spec_float -> tensor spec_float.

Definition preprocess (self : SEVIRSkillScore) (pred target : tensor spec_float)
    : result (tensor spec_float * tensor spec_float) :=
  if String.eqb (preprocess_type self) "sevir" then
    let pred := process_data_dict_back pred in
    let target := process_data_dict_back target in
    Ok (pred, target)
  else Raise NotImplementedError.

(** The body of the first loop of [compute]. *)
Definition accumulate_step (pred target : tensor spec_float) (it : nat * Z)
    : M unit :=
  let '(i, threshold) := it in
  mbind (reads (fun self => calc_seq_hits_misses_fas self pred target threshold))
    (fun '(h, m, f) =>
       mbind (iadd_field hits set_hits i h) (fun _ =>
       mbind (iadd_field misses set_misses i m) (fun _ =>
       iadd_field fas set_fas i f))).

Definition compute (pred target : tensor spec_float) : M ret_dict :=
  mbind (reads (fun self => preprocess self pred target))
    (fun '(pred, target) =>
       mbind (fun self =>
                for_each (enumerate (threshold_list self))
                  (accumulate_step pred target) self)
         (fun _ => reads scores_of)).

End WithDataset.

End SEVIR.

(** ** The FNO network *)

Module FNO.

(** The constructor argument [domain_padding]: [None], a list of
    numbers, a single number, or an object of another type.  The
    numbers are Python floats, binary64 values of IEEE 754. *)
Inductive padding_arg : Type :=
| PadNone
| PadList (l : list spec_float)
| PadNumber (x : spec_float)
| PadOther.

(** [fno_block.DomainPadding(domain_padding=..., padding_mode=...)] *)
Record DomainPadding : Type := mkDomainPadding {
  padding : padding_arg;
  padding_mode : string
}.

(** [sum(l)] of a list of floats: Python adds them to 0 one after the
    other, from the first to the last, each addition rounding to
    binary64.  (This is the summation of CPython up to 3.11; from 3.12
    on [sum] also carries a compensation term for the rounding errors
    of floats, which this model leaves out.) *)
Definition float_sum (l : list spec_float) : spec_float :=
  fold_left (SFadd 53 1024) l (S754_zero false).

(** [x > 0], which is false for NaN *)
Definition positive (x : spec_float) : bool := SFltb (S754_zero false) x.

(** The attribute [self.domain_padding] that [__init__] sets. *)
Definition init_domain_padding (domain_padding : padding_arg)
    (domain_padding_mode : string) : option DomainPadding :=
  match domain_padding with
  | PadNone => None
  | PadList l =>
      if positive (float_sum l)
      then Some (mkDomainPadding domain_padding domain_padding_mode)
      else None
  | PadNumber x =>
      if positive x
      then Some (mkDomainPadding domain_padding domain_padding_mode)
      else None
  | PadOther => None
  end.

(** The attributes of an [FNONet] that [forward] reads. *)
Record FNONet : Type := mkFNONet {
  input_keys : list string;
  output_keys : list string;
  n_layers : Z;
  domain_padding : option DomainPadding
}.

Definition __init__ (input_keys output_keys : list string) (n_layers : Z)
    (domain_padding : padding_arg) (domain_padding_mode : string) : FNONet :=
  mkFNONet input_keys output_keys n_layers
    (init_domain_padding domain_padding domain_padding_mode).

Section Forward.

(** The tensors and the layers come from [ppsci.arch.base] and
    [ppsci.arch.fno_block], outside this repository's sources. *)
Variable T : Type.
Variable concat_to_tensor : dict string T -> list string -> T.
Variable lifting : T -> T.
Variable projection : T -> T.
Variable pad : DomainPadding -> T -> T.
Variable unpad : DomainPadding -> T -> T.
Variable fno_blocks : T -> nat -> T.

Definition forward (self : FNONet) (x : dict string T) : result (dict string T) :=
  let x := concat_to_tensor x (input_keys self) in
  let x := lifting x in
  let x := match domain_padding self with
           | Some dp => pad dp x
           | None => x
           end in
  let x := fold_left (fun x index => fno_blocks x index)
             (range (Z.to_nat (n_layers self))) x in
  let x := match domain_padding self with
           | Some dp => unpad dp x
           | None => x
           end in
  let out := projection x in
  match output_keys self with
  | k :: _ => Ok [(k, out)]
  | [] => Raise IndexError
  end.

(** The pipeline as the description gives it: the Fourier blocks
    [i], [i+1], ..., one after the other. *)
Fixpoint blocks_in_order (i n : nat) (x : T) : T :=
  match n with
  | O => x
  | S n' => blocks_in_order (S i) n' (fno_blocks x i)
  end.

Definition pad_when_configured (dp : option DomainPadding) (x : T) : T :=
  match dp with
  | Some d => pad d x
  | None => x
  end.

Definition unpad_when_configured (dp : option DomainPadding) (x : T) : T :=
  match dp with
  | Some d => unpad d x
  | None => x
  end.

Definition pipeline (self : FNONet) (x : dict string T) : T :=
  projection
    (unpad_when_configured (domain_padding self)
       (blocks_in_order 0 (Z.to_nat (n_layers self))
          (pad_when_configured (domain_padding self)
             (lifting (concat_to_tensor x (input_keys self)))))).

End Forward.

End FNO.

(** ** Names of the parameters of a model *)

Module ParameterNames.

Section WithClasses.

(** The classes of the layers and [issubclass] on them come from the
    framework. *)
Variable cls : Type.
Variable issubclass : cls -> cls -> bool.

(** What [get_parameter_names] reads of a layer: its class, the keys of
    [model._parameters] and the pairs that [model.named_children()]
    yields. *)
#[warnings="-register-all"]
Inductive Layer : Type :=
| mkLayer (layer_class : cls) (_parameters : list string)
    (named_children : list (string * Layer)).

Definition layer_class (m : Layer) : cls :=
  match m with mkLayer c _ _ => c end.

Definition _parameters (m : Layer) : list string :=
  match m with mkLayer _ ps _ => ps end.

Definition named_children (m : Layer) : list (string * Layer) :=
  match m with mkLayer _ _ ch => ch end.

(** [isinstance(m, tuple(types))] *)
Definition isinstance (m : Layer) (types : list cls) : bool :=
  existsb (issubclass (layer_class m)) types.

(** ["{name}.{n}"] *)
Definition dotted (name n : string) : string := name ++ "." ++ n.

Fixpoint get_parameter_names (model : Layer) (forbidden_layer_types : list cls)
    : list string :=
  match model with
  | mkLayer _ params children =>
      (fix loop (l : list (string * Layer)) : list string :=
         match l with
         | [] => []
         | (name, child) :: l' =>
             map (dotted name)
               (filter (fun _ => negb (isinstance child forbidden_layer_types))
                  (get_parameter_names child forbidden_layer_types))
             ++ loop l'
         end) children
      ++ params
  end.

(** The number of parameters of a model and of all the layers below it. *)
Fixpoint count_parameters (model : Layer) : nat :=
  match model with
  | mkLayer _ params children =>
      (fix loop (l : list (string * Layer)) : nat :=
         match l with
         | [] => 0
         | (_, child) :: l' => count_parameters child + loop l'
         end) children
      + List.length params
  end.

(** [reaches forbidden m s]: [s] is the dotted path, from [m], of a
    parameter of [m] or of a layer below [m], and no layer on the way
    down to the parameter's owner (that owner included, [m] excluded) is
    an instance of a forbidden type. *)
Inductive reaches (forbidden : list cls) : Layer -> string -> Prop :=
| reaches_own (m : Layer) (p : string) :
    In p (_parameters m) -> reaches forbidden m p
| reaches_child (m : Layer) (name : string) (child : Layer) (n : string) :
    In (name, child) (named_children m) ->
    isinstance child forbidden = false ->
    reaches forbidden child n ->
    reaches forbidden m (dotted name n).

End WithClasses.

End ParameterNames.

(** ** [eval_rmse_func] *)

Module Evaluation.

Record eval_rmse_func : Type := mk_eval_rmse_func {
  out_len : Z;
  layout : string;
  metrics_mode : string;
  metrics_list : list string;
  threshold_list : list Z
}.

(** [d[k]] on a dictionary with string keys *)
Definition getkey {V : Type} (d : dict string V) (k : string) : result V :=
  match dict_get String.eqb d k with
  | Some v => Ok v
  | None => Raise KeyError
  end.

(** [x[i, ...].unsqueeze(0)] *)
Definition sample {A : Type} (x : tensor A) (i : nat) : result (tensor A) :=
  s <- getitem x i ;;
  Ok (mkTensor (1 :: shape s) (fun idx => data s (tl idx))).

(** [ret[k][name]] *)
Definition getitem2 (ret : ret_dict) (k : key) (name : string) : result value :=
  inner <- match dict_get key_eqb ret k with
           | Some inner => Ok inner
           | None => Raise KeyError
           end ;;
  getkey inner name.

(** An element of a tensor of scores: a real number, or [None] for
    NaN and the infinities. *)
Definition score : Type := option R.

(** [paddle.to_tensor(v)] of a stored score *)
Definition to_tensor (v : value) : tensor score :=
  match v with
  | VFloat r => scalar (Some r)
  | VArray a => tmap Some a
  | VNaN => scalar None
  | VNaNs sh => mkTensor sh (fun _ => None)
  end.

(** [- x] *)
Definition neg (x : tensor score) : tensor score := tmap (option_map Ropp) x.

(** [paddle.zeros(shape=[B])] as a tensor of scores *)
Definition rzeros (B : nat) : tensor score := mkTensor [B] (fun _ => Some 0%R).

(** The eight tensors that the loop of [__call__] fills. *)
Record columns : Type := mkColumns {
  csi_loss : tensor score;
  csi_m : tensor score;
  csi_219 : tensor score;
  csi_181 : tensor score;
  csi_160 : tensor score;
  csi_133 : tensor score;
  csi_74 : tensor score;
  csi_16 : tensor score
}.

(** The assignments of one round of the loop, from the scores that
    [compute] returned. *)
Definition record_scores (i : nat) (sevir_valid_score : ret_dict) (c : columns)
    : result columns :=
  v <- getitem2 sevir_valid_score (KStr "avg") "csi" ;;
  csi_loss' <- setitem (csi_loss c) i (neg (to_tensor v)) ;;
  v <- getitem2 sevir_valid_score (KStr "avg") "csi" ;;
  csi_m' <- setitem (csi_m c) i (to_tensor v) ;;
  v <- getitem2 sevir_valid_score (KInt 219) "csi" ;;
  csi_219' <- setitem (csi_219 c) i (to_tensor v) ;;
  v <- getitem2 sevir_valid_score (KInt 181) "csi" ;;
  csi_181' <- setitem (csi_181 c) i (to_tensor v) ;;
  v <- getitem2 sevir_valid_score (KInt 160) "csi" ;;
  csi_160' <- setitem (csi_160 c) i (to_tensor v) ;;
  v <- getitem2 sevir_valid_score (KInt 133) "csi" ;;
  csi_133' <- setitem (csi_133 c) i (to_tensor v) ;;
  v <- getitem2 sevir_valid_score (KInt 74) "csi" ;;
  csi_74' <- setitem (csi_74 c) i (to_tensor v) ;;
  v <- getitem2 sevir_valid_score (KInt 16) "csi" ;;
  csi_16' <- setitem (csi_16 c) i (to_tensor v) ;;
  Ok (mkColumns csi_loss' csi_m' csi_219' csi_181' csi_160' csi_133' csi_74'
        csi_16').

(** A value of the returned dictionary: a loss of the framework or a
    tensor of scores. *)
Inductive out_value (L : Type) : Type :=
| Loss (l : L)
| Score (t : tensor score).

Arguments Loss {L} l.
Arguments Score {L} t.

Section WithFramework.

(** [SEVIRDataset.process_data_dict_back], [Tensor.reshape] and the
    losses of [paddle.nn.functional] with their means are outside this
    repository's sources.  [reshape_leading x] stands for
    [x.reshape([-1, *x.shape[2:]])], [l1_loss_mean] and [mse_loss_mean]
    for the loss with reduction "none" followed by the mean over every
    axis but the first. *)
Variable process_data_dict_back : tensor spec_float -> tensor spec_float.
Variable L : Type.
Variable reshape_leading : tensor spec_float -> result (tensor spec_float).
Variable l1_loss_mean : tensor spec_float -> tensor spec_float -> result L.
Variable mse_loss_mean : tensor spec_float -> tensor spec_float -> result L.

(** One round of the loop over [range(B)]: the instance [sevir_score]
    is the one that the rounds before have updated. *)
Definition round (pred vil_target : tensor spec_float)
    (st : SEVIR.SEVIRSkillScore * columns) (i : nat)
    : result (SEVIR.SEVIRSkillScore * columns) :=
  let '(sevir_score, c) := st in
  p <- sample pred i ;;
  t <- sample vil_target i ;;
  match SEVIR.compute process_data_dict_back p t sevir_score with
  | (sevir_score, Ok sevir_valid_score) =>
      c <- record_scores i sevir_valid_score c ;;
      Ok (sevir_score, c)
  | (_, Raise e) => Raise e
  end.

Definition __call__ (self : eval_rmse_func)
    (output_dict label_dict : dict string (tensor spec_float))
    : result (dict string (out_value L)) :=
  pred <- getkey output_dict "vil" ;;
  vil_target <- getkey label_dict "vil" ;;
  vil_target <- reshape_leading vil_target ;;
  mae <- l1_loss_mean pred vil_target ;;
  mse <- mse_loss_mean pred vil_target ;;
  sevir_score <- SEVIR.__init__ (layout self) (metrics_mode self)
                   (Some (out_len self)) "sevir" (threshold_list self)
                   (metrics_list self) (1 / 10000)%R ;;
  B <- match shape pred with
       | B :: _ => Ok B
       | [] => Raise IndexError
       end ;;
  let z := rzeros B in
  '(_, c) <- foldM (round pred vil_target) (range B)
               (sevir_score, mkColumns z z z z z z z z) ;;
  Ok [("valid_loss_epoch"%string, Score (csi_loss c));
      ("mse"%string, Loss mse);
      ("mae"%string, Loss mae);
      ("csi_m"%string, Score (csi_m c));
      ("csi_219"%string, Score (csi_219 c));
      ("csi_181"%string, Score (csi_181 c));
      ("csi_160"%string, Score (csi_160 c));
      ("csi_133"%string, Score (csi_133 c));
      ("csi_74"%string, Score (csi_74 c));
      ("csi_16"%string, Score (csi_16 c))].

End WithFramework.

End Evaluation.

(** * Reference definitions and example data *)

Import SEVIR.

(** The value of an indicator of [_threshold] at one position, as the
    description gives it: 0 where the target or the prediction is NaN,
    else 1 where the value is >= T, else 0. *)
Definition indicator (target pred : tensor spec_float) (T : spec_float)
    (x : tensor spec_float) (idx : list nat) : Z :=
  if is_nan (data target idx) || is_nan (data pred idx) then 0%Z
  else if SFgeb (data x idx) T then 1%Z else 0%Z.



Definition zsum (l : list Z) : Z := fold_right Z.add 0%Z l.

(** The number of positions of a shape, among those that [sel] selects,
    at which [c] holds. *)
Definition count_where (sh : list nat) (sel c : list nat -> bool) : Z :=
  zsum (map (fun idx => Z.b2z (c idx)) (filter sel (all_indices sh))).

(** An indicator read as a truth value. *)
Definition is_one (x : tensor Z) (idx : list nat) : bool :=
  (data x idx =? 1)%Z.

(** The positions that lie at step [k] of dimension [seq_dim]. *)
Definition at_step (seq_dim k : nat) (idx : list nat) : bool :=
  nth seq_dim idx 0 =? k.

(** Hits, misses and false alarms as counts of positions: [t AND p],
    [t AND NOT p] and [NOT t AND p] over the positions that [sel]
    selects. *)
Definition counts_are (sh : list nat) (sel : list nat -> bool) (t p : tensor Z)
    (h m f : Z) : Prop :=
  h = count_where sh sel (fun idx => is_one t idx && is_one p idx) /\
  m = count_where sh sel (fun idx => is_one t idx && negb (is_one p idx)) /\
  f = count_where sh sel (fun idx => negb (is_one t idx) && is_one p idx).

(** The position that [pop] removes for an index between -1 and the
    length of the list. *)
Definition pop_position (n : nat) (i : Z) : nat :=
  if (i <? 0)%Z then n - 1 else Z.to_nat i.

(** The exact sum of [f 0], ..., [f (n - 1)]. *)
Fixpoint range_sum (n : nat) (f : nat -> Z) : Z :=
  match n with
  | O => 0%Z
  | S k => (range_sum k f + f k)%Z
  end.

(** The exact sums that [fsum_over] rounds. *)
Fixpoint sum_over (d : nat) (sh axes : list nat) (f : list nat -> Z)
    (out : list nat) : Z :=
  match sh with
  | [] => f []
  | n :: sh' =>
      if existsb (Nat.eqb d) axes then
        range_sum n (fun i => sum_over (S d) sh' axes (fun ix => f (i :: ix)) out)
      else
        match out with
        | j :: out' => sum_over (S d) sh' axes (fun ix => f (j :: ix)) out'
        | [] => 0%Z
        end
  end.

(** The reduction of the function [f] on the positions of [sh] over
    [axis] with exact sums. *)
Definition reduced (sh axis : list nat) (f : list nat -> Z) : tensor Z :=
  mkTensor (kept_shape 0 sh (reduce_axes (List.length sh) axis))
           (sum_over 0 sh (reduce_axes (List.length sh) axis) f).

(** The reduction of the function [f] on the positions of [sh] over
    [axis], as [Tensor.sum] forms it in float32. *)
Definition freduced (sh axis : list nat) (f : list nat -> Z) : tensor Z :=
  mkTensor (kept_shape 0 sh (reduce_axes (List.length sh) axis))
           (fsum_over 0 sh (reduce_axes (List.length sh) axis) f).

(** The binary64 nearest to [m * 2^e]. *)
Definition binary64 (m e : Z) : spec_float := binary_normalize 53 1024 m e false.

(** A field of shape (1, 1, 1, 2) in the layout "NHWT": one pixel at two
    time steps. *)
Definition two_steps (a b : spec_float) : tensor spec_float :=
  mkTensor [1; 1; 1; 2]
    (fun idx => match idx with
                | [_; _; _; 0] => a
                | _ => b
                end).

Definition target_example : tensor spec_float :=
  two_steps (float_of_int 20) (float_of_int 10).

Definition pred_example : tensor spec_float :=
  two_steps (float_of_int 20) (float_of_int 30).

(** The instances that [SEVIRSkillScore(layout="NHWT", mode=m, seq_len=2,
    threshold_list=(16,), metrics_list=("csi",))] builds. *)
Definition score_example (m : string) : result SEVIRSkillScore :=
  __init__ "NHWT" m (Some 2%Z) "sevir" [16%Z] ["csi"%string] (1 / 10000)%R.

Definition instance_example (m : string) (keep : bool) : SEVIRSkillScore :=
  mkSkillScore "NHWT" "sevir" [16%Z] ["csi"%string] (1 / 10000)%R m (Some 2%Z)
    keep (zeros [1]) (zeros [1]) (zeros [1]).

(** Accumulated counts of one threshold as a float tensor of shape (1,). *)
Definition counts (n : Z) : tensor R := of_list 0%R [IZR n].

(** The bias of the description: the counts' ratio. *)
Definition count_ratio (h m f eps : R) : R := ((h + f) / (h + m + eps))%R.

(** Layers that record their application, to read off the order in which
    [forward] applies them. *)
Definition trace : Type := list (string * nat).

Definition trace_concat (x : dict string trace) (keys : list string) : trace :=
  flat_map (fun k => match dict_get String.eqb x k with
                     | Some t => t
                     | None => []
                     end) keys.

Definition trace_layer (name : string) (t : trace) : trace :=
  t ++ [(name, 0)].

Definition trace_block (t : trace) (index : nat) : trace :=
  t ++ [("fno_blocks"%string, index)].

Definition net_example : FNO.FNONet :=
  FNO.__init__ ["input"%string] ["output"%string] 2
    (FNO.PadNumber (binary64 7205759403792794 (-56))) "one-sided".

(** The names that [metrics_dict] of [compute] knows. *)
Definition known_metrics : list string :=
  ["pod"%string; "csi"%string; "sucr"%string; "bias"%string].

(** [self.mode = m], assigned from outside after construction. *)
Definition set_mode (self : SEVIRSkillScore) (m : string) : SEVIRSkillScore :=
  mkSkillScore (layout self) (preprocess_type self) (threshold_list self)
    (metrics_list self) (eps self) m (seq_len self)
    (keep_seq_len_dim self) (hits self) (misses self) (fas self).

(** [ret[k][name]], when both keys are present. *)
Definition lookup (ret : ret_dict) (k : key) (name : string) : option value :=
  match dict_get key_eqb ret k with
  | Some inner => dict_get String.eqb inner name
  | None => None
  end.

(** The value of a metric on the counts of one threshold, as the source
    computes it. *)
Definition score_value (name : string) (h m f e : R) : R :=
  if String.eqb name "pod" then (h / (h + m + e))%R
  else if String.eqb name "csi" then (h / (h + m + f + e))%R
  else if String.eqb name "sucr" then (h / (h + f + e))%R
  else ((count_ratio h m f e / ln 2) ^ 2)%R.

(** The score of the metric [name] for the threshold at position [i] of
    the threshold list, from the accumulated counts of [self]. *)
Definition threshold_score (self : SEVIRSkillScore) (name : string) (i : nat) : R :=
  score_value name (IZR (data (hits self) [i])) (IZR (data (misses self) [i]))
    (IZR (data (fas self) [i])) (eps self).

(** The arithmetic mean of the scores over the threshold list. *)
Definition mean_score (self : SEVIRSkillScore) (name : string) : R :=
  (rsum (map (threshold_score self name)
           (seq 0 (List.length (threshold_list self))))
   / INR (List.length (threshold_list self)))%R.

(** The counts of one batch for a threshold, when the sequence dimension
    is not kept. *)
Definition batch_counts (self : SEVIRSkillScore) (pred target : tensor spec_float)
    (threshold : Z) : Z * Z * Z :=
  match calc_seq_hits_misses_fas self pred target threshold with
  | Ok (h, m, f) => (data h [], data m [], data f [])
  | Raise _ => (0, 0, 0)%Z
  end.

(** A 1-d float32 tensor with the int32 [d] added at position [i]:
    [d] is converted to float32 and the sum is rounded. *)
Definition bump (x : tensor Z) (i : nat) (d : Z) : tensor Z :=
  mkTensor (shape x)
    (fun idx => match idx with
                | j :: _ => if j =? i then fadd (data x [i]) (round_f32 d)
                            else data x idx
                | [] => data x idx
                end).

(** The instance after the counts [c] of a batch were added at position
    [i]. *)
Definition add_batch (self : SEVIRSkillScore) (i : nat) (c : Z * Z * Z)
    : SEVIRSkillScore :=
  let '(h, m, f) := c in
  set_fas (set_misses (set_hits self (bump (hits self) i h))
             (bump (misses self) i m))
    (bump (fas self) i f).

(** The instance after the first loop of [compute] went over [items],
    the counts of the batch being those that [self0] computes. *)
Definition accumulated (self0 : SEVIRSkillScore) (pred target : tensor spec_float)
    (items : list (nat * Z)) (self : SEVIRSkillScore) : SEVIRSkillScore :=
  fold_left
    (fun s it => add_batch s (fst it) (batch_counts self0 pred target (snd it)))
    items self.

(** The attributes that fix how an instance counts and scores. *)
Definition same_config (s1 s2 : SEVIRSkillScore) : Prop :=
  layout s1 = layout s2 /\ preprocess_type s1 = preprocess_type s2 /\
  threshold_list s1 = threshold_list s2 /\ metrics_list s1 = metrics_list s2 /\
  eps s1 = eps s2 /\ mode s1 = mode s2 /\ seq_len s1 = seq_len s2 /\
  keep_seq_len_dim s1 = keep_seq_len_dim s2.

(** The three counts are 1-d tensors of length [n]. *)
Definition state_1d (self : SEVIRSkillScore) (n : nat) : Prop :=
  shape (hits self) = [n] /\ shape (misses self) = [n] /\ shape (fas self) = [n].

Definition hits_of (c : Z * Z * Z) : Z := fst (fst c).
Definition misses_of (c : Z * Z * Z) : Z := snd (fst c).
Definition fas_of (c : Z * Z * Z) : Z := snd c.

(** The mapping with which [compute] starts: an empty entry for every
    threshold and for ["avg"]. *)
Definition empty_scores (thresholds : list Z) : ret_dict :=
  dict_set key_eqb
    (fold_left (fun ret threshold => dict_set key_eqb ret (KInt threshold) [])
       thresholds [])
    (KStr "avg") [].

(** Two mappings have the same keys. *)
Definition same_keys (r1 r2 : ret_dict) : Prop :=
  forall k, dict_get key_eqb r1 k = None <-> dict_get key_eqb r2 k = None.

(** The three counts of two instances have the same shapes. *)
Definition same_shapes (s1 s2 : SEVIRSkillScore) : Prop :=
  shape (hits s2) = shape (hits s1) /\
  shape (misses s2) = shape (misses s1) /\
  shape (fas s2) = shape (fas s1).

(** An instance that keeps the sequence dimension over a layout without
    'T'. *)
Definition instance_without_T : SEVIRSkillScore :=
  mkSkillScore "NHWC" "sevir" [16%Z] ["csi"%string] (1 / 10000)%R "1" (Some 2%Z)
    true (zeros [1]) (zeros [1]) (zeros [1]).

(** A model with a linear layer and a normalisation layer, the classes
    being named by strings and compared by equality. *)
Definition model_example : ParameterNames.Layer string :=
  ParameterNames.mkLayer "Net"%string ["scale"%string]
    [("linear"%string,
      ParameterNames.mkLayer "Linear"%string ["weight"%string; "bias"%string] []);
     ("norm"%string,
      ParameterNames.mkLayer "LayerNorm"%string ["weight"%string; "bias"%string] [])].

(** An instance of mode "0" whose second metric is not one of
    [metrics_dict]. *)
Definition instance_unknown_metric : SEVIRSkillScore :=
  mkSkillScore "NHWT" "sevir" [16%Z] ["csi"%string; "f1"%string] (1 / 10000)%R
    "0" None false (zeros [1]) (zeros [1]) (zeros [1]).

(** The instance after [compute] was called on each batch
    [(pred, target)] of a list in turn, whether the calls returned or
    raised. *)
Definition after_calls
    (process_data_dict_back : tensor spec_float -> tensor spec_float)
    (batches : list (tensor spec_float * tensor spec_float))
    (self : SEVIRSkillScore) : SEVIRSkillScore :=
  fold_left
    (fun s b => fst (compute process_data_dict_back (fst b) (snd b) s))
    batches self.

(** A batch fits an instance: after [process_data_dict_back] the target
    and the prediction have one shape, with one dimension per letter of
    the layout. *)
Definition batch_fits
    (process_data_dict_back : tensor spec_float -> tensor spec_float)
    (self : SEVIRSkillScore) (b : tensor spec_float * tensor spec_float) : Prop :=
  shape (process_data_dict_back (snd b)) = shape (process_data_dict_back (fst b)) /\
  String.length (layout self) = ndim (process_data_dict_back (snd b)).

(** The hits, misses and false alarms that a list of batches adds for a
    threshold: the sums of the counts of the batches. *)
Definition batches_counts
    (process_data_dict_back : tensor spec_float -> tensor spec_float)
    (self : SEVIRSkillScore)
    (batches : list (tensor spec_float * tensor spec_float)) (threshold : Z)
    (part : Z * Z * Z -> Z) : Z :=
  zsum (map (fun b => part (batch_counts self (process_data_dict_back (fst b))
                              (process_data_dict_back (snd b)) threshold))
          batches).

(** Two batches for the instances of the example. *)
Definition batches_example : list (tensor spec_float * tensor spec_float) :=
  [(pred_example, target_example); (target_example, pred_example)].

(** A rank of the floats other than NaN that follows their order: the
    sign class first (-inf, negative, zero, positive, +inf), then the
    exponent and the mantissa, both reversed among the negative floats. *)
Definition float_rank (x : spec_float) : Z * Z * Z :=
  match x with
  | S754_nan => (0, 0, 0)%Z
  | S754_infinity true => (-2, 0, 0)%Z
  | S754_infinity false => (2, 0, 0)%Z
  | S754_zero _ => (0, 0, 0)%Z
  | S754_finite true m e => (-1, - e, - Z.pos m)%Z
  | S754_finite false m e => (1, e, Z.pos m)%Z
  end.

Definition lex_le (a b : Z * Z * Z) : Prop :=
  let '(a1, a2, a3) := a in
  let '(b1, b2, b3) := b in
  (a1 < b1 \/ (a1 = b1 /\ (a2 < b2 \/ (a2 = b2 /\ a3 <= b3))))%Z.

(** The positions at which neither the target nor the prediction is
    NaN. *)
Definition no_nan (target pred : tensor spec_float) (idx : list nat) : bool :=
  negb (is_nan (data target idx) || is_nan (data pred idx)).

(** The sample [i] of a batch as a batch of one sample: what
    [x[i, ...].unsqueeze(0)] returns for an index in range. *)
Definition slice {A : Type} (x : tensor A) (i : nat) : tensor A :=
  mkTensor (1 :: tl (shape x)) (fun idx => data x (i :: tl idx)).

(** The first [k] samples of a prediction and a target. *)
Definition samples (pred target : tensor spec_float) (k : nat)
    : list (tensor spec_float * tensor spec_float) :=
  map (fun i => (slice pred i, slice target i)) (seq 0 k).

(** The instance that [eval_rmse_func.__call__] builds in mode "0". *)
Definition instance_of (self : Evaluation.eval_rmse_func) : SEVIRSkillScore :=
  mkSkillScore (Evaluation.layout self) "sevir" (Evaluation.threshold_list self)
    (Evaluation.metrics_list self) (1 / 10000)%R "0" (Some (Evaluation.out_len self)) false
    (zeros [List.length (Evaluation.threshold_list self)])
    (zeros [List.length (Evaluation.threshold_list self)])
    (zeros [List.length (Evaluation.threshold_list self)]).

(** The instance of [eval_rmse_func.__call__] after the first [k]
    samples went through [compute]. *)
Definition running
    (process_data_dict_back : tensor spec_float -> tensor spec_float)
    (self : Evaluation.eval_rmse_func) (pred target : tensor spec_float) (k : nat)
    : SEVIRSkillScore :=
  after_calls process_data_dict_back (samples pred target k) (instance_of self).

(** A 1-d tensor of scores with [r] at position [i]. *)
Definition set_at (x : tensor Evaluation.score) (i : nat) (r : Evaluation.score)
    : tensor Evaluation.score :=
  mkTensor (shape x)
    (fun idx => match idx with
                | j :: _ => if j =? i then r else data x idx
                | [] => data x idx
                end).

(** The eight tensors of the loop have length [B]. *)
Definition columns_of_length (c : Evaluation.columns) (B : nat) : Prop :=
  shape (Evaluation.csi_loss c) = [B] /\ shape (Evaluation.csi_m c) = [B] /\
  shape (Evaluation.csi_219 c) = [B] /\ shape (Evaluation.csi_181 c) = [B] /\
  shape (Evaluation.csi_160 c) = [B] /\ shape (Evaluation.csi_133 c) = [B] /\
  shape (Evaluation.csi_74 c) = [B] /\ shape (Evaluation.csi_16 c) = [B].

(** The thresholds that [eval_rmse_func.__call__] reads, each with the
    tensor that receives its score. *)
Definition threshold_columns
    : list ((Evaluation.columns -> tensor Evaluation.score) * Z) :=
  [(Evaluation.csi_219, 219%Z); (Evaluation.csi_181, 181%Z); (Evaluation.csi_160, 160%Z);
   (Evaluation.csi_133, 133%Z); (Evaluation.csi_74, 74%Z); (Evaluation.csi_16, 16%Z)].

(** The keys under which [eval_rmse_func.__call__] reads a CSI. *)
Definition keys_read : list key :=
  [KStr "avg"; KInt 219; KInt 181; KInt 160; KInt 133; KInt 74; KInt 16].

(** The dictionary that [eval_rmse_func.__call__] returns for the
    tensors [c] and the losses [mse] and [mae]. *)
Definition outputs {L : Type} (c : Evaluation.columns) (mse mae : L)
    : dict string (Evaluation.out_value L) :=
  [("valid_loss_epoch"%string, Evaluation.Score (Evaluation.csi_loss c));
   ("mse"%string, Evaluation.Loss mse);
   ("mae"%string, Evaluation.Loss mae);
   ("csi_m"%string, Evaluation.Score (Evaluation.csi_m c));
   ("csi_219"%string, Evaluation.Score (Evaluation.csi_219 c));
   ("csi_181"%string, Evaluation.Score (Evaluation.csi_181 c));
   ("csi_160"%string, Evaluation.Score (Evaluation.csi_160 c));
   ("csi_133"%string, Evaluation.Score (Evaluation.csi_133 c));
   ("csi_74"%string, Evaluation.Score (Evaluation.csi_74 c));
   ("csi_16"%string, Evaluation.Score (Evaluation.csi_16 c))].

(** What the entries at position [i] are after sample [i] was scored:
    the average CSI of the instance after the first [i + 1] samples, its
    negation, and for every threshold read the CSI of a position of the
    threshold list that holds this threshold. *)
Definition scored_at
    (process_data_dict_back : tensor spec_float -> tensor spec_float)
    (self : Evaluation.eval_rmse_func) (pred target : tensor spec_float)
    (c : Evaluation.columns) (i : nat) : Prop :=
  let s := running process_data_dict_back self pred target (S i) in
  data (Evaluation.csi_m c) [i] = Some (mean_score s "csi") /\
  data (Evaluation.csi_loss c) [i] = Some (- mean_score s "csi")%R /\
  forall col T, In (col, T) threshold_columns ->
    exists j, j < List.length (Evaluation.threshold_list self) /\
              nth j (Evaluation.threshold_list self) 0%Z = T /\
              data (col c) [i] = Some (threshold_score s "csi" j).

(** An evaluation with the default thresholds on the layout "NHWT", and
    a batch of two samples of one pixel at two time steps. *)
Definition eval_example : Evaluation.eval_rmse_func :=
  Evaluation.mk_eval_rmse_func 2 "NHWT" "0" ["csi"%string]
    [16; 74; 133; 160; 181; 219]%Z.

Definition batch_example (a b : Z) : tensor spec_float :=
  mkTensor [2; 1; 1; 2]
    (fun idx => match idx with
                | 0 :: _ => float_of_int a
                | _ => float_of_int b
                end).

(** An evaluation whose thresholds lack 219. *)
Definition eval_without_219 : Evaluation.eval_rmse_func :=
  Evaluation.mk_eval_rmse_func 2 "NHWT" "0" ["csi"%string]
    [16; 74; 133; 160; 181]%Z.

(** The counts of one batch for a threshold when the sequence dimension
    is kept and has a single step. *)
Definition step_counts (self : SEVIRSkillScore) (pred target : tensor spec_float)
    (threshold : Z) : Z * Z * Z :=
  match calc_seq_hits_misses_fas self pred target threshold with
  | Ok (h, m, f) => (data h [0], data m [0], data f [0])
  | Raise _ => (0, 0, 0)%Z
  end.

(** The instance after the counts [cnt threshold] were added at the
    position of every item. *)
Definition accumulated_with (cnt : Z -> Z * Z * Z) (items : list (nat * Z))
    (self : SEVIRSkillScore) : SEVIRSkillScore :=
  fold_left (fun s it => add_batch s (fst it) (cnt (snd it))) items self.

(** What [compute] stores for a score in the modes "1" and "2": the
    score, or its mean. *)
Definition stored (m : string) (v : value) : value :=
  if String.eqb m "1" then v else value_mean v.

(** [scores[i]] for an index in range. *)
Definition row (scores : tensor R) (i : nat) : tensor R :=
  mkTensor [] (fun idx => data scores (i :: idx)).

(** The array of length [len] whose entries are [r]. *)
Definition constant (len : nat) (r : R) : tensor R :=
  mkTensor [len] (fun _ => r).

(** A stored value holds the score [r]: in mode "1" as an array of shape
    [sh] whose entries are [r], else as the float [r]. *)
Definition holds (m : string) (sh : list nat) (v : value) (r : R) : Prop :=
  if String.eqb m "1"
  then exists t, v = VArray t /\ shape t = sh /\
                 forall idx, List.length idx = List.length sh -> data t idx = r
  else v = VFloat r.

(** A field of shape (1, 1, 2, 1) in the layout "NHWT": two pixels at
    one time step. *)
Definition one_step (a b : spec_float) : tensor spec_float :=
  mkTensor [1; 1; 2; 1]
    (fun idx => match idx with
                | [_; _; 0; _] => a
                | _ => b
                end).

(** The scores of the metric [name] for the counts of [self], as the
    tensor that the metric function returns. *)
Definition scores_for (self : SEVIRSkillScore) (name : string) : tensor R :=
  mkTensor (shape (tmap IZR (hits self)))
    (fun idx => score_value name
                  (data (tmap IZR (hits self)) idx)
                  (data (tmap IZR (misses self)) idx)
                  (data (tmap IZR (fas self)) idx) (eps self)).

(** The target ([x] = target) or the prediction ([x] = pred) is positive
    at a position: neither field is NaN there and the value of [x] is
    >= T. *)
Definition positive_at (target pred : tensor spec_float) (T : spec_float)
    (x : tensor spec_float) (idx : list nat) : bool :=
  negb (is_nan (data target idx) || is_nan (data pred idx)) &&
  SFgeb (data x idx) T.

(** The dimension that [calc_seq_hits_misses_fas] does not reduce: with
    the sequence dimension kept over a layout of at least two
    dimensions, the one that [pop] removes from the list of axes; none
    otherwise. *)
Definition kept_dim (self : SEVIRSkillScore) : option nat :=
  let n := String.length (layout self) in
  if keep_seq_len_dim self && (2 <=? n)
  then Some (pop_position n (find (layout self) "T"%char))
  else None.

(** The positions that are added into the entry [out] of the counts. *)
Definition group (self : SEVIRSkillScore) (out : list nat) (idx : list nat)
    : bool :=
  match kept_dim self with
  | Some s => at_step s (hd 0 out) idx
  | None => true
  end.

(** A series over the layout "T": two steps, and 2^24 + 1 steps that
    all hold the same value. *)
Definition short_series (a b : spec_float) : tensor spec_float :=
  of_list S754_nan [a; b].

Definition long_len : nat := Z.to_nat (2 ^ 24 + 1).

Definition constant_series (n : nat) (a : spec_float) : tensor spec_float :=
  mkTensor [n] (fun _ => a).

Definition long_series (a : spec_float) : tensor spec_float :=
  constant_series long_len a.

(** The instances that [SEVIRSkillScore(layout="T", mode=m, seq_len=2,
    threshold_list=(16,), metrics_list=("csi",))] builds. *)
Definition series_instance (m : string) (keep : bool) : SEVIRSkillScore :=
  mkSkillScore "T" "sevir" [16%Z] ["csi"%string] (1 / 10000)%R m (Some 2%Z)
    keep (zeros [1]) (zeros [1]) (zeros [1]).

(** The number of elements that a list of batches holds, counted on the
    targets after [process_data_dict_back]. *)
Definition batches_size
    (process_data_dict_back : tensor spec_float -> tensor spec_float)
    (batches : list (tensor spec_float * tensor spec_float)) : Z :=
  zsum (map (fun b => Z.of_nat (numel (shape (process_data_dict_back (snd b)))))
          batches).

(** The first [n] stored counts of [self] are not negative and, with
    [room] added, stay within the integers that float32 holds exactly. *)
Definition counts_within (self : SEVIRSkillScore) (n : nat) (room : Z) : Prop :=
  forall i, i < n ->
    (0 <= data (hits self) [i] /\ data (hits self) [i] + room <= 2 ^ 24)%Z /\
    (0 <= data (misses self) [i] /\ data (misses self) [i] + room <= 2 ^ 24)%Z /\
    (0 <= data (fas self) [i] /\ data (fas self) [i] + room <= 2 ^ 24)%Z.

(** * Properties *)

Unset Implicit Arguments.


(** ** Shapes and results of the tensor operations *)

Lemma shape_eqb_refl (s : list nat) : shape_eqb s s = true.
Proof.
  unfold shape_eqb. destruct (list_eq_dec Nat.eq_dec s s); congruence.
Qed.

Lemma shape_eqb_eq (s1 s2 : list nat) : shape_eqb s1 s2 = true -> s1 = s2.
Proof.
  unfold shape_eqb. destruct (list_eq_dec Nat.eq_dec s1 s2); congruence.
Qed.

Lemma tzip_same_shape {A B C : Type} (f : A -> B -> C) (x : tensor A) (y : tensor B) :
  shape x = shape y ->
  tzip f x y = Ok (mkTensor (shape x) (fun idx => f (data x idx) (data y idx))).
Proof.
  intros E. unfold tzip. rewrite E, shape_eqb_refl. reflexivity.
Qed.

(** ** Thresholding *)

Lemma SFcompare_swap (x y : spec_float) :
  SFcompare y x = option_map CompOpp (SFcompare x y).
Proof.
  destruct x as [sx|sx| |sx mx ex], y as [sy|sy| |sy my ey]; simpl;
    try reflexivity;
    try (destruct sx; reflexivity); try (destruct sy; reflexivity);
    try (destruct sx, sy; reflexivity).
  destruct sx, sy; simpl; try reflexivity;
    rewrite (Z.compare_antisym ex ey); destruct (ex ?= ey)%Z; simpl;
    try reflexivity;
    rewrite (Pos.compare_cont_antisym mx my Eq); reflexivity.
Qed.

(** [SFgeb x y] holds exactly when the comparison of [x] with [y] is
    "greater" or "equal"; it fails when one of them is NaN. *)
Lemma SFgeb_compare (x y : spec_float) :
  SFgeb x y = true <-> SFcompare x y = Some Gt \/ SFcompare x y = Some Eq.
Proof.
  unfold SFgeb, SFleb. rewrite (SFcompare_swap x y).
  destruct (SFcompare x y) as [[| |]|]; simpl; split; intros H;
    try discriminate; auto; destruct H; discriminate.
Qed.

Lemma SFgeb_nan (x y : spec_float) :
  is_nan x || is_nan y = true -> SFgeb x y = false.
Proof.
  destruct x, y; simpl; intros H; try discriminate; reflexivity.
Qed.

Lemma threshold_ok (target pred : tensor spec_float) (T : spec_float) :
  shape target = shape pred ->
  _threshold target pred T =
    Ok (mkTensor (shape target) (indicator target pred T target),
        mkTensor (shape pred) (indicator target pred T pred)).
Proof.
  intros E. unfold _threshold, logical_or, masked_fill, isnan, astype_float32,
    ge_scalar, tmap; simpl.
  rewrite E, shape_eqb_refl. simpl. rewrite shape_eqb_refl. simpl.
  reflexivity.
Qed.



(** ** Reductions *)

Lemma zsum_app (l1 l2 : list Z) : zsum (l1 ++ l2) = (zsum l1 + zsum l2)%Z.
Proof.
  induction l1 as [|a l1 IH]; simpl; [reflexivity|]. rewrite IH. lia.
Qed.

Lemma range_sum_ext (n : nat) (f g : nat -> Z) :
  (forall i, i < n -> f i = g i) -> range_sum n f = range_sum n g.
Proof.
  induction n as [|n IH]; intros H; simpl; [reflexivity|].
  rewrite IH by (intros; apply H; lia). rewrite H by lia. reflexivity.
Qed.

Lemma range_sum_add (n : nat) (f g : nat -> Z) :
  range_sum n (fun i => (f i + g i)%Z) = (range_sum n f + range_sum n g)%Z.
Proof.
  induction n as [|n IH]; simpl; [reflexivity|]. rewrite IH. lia.
Qed.

Lemma range_sum_single (n j : nat) (g : nat -> Z) :
  j < n -> range_sum n (fun i => if i =? j then g i else 0%Z) = g j.
Proof.
  induction n as [|n IH]; intros H; [lia|]. simpl.
  destruct (Nat.eqb_spec n j) as [->|Hn].
  - rewrite (range_sum_ext j _ (fun _ => 0%Z)).
    + assert (Z0 : forall k, range_sum k (fun _ => 0%Z) = 0%Z)
        by (induction k; simpl; lia).
      rewrite Z0. lia.
    + intros i Hi. destruct (Nat.eqb_spec i j); [lia|reflexivity].
  - rewrite IH by lia. lia.
Qed.

Lemma zsum_flat_map_seq (f : list nat -> Z) (sel : list nat -> bool)
    (g : nat -> list (list nat)) (n : nat) :
  zsum (map f (filter sel (flat_map g (seq 0 n)))) =
  range_sum n (fun i => zsum (map f (filter sel (g i)))).
Proof.
  induction n as [|n IH]; [reflexivity|].
  rewrite seq_S, flat_map_app, filter_app, map_app, zsum_app, IH. simpl.
  rewrite app_nil_r. reflexivity.
Qed.

Lemma filter_map_comm {A B : Type} (sel : B -> bool) (g : A -> B) (l : list A) :
  filter sel (map g l) = map g (filter (fun a => sel (g a)) l).
Proof.
  induction l as [|a l IH]; simpl; [reflexivity|].
  destruct (sel (g a)); simpl; rewrite IH; reflexivity.
Qed.

Lemma filter_all {A : Type} (sel : A -> bool) (l : list A) :
  (forall a, sel a = true) -> filter sel l = l.
Proof.
  intros H. induction l as [|a l IH]; simpl; [reflexivity|].
  rewrite H, IH. reflexivity.
Qed.

Lemma filter_none {A : Type} (sel : A -> bool) (l : list A) :
  (forall a, sel a = false) -> filter sel l = [].
Proof.
  intros H. induction l as [|a l IH]; simpl; [reflexivity|].
  rewrite H, IH. reflexivity.
Qed.

Lemma sum_over_ext (sh : list nat) :
  forall d axes f g out,
    (forall idx, f idx = g idx) ->
    sum_over d sh axes f out = sum_over d sh axes g out.
Proof.
  induction sh as [|n sh IH]; intros d axes f g out H; simpl; [apply H|].
  destruct (existsb (Nat.eqb d) axes).
  - apply range_sum_ext. intros i _. apply IH. intros idx. apply H.
  - destruct out as [|j out]; [reflexivity|]. apply IH. intros idx. apply H.
Qed.

Lemma sum_over_add (sh : list nat) :
  forall d axes f g out,
    sum_over d sh axes (fun idx => (f idx + g idx)%Z) out =
    (sum_over d sh axes f out + sum_over d sh axes g out)%Z.
Proof.
  induction sh as [|n sh IH]; intros d axes f g out; simpl; [reflexivity|].
  destruct (existsb (Nat.eqb d) axes).
  - rewrite <- range_sum_add. apply range_sum_ext. intros i _. apply IH.
  - destruct out as [|j out]; [reflexivity|]. apply IH.
Qed.

(** When every dimension is reduced, the reduction is the sum over all
    positions. *)
Lemma sum_over_all (sh : list nat) :
  forall d axes f out,
    (forall k, d <= k < d + List.length sh -> existsb (Nat.eqb k) axes = true) ->
    sum_over d sh axes f out = zsum (map f (all_indices sh)).
Proof.
  induction sh as [|n sh IH]; intros d axes f out H; simpl.
  - lia.
  - rewrite H by (simpl; lia).
    rewrite <- (filter_all (fun _ => true)
                  (flat_map (fun i => map (cons i) (all_indices sh)) (seq 0 n)))
      by reflexivity.
    rewrite zsum_flat_map_seq. apply range_sum_ext. intros i _.
    rewrite filter_all by reflexivity. rewrite map_map.
    apply IH. intros k Hk. apply H. simpl. lia.
Qed.

(** When every dimension but [s] is reduced, the entry [j] of the
    reduction is the sum over the positions that lie at step [j] of
    dimension [s]. *)
Lemma sum_over_keep_one (sh : list nat) :
  forall d s axes f j,
    d <= s < d + List.length sh ->
    (forall k, d <= k < d + List.length sh ->
               existsb (Nat.eqb k) axes = negb (k =? s)) ->
    j < nth (s - d) sh 0 ->
    sum_over d sh axes f [j] =
    zsum (map f (filter (at_step (s - d) j) (all_indices sh))).
Proof.
  induction sh as [|n sh IH]; intros d s axes f j Hs Hax Hj; simpl in Hs; [lia|].
  simpl sum_over. simpl all_indices.
  rewrite zsum_flat_map_seq, Hax by (simpl; lia).
  destruct (Nat.eqb_spec d s) as [->|Hds]; simpl negb; cbv iota.
  - rewrite Nat.sub_diag in *. simpl in Hj.
    rewrite (range_sum_ext n _
               (fun i => if i =? j
                         then zsum (map f (map (cons i) (all_indices sh)))
                         else 0%Z)).
    + rewrite range_sum_single by exact Hj. rewrite map_map.
      apply sum_over_all. intros k Hk.
      rewrite Hax by (simpl; lia).
      destruct (Nat.eqb_spec k s); [lia|reflexivity].
    + intros i _. destruct (Nat.eqb_spec i j) as [->|Hij].
      * rewrite filter_map_comm, filter_all; [reflexivity|].
        intros a. unfold at_step. simpl. apply Nat.eqb_refl.
      * rewrite filter_map_comm.
        rewrite filter_none; [reflexivity|].
        intros a. unfold at_step. simpl. apply Nat.eqb_neq. exact Hij.
  - apply range_sum_ext. intros i _.
    rewrite filter_map_comm, map_map.
    replace (s - d) with (S (s - S d)) in * by lia. simpl in Hj.
    rewrite (IH (S d) s axes (fun ix => f (i :: ix)) j); try lia.
    + reflexivity.
    + intros k Hk. apply Hax. simpl. lia.
Qed.


Lemma kept_shape_all (sh : list nat) :
  forall d axes,
    (forall k, d <= k < d + List.length sh -> existsb (Nat.eqb k) axes = true) ->
    kept_shape d sh axes = [].
Proof.
  induction sh as [|n sh IH]; intros d axes H; simpl; [reflexivity|].
  rewrite H by (simpl; lia). apply IH. intros k Hk. apply H. simpl. lia.
Qed.

Lemma kept_shape_keep_one (sh : list nat) :
  forall d s axes,
    d <= s < d + List.length sh ->
    (forall k, d <= k < d + List.length sh ->
               existsb (Nat.eqb k) axes = negb (k =? s)) ->
    kept_shape d sh axes = [nth (s - d) sh 0].
Proof.
  induction sh as [|n sh IH]; intros d s axes Hs Hax; simpl in Hs; [lia|].
  simpl kept_shape. rewrite Hax by (simpl; lia).
  destruct (Nat.eqb_spec d s) as [->|Hds]; simpl negb; cbv iota.
  - rewrite Nat.sub_diag. simpl. f_equal.
    apply kept_shape_all. intros k Hk. rewrite Hax by (simpl; lia).
    destruct (Nat.eqb_spec k s); [lia|reflexivity].
  - replace (s - d) with (S (s - S d)) by lia. simpl.
    apply IH; [lia|]. intros k Hk. apply Hax. simpl. lia.
Qed.

(** ** The reduced dimensions *)

Lemma existsb_seq (k a n : nat) :
  existsb (Nat.eqb k) (seq a n) = (a <=? k) && (k <? a + n).
Proof.
  revert a. induction n as [|n IH]; intros a; simpl.
  - destruct (Nat.leb_spec a k), (Nat.ltb_spec k (a + 0)); simpl; try reflexivity; lia.
  - rewrite IH.
    destruct (Nat.eqb_spec k a), (Nat.leb_spec a k), (Nat.leb_spec (S a) k),
      (Nat.ltb_spec k (S a + n)), (Nat.ltb_spec k (a + S n));
      simpl; try reflexivity; lia.
Qed.

Lemma existsb_remove_at_seq (k s n : nat) :
  forall a, s < n ->
    existsb (Nat.eqb k) (remove_at s (seq a n)) =
    (a <=? k) && (k <? a + n) && negb (k =? a + s).
Proof.
  revert s. induction n as [|n IH]; intros s a Hs; [lia|].
  destruct s as [|s]; simpl.
  - rewrite existsb_seq.
    destruct (Nat.eqb_spec k (a + 0)), (Nat.leb_spec a k), (Nat.leb_spec (S a) k),
      (Nat.ltb_spec k (S a + n)), (Nat.ltb_spec k (a + S n));
      simpl; try reflexivity; lia.
  - rewrite IH by lia.
    destruct (Nat.eqb_spec k a), (Nat.eqb_spec k (a + S s)),
      (Nat.eqb_spec k (S a + s)), (Nat.leb_spec a k), (Nat.leb_spec (S a) k),
      (Nat.ltb_spec k (S a + n)), (Nat.ltb_spec k (a + S n));
      simpl; try reflexivity; lia.
Qed.

Lemma remove_at_length {A : Type} (l : list A) :
  forall i, i < List.length l -> List.length (remove_at i l) = List.length l - 1.
Proof.
  induction l as [|a l IH]; intros i Hi; simpl in *; [lia|].
  destruct i as [|i]; simpl; [lia|]. rewrite IH by lia. lia.
Qed.

Lemma find_range (s : string) (c : ascii) :
  (-1 <= find s c < Z.of_nat (String.length s))%Z.
Proof.
  induction s as [|a s IH]; simpl; [lia|].
  destruct (Ascii.eqb a c); [lia|].
  destruct (find s c); lia.
Qed.

Lemma pop_range (n : nat) (i : Z) :
  1 <= n -> (-1 <= i < Z.of_nat n)%Z ->
  pop (range n) i = Ok (remove_at (pop_position n i) (range n)) /\
  pop_position n i < n.
Proof.
  intros Hn Hi. unfold pop, pop_position, range. rewrite length_seq.
  destruct (Z.ltb_spec i 0).
  - assert (i = (-1)%Z) as -> by lia.
    replace (-1 + Z.of_nat n)%Z with (Z.of_nat (n - 1)) by lia.
    destruct (Z.ltb_spec (Z.of_nat (n - 1)) 0); [lia|].
    destruct (Z.leb_spec (Z.of_nat n) (Z.of_nat (n - 1))); [lia|].
    simpl. rewrite Nat2Z.id. split; [reflexivity|lia].
  - destruct (Z.ltb_spec i 0); [lia|].
    destruct (Z.leb_spec (Z.of_nat n) i); [lia|].
    simpl. split; [reflexivity|lia].
Qed.

Lemma forallb_below_seq (n : nat) (l : list nat) :
  (forall k, In k l -> k < n) -> forallb (fun a => a <? n) l = true.
Proof.
  intros H. apply forallb_forall. intros k Hk. apply Nat.ltb_lt. auto.
Qed.

Lemma in_remove_at {A : Type} (l : list A) :
  forall i a, In a (remove_at i l) -> In a l.
Proof.
  induction l as [|b l IH]; intros i a H; [destruct i; exact H|].
  destruct i as [|i]; simpl in *; [auto|].
  destruct H as [H|H]; [auto|]. right. eapply IH. exact H.
Qed.

(** ** Confusion counts of one batch *)

Lemma indicator_01 (target pred : tensor spec_float) (T : spec_float)
    (x : tensor spec_float) (idx : list nat) :
  indicator target pred T x idx = 0%Z \/ indicator target pred T x idx = 1%Z.
Proof.
  unfold indicator.
  destruct (is_nan (data target idx) || is_nan (data pred idx)); [left; reflexivity|].
  destruct (SFgeb (data x idx) T); [right|left]; reflexivity.
Qed.

(** *** Sums in float32 *)

Lemma round_f32_small (z : Z) : (Z.abs z <= 2 ^ 24)%Z -> round_f32 z = z.
Proof.
  intros H. unfold round_f32.
  destruct (Z.leb_spec (Z.abs z) (2 ^ 24)) as [_|Hgt]; [reflexivity|lia].
Qed.

Lemma fadd_exact (a b : Z) :
  (0 <= a)%Z -> (0 <= b)%Z -> (a + b <= 2 ^ 24)%Z -> fadd a b = (a + b)%Z.
Proof.
  intros Ha Hb Hs. unfold fadd. apply round_f32_small. lia.
Qed.

Lemma int32_of_float_small (z : Z) :
  (0 <= z <= 2 ^ 24)%Z -> int32_of_float z = z.
Proof.
  intros H. unfold int32_of_float.
  destruct (Z.leb_spec (- 2 ^ 31) z) as [_|Hlt]; [|lia].
  destruct (Z.ltb_spec z (2 ^ 31)) as [_|Hge]; [reflexivity|lia].
Qed.

(** While the sum of the bounds of the summands does not pass 2^24, the
    float32 sum is the exact sum. *)
Lemma frange_sum_exact (n : nat) (f g : nat -> Z) (M : Z) :
  (forall i, i < n -> f i = g i /\ (0 <= g i <= M)%Z) ->
  (Z.of_nat n * M <= 2 ^ 24)%Z ->
  frange_sum n f = range_sum n g /\
  (0 <= range_sum n g <= Z.of_nat n * M)%Z.
Proof.
  induction n as [|n IH]; intros H Hb.
  - split; [reflexivity|]. simpl. lia.
  - destruct (H n) as [E B]; [lia|].
    destruct IH as [IHe IHb].
    + intros i Hi. apply H. lia.
    + nia.
    + cbn [frange_sum range_sum]. rewrite IHe, E.
      split; [apply fadd_exact; nia|nia].
Qed.

Lemma numel_cons (n : nat) (sh : list nat) : numel (n :: sh) = n * numel sh.
Proof. reflexivity. Qed.

(** On indicators, over at most 2^24 positions, the entry of a float32
    reduction at a valid index of the result is the exact sum. *)
Lemma fsum_over_exact (sh : list nat) :
  forall d axes f out,
    (forall idx, (0 <= f idx <= 1)%Z) ->
    (Z.of_nat (numel sh) <= 2 ^ 24)%Z ->
    in_range (kept_shape d sh axes) out = true ->
    fsum_over d sh axes f out = sum_over d sh axes f out /\
    (0 <= sum_over d sh axes f out <= Z.of_nat (numel sh))%Z.
Proof.
  induction sh as [|n sh IH]; intros d axes f out Hf Hb Hv.
  - cbn [fsum_over sum_over numel fold_right]. split; [reflexivity|].
    specialize (Hf []). lia.
  - cbn [fsum_over sum_over kept_shape] in *. rewrite numel_cons in *.
    destruct (existsb (Nat.eqb d) axes).
    + destruct n as [|n]; [split; [reflexivity|]; simpl; lia|].
      assert (Hsh : (Z.of_nat (numel sh) <= 2 ^ 24)%Z) by nia.
      destruct (frange_sum_exact (S n)
                  (fun i => fsum_over (S d) sh axes (fun ix => f (i :: ix)) out)
                  (fun i => sum_over (S d) sh axes (fun ix => f (i :: ix)) out)
                  (Z.of_nat (numel sh))) as [E B].
      * intros i _. apply IH; [intros idx; apply Hf|exact Hsh|exact Hv].
      * nia.
      * split; [exact E|]. nia.
    + destruct out as [|j out]; [discriminate|]. cbn [in_range] in Hv.
      apply andb_prop in Hv. destruct Hv as [Hj Hv]. apply Nat.ltb_lt in Hj.
      assert (Hsh : (Z.of_nat (numel sh) <= 2 ^ 24)%Z) by nia.
      destruct (IH (S d) axes (fun ix => f (j :: ix)) out) as [E B];
        [intros idx; apply Hf|exact Hsh|exact Hv|].
      split; [exact E|]. nia.
Qed.

(** When every dimension is reduced the index of the result is not
    read. *)
Lemma fsum_over_all_exact (sh : list nat) :
  forall d axes f out,
    (forall k, d <= k < d + List.length sh -> existsb (Nat.eqb k) axes = true) ->
    (forall idx, (0 <= f idx <= 1)%Z) ->
    (Z.of_nat (numel sh) <= 2 ^ 24)%Z ->
    fsum_over d sh axes f out = sum_over d sh axes f out /\
    (0 <= sum_over d sh axes f out <= Z.of_nat (numel sh))%Z.
Proof.
  induction sh as [|n sh IH]; intros d axes f out Hall Hf Hb.
  - cbn [fsum_over sum_over numel fold_right]. split; [reflexivity|].
    specialize (Hf []). lia.
  - cbn [fsum_over sum_over]. rewrite numel_cons in *.
    rewrite Hall by (simpl; lia).
    destruct n as [|n]; [split; [reflexivity|]; simpl; lia|].
    assert (Hsh : (Z.of_nat (numel sh) <= 2 ^ 24)%Z) by nia.
    destruct (frange_sum_exact (S n)
                (fun i => fsum_over (S d) sh axes (fun ix => f (i :: ix)) out)
                (fun i => sum_over (S d) sh axes (fun ix => f (i :: ix)) out)
                (Z.of_nat (numel sh))) as [E B].
    + intros i _. apply IH; [|intros idx; apply Hf|exact Hsh].
      intros k Hk. apply Hall. simpl. lia.
    + nia.
    + split; [exact E|]. nia.
Qed.

Lemma sum_valid_axes (x : tensor Z) (axis : list nat) :
  forallb (fun a => a <? ndim x) axis = true ->
  Tensor.sum x axis = Ok (freduced (shape x) axis (data x)).
Proof.
  intros H. unfold Tensor.sum. rewrite H. reflexivity.
Qed.

Lemma calc_explicit (self : SEVIRSkillScore) (pred target : tensor spec_float)
    (threshold : Z) (axis : list nat) :
  shape target = shape pred ->
  hits_misses_fas_reduce_dims self = Ok axis ->
  forallb (fun a => a <? ndim target) axis = true ->
  let t := indicator target pred (float_of_int threshold) target in
  let p := indicator target pred (float_of_int threshold) pred in
  calc_seq_hits_misses_fas self pred target threshold =
    Ok (astype_int32
          (freduced (shape target) axis (fun idx => (t idx * p idx)%Z)),
        astype_int32
          (freduced (shape target) axis (fun idx => (t idx * (1 - p idx))%Z)),
        astype_int32
          (freduced (shape target) axis (fun idx => ((1 - t idx) * p idx)%Z))).
Proof.
  intros E Hax Hv t p. unfold calc_seq_hits_misses_fas.
  rewrite threshold_ok by exact E. cbn [bind].
  rewrite tzip_same_shape by exact E. cbn [bind].
  rewrite Hax. cbn [bind].
  rewrite sum_valid_axes by exact Hv. cbn [bind].
  rewrite tzip_same_shape by exact E. cbn [bind].
  rewrite sum_valid_axes by exact Hv. cbn [bind].
  rewrite tzip_same_shape by exact E. cbn [bind].
  rewrite sum_valid_axes by exact Hv. cbn [bind].
  cbn [shape data tmap]. fold t p.
  assert (R1 : (fun idx => fmul (t idx) (p idx)) =
               (fun idx => (t idx * p idx)%Z)).
  { apply functional_extensionality. intros idx. unfold fmul.
    destruct (indicator_01 target pred (float_of_int threshold) target idx) as [H|H];
      destruct (indicator_01 target pred (float_of_int threshold) pred idx) as [G|G];
      unfold t, p; rewrite H, G; reflexivity. }
  assert (R2 : (fun idx => fmul (t idx) (fsub 1 (p idx))) =
               (fun idx => (t idx * (1 - p idx))%Z)).
  { apply functional_extensionality. intros idx. unfold fmul, fsub.
    destruct (indicator_01 target pred (float_of_int threshold) target idx) as [H|H];
      destruct (indicator_01 target pred (float_of_int threshold) pred idx) as [G|G];
      unfold t, p; rewrite H, G; reflexivity. }
  assert (R3 : (fun idx => fmul (fsub 1 (t idx)) (p idx)) =
               (fun idx => ((1 - t idx) * p idx)%Z)).
  { apply functional_extensionality. intros idx. unfold fmul, fsub.
    destruct (indicator_01 target pred (float_of_int threshold) target idx) as [H|H];
      destruct (indicator_01 target pred (float_of_int threshold) pred idx) as [G|G];
      unfold t, p; rewrite H, G; reflexivity. }
  rewrite R1, R2, R3. reflexivity.
Qed.

Lemma reduce_dims_no_seq (self : SEVIRSkillScore) :
  keep_seq_len_dim self = false ->
  hits_misses_fas_reduce_dims self = Ok (range (String.length (layout self))).
Proof.
  intros H. unfold hits_misses_fas_reduce_dims. rewrite H. reflexivity.
Qed.

Lemma reduce_dims_keep_seq (self : SEVIRSkillScore) :
  keep_seq_len_dim self = true ->
  1 <= String.length (layout self) ->
  let n := String.length (layout self) in
  let s := pop_position n (find (layout self) "T"%char) in
  hits_misses_fas_reduce_dims self = Ok (remove_at s (range n)) /\ s < n.
Proof.
  intros H Hn n s. unfold hits_misses_fas_reduce_dims. rewrite H.
  apply pop_range; [exact Hn|]. apply find_range.
Qed.

Lemma reduce_dims_valid (self : SEVIRSkillScore) :
  (keep_seq_len_dim self = true -> 1 <= String.length (layout self)) ->
  exists axis,
    hits_misses_fas_reduce_dims self = Ok axis /\
    forallb (fun a => a <? String.length (layout self)) axis = true.
Proof.
  intros Hn. destruct (keep_seq_len_dim self) eqn:K.
  - destruct (reduce_dims_keep_seq self K (Hn eq_refl)) as [E _].
    eexists. split; [exact E|]. apply forallb_below_seq.
    intros k Hk. apply in_remove_at in Hk. apply in_seq in Hk. lia.
  - eexists. split; [apply reduce_dims_no_seq; exact K|].
    apply forallb_below_seq. intros k Hk. apply in_seq in Hk. lia.
Qed.

Lemma init_inv (layout_ mode_ : string) (seq_len_ : option Z) (pt : string)
    (thrs : list Z) (ml : list string) (eps_ : R) (self : SEVIRSkillScore) :
  __init__ layout_ mode_ seq_len_ pt thrs ml eps_ = Ok self ->
  self = mkSkillScore layout_ pt thrs ml eps_ mode_ seq_len_
           (negb (String.eqb mode_ "0"))
           (zeros [List.length thrs]) (zeros [List.length thrs])
           (zeros [List.length thrs]).
Proof.
  unfold __init__, str_in. simpl existsb.
  destruct (String.eqb mode_ "0"); simpl.
  - intros H. injection H as <-. reflexivity.
  - destruct (String.eqb mode_ "1" || (String.eqb mode_ "2" || false));
      [|discriminate].
    destruct seq_len_; [|discriminate].
    intros H. injection H as <-. reflexivity.
Qed.

Lemma reduce_axes_range (n : nat) : reduce_axes n (range n) = range n.
Proof. destruct n; reflexivity. Qed.

Lemma product_indicators (a b : Z) :
  (a = 0 \/ a = 1)%Z -> (b = 0 \/ b = 1)%Z ->
  (a * b = Z.b2z ((a =? 1) && (b =? 1)))%Z /\
  (a * (1 - b) = Z.b2z ((a =? 1) && negb (b =? 1)))%Z /\
  ((1 - a) * b = Z.b2z (negb (a =? 1) && (b =? 1)))%Z.
Proof.
  intros [-> | ->] [-> | ->]; repeat split; reflexivity.
Qed.

Lemma counts_of_sums (sh : list nat) (sel : list nat -> bool)
    (target pred : tensor spec_float) (T : spec_float) :
  let t := indicator target pred T target in
  let p := indicator target pred T pred in
  counts_are sh sel (mkTensor (shape target) t) (mkTensor (shape pred) p)
    (zsum (map (fun idx => (t idx * p idx)%Z) (filter sel (all_indices sh))))
    (zsum (map (fun idx => (t idx * (1 - p idx))%Z) (filter sel (all_indices sh))))
    (zsum (map (fun idx => ((1 - t idx) * p idx)%Z) (filter sel (all_indices sh)))).
Proof.
  intros t p. unfold counts_are, count_where, is_one. cbn [data].
  repeat split; f_equal; apply map_ext; intros idx;
    apply (product_indicators (t idx) (p idx)); apply indicator_01.
Qed.

Lemma indicator_b2z (target pred : tensor spec_float) (T : spec_float)
    (x : tensor spec_float) (idx : list nat) :
  indicator target pred T x idx = Z.b2z (positive_at target pred T x idx).
Proof.
  unfold indicator, positive_at.
  destruct (is_nan (data target idx) || is_nan (data pred idx)); [reflexivity|].
  destruct (SFgeb (data x idx) T); reflexivity.
Qed.

Lemma indicator_range (target pred : tensor spec_float) (T : spec_float)
    (x : tensor spec_float) (idx : list nat) :
  (0 <= indicator target pred T x idx <= 1)%Z.
Proof.
  destruct (indicator_01 target pred T x idx) as [-> | ->]; lia.
Qed.

Lemma products_range (a b : Z) :
  (0 <= a <= 1)%Z -> (0 <= b <= 1)%Z ->
  (0 <= a * b <= 1)%Z /\ (0 <= a * (1 - b) <= 1)%Z /\ (0 <= (1 - a) * b <= 1)%Z.
Proof. intros Ha Hb. repeat split; nia. Qed.

(** The counts have the shape that the reduction leaves, whatever the
    number of positions. *)
Lemma calc_shapes (self : SEVIRSkillScore) (pred target : tensor spec_float)
    (threshold : Z) (axis : list nat) :
  shape target = shape pred ->
  hits_misses_fas_reduce_dims self = Ok axis ->
  forallb (fun a => a <? ndim target) axis = true ->
  let kept := kept_shape 0 (shape target) (reduce_axes (ndim target) axis) in
  exists h m f,
    calc_seq_hits_misses_fas self pred target threshold = Ok (h, m, f) /\
    shape h = kept /\ shape m = kept /\ shape f = kept.
Proof.
  intros E Hax Hv kept. do 3 eexists.
  split; [apply calc_explicit; [exact E|exact Hax|exact Hv]|].
  repeat split.
Qed.

Lemma all_reduced_no_seq (n : nat) :
  forall k, 0 <= k < 0 + n ->
    existsb (Nat.eqb k) (reduce_axes n (range n)) = true.
Proof.
  intros k Hk. rewrite reduce_axes_range. unfold range.
  rewrite existsb_seq. apply andb_true_intro. split.
  - apply Nat.leb_le. lia.
  - apply Nat.ltb_lt. lia.
Qed.

Lemma calc_no_seq_shapes (self : SEVIRSkillScore)
    (pred target : tensor spec_float) (threshold : Z) :
  keep_seq_len_dim self = false ->
  shape target = shape pred ->
  String.length (layout self) = ndim target ->
  exists h m f,
    calc_seq_hits_misses_fas self pred target threshold = Ok (h, m, f) /\
    shape h = [] /\ shape m = [] /\ shape f = [].
Proof.
  intros K E Hrank.
  assert (Hax : hits_misses_fas_reduce_dims self = Ok (range (ndim target))).
  { rewrite reduce_dims_no_seq by exact K. rewrite Hrank. reflexivity. }
  assert (Hv : forallb (fun a => a <? ndim target) (range (ndim target)) = true).
  { apply forallb_below_seq. intros k Hk. apply in_seq in Hk. lia. }
  destruct (calc_shapes self pred target threshold (range (ndim target)) E Hax Hv)
    as (h & m & f & Hc & Sh & Sm & Sf).
  exists h, m, f. split; [exact Hc|].
  rewrite (kept_shape_all _ _ _ (all_reduced_no_seq (ndim target))) in Sh, Sm, Sf.
  repeat split; assumption.
Qed.

(** When the axes cover every dimension, over at most 2^24 positions,
    the counts of a batch are scalars: the sums of the products of the
    indicators over all positions. *)
Lemma calc_all_dims (self : SEVIRSkillScore) (pred target : tensor spec_float)
    (threshold : Z) (axis : list nat) :
  shape target = shape pred ->
  hits_misses_fas_reduce_dims self = Ok axis ->
  forallb (fun a => a <? ndim target) axis = true ->
  (forall k, 0 <= k < 0 + ndim target ->
     existsb (Nat.eqb k) (reduce_axes (ndim target) axis) = true) ->
  (Z.of_nat (numel (shape target)) <= 2 ^ 24)%Z ->
  let t := indicator target pred (float_of_int threshold) target in
  let p := indicator target pred (float_of_int threshold) pred in
  exists h m f,
    calc_seq_hits_misses_fas self pred target threshold = Ok (h, m, f) /\
    shape h = [] /\ shape m = [] /\ shape f = [] /\
    (forall out,
       data h out = zsum (map (fun idx => (t idx * p idx)%Z)
                            (all_indices (shape target))) /\
       data m out = zsum (map (fun idx => (t idx * (1 - p idx))%Z)
                            (all_indices (shape target))) /\
       data f out = zsum (map (fun idx => ((1 - t idx) * p idx)%Z)
                            (all_indices (shape target)))).
Proof.
  intros E Hax Hv Hall Hb t p.
  do 3 eexists.
  split; [apply calc_explicit; [exact E|exact Hax|exact Hv]|].
  unfold astype_int32, freduced, tmap. cbn [shape data]. fold t p.
  unfold ndim in Hall.
  rewrite (kept_shape_all _ _ _ Hall).
  split; [reflexivity|]. split; [reflexivity|]. split; [reflexivity|].
  intros out.
  assert (Ht : forall idx, (0 <= t idx <= 1)%Z) by (intros; apply indicator_range).
  assert (Hp : forall idx, (0 <= p idx <= 1)%Z) by (intros; apply indicator_range).
  destruct (fsum_over_all_exact (shape target) 0 _
              (fun idx => (t idx * p idx)%Z) out Hall) as [E1 B1];
    [intros idx; apply (products_range (t idx) (p idx)); auto|exact Hb|].
  destruct (fsum_over_all_exact (shape target) 0 _
              (fun idx => (t idx * (1 - p idx))%Z) out Hall) as [E2 B2];
    [intros idx; apply (products_range (t idx) (p idx)); auto|exact Hb|].
  destruct (fsum_over_all_exact (shape target) 0 _
              (fun idx => ((1 - t idx) * p idx)%Z) out Hall) as [E3 B3];
    [intros idx; apply (products_range (t idx) (p idx)); auto|exact Hb|].
  rewrite E1, E2, E3.
  rewrite !int32_of_float_small by lia.
  rewrite !(sum_over_all _ _ _ _ _ Hall). repeat split.
Qed.

(** Without the sequence dimension the counts of a batch of at most
    2^24 positions are scalars: the sums of the products of the
    indicators over all positions. *)
Lemma calc_no_seq (self : SEVIRSkillScore) (pred target : tensor spec_float)
    (threshold : Z) :
  keep_seq_len_dim self = false ->
  shape target = shape pred ->
  String.length (layout self) = ndim target ->
  (Z.of_nat (numel (shape target)) <= 2 ^ 24)%Z ->
  let t := indicator target pred (float_of_int threshold) target in
  let p := indicator target pred (float_of_int threshold) pred in
  exists h m f,
    calc_seq_hits_misses_fas self pred target threshold = Ok (h, m, f) /\
    shape h = [] /\ shape m = [] /\ shape f = [] /\
    (forall out,
       data h out = zsum (map (fun idx => (t idx * p idx)%Z)
                            (all_indices (shape target))) /\
       data m out = zsum (map (fun idx => (t idx * (1 - p idx))%Z)
                            (all_indices (shape target))) /\
       data f out = zsum (map (fun idx => ((1 - t idx) * p idx)%Z)
                            (all_indices (shape target)))).
Proof.
  intros K E Hrank Hb.
  apply (calc_all_dims self pred target threshold (range (ndim target)) E).
  - rewrite reduce_dims_no_seq by exact K. rewrite Hrank. reflexivity.
  - apply forallb_below_seq. intros k Hk. apply in_seq in Hk. lia.
  - apply all_reduced_no_seq.
  - exact Hb.
Qed.

(** With the sequence dimension kept over a layout of a single
    dimension, the list of axes is empty, which [paddle.sum] reads as
    every axis: the counts are scalars again. *)
Lemma calc_keep_single (self : SEVIRSkillScore)
    (pred target : tensor spec_float) (threshold : Z) :
  keep_seq_len_dim self = true ->
  shape target = shape pred ->
  String.length (layout self) = ndim target ->
  String.length (layout self) = 1 ->
  (Z.of_nat (numel (shape target)) <= 2 ^ 24)%Z ->
  let t := indicator target pred (float_of_int threshold) target in
  let p := indicator target pred (float_of_int threshold) pred in
  exists h m f,
    hits_misses_fas_reduce_dims self = Ok [] /\
    calc_seq_hits_misses_fas self pred target threshold = Ok (h, m, f) /\
    shape h = [] /\ shape m = [] /\ shape f = [] /\
    (forall out,
       data h out = zsum (map (fun idx => (t idx * p idx)%Z)
                            (all_indices (shape target))) /\
       data m out = zsum (map (fun idx => (t idx * (1 - p idx))%Z)
                            (all_indices (shape target))) /\
       data f out = zsum (map (fun idx => ((1 - t idx) * p idx)%Z)
                            (all_indices (shape target)))).
Proof.
  intros K E Hrank H1 Hb t p.
  destruct (reduce_dims_keep_seq self K) as [Hax Hs]; [lia|].
  rewrite H1 in Hax, Hs.
  assert (Hz : pop_position 1 (find (layout self) "T"%char) = 0) by lia.
  rewrite Hz in Hax. cbn [range seq remove_at] in Hax.
  destruct (calc_all_dims self pred target threshold [] E Hax)
    as (h & m & f & Hc & Sh & Sm & Sf & Hd).
  - reflexivity.
  - intros k Hk. rewrite <- Hrank, H1 in *. cbn [reduce_axes]. unfold range.
    rewrite existsb_seq. apply andb_true_intro. split.
    + apply Nat.leb_le. lia.
    + apply Nat.ltb_lt. lia.
  - exact Hb.
  - exists h, m, f. repeat split; try assumption; apply Hd.
Qed.

Lemma keep_axes (self : SEVIRSkillScore) (target : tensor spec_float) :
  keep_seq_len_dim self = true ->
  String.length (layout self) = ndim target ->
  2 <= String.length (layout self) ->
  let s := pop_position (String.length (layout self))
             (find (layout self) "T"%char) in
  let axis := remove_at s (range (ndim target)) in
  hits_misses_fas_reduce_dims self = Ok axis /\
  s < ndim target /\
  forallb (fun a => a <? ndim target) axis = true /\
  reduce_axes (List.length (shape target)) axis = axis /\
  (forall k, 0 <= k < 0 + List.length (shape target) ->
     existsb (Nat.eqb k) axis = negb (k =? s)).
Proof.
  intros K Hrank Hlen s axis.
  destruct (reduce_dims_keep_seq self K) as [Hax Hs]; [lia|].
  fold s in Hax, Hs. rewrite Hrank in Hax, Hs. fold axis in Hax.
  split; [exact Hax|]. split; [exact Hs|]. split; [|split].
  - apply forallb_below_seq. intros k Hk. apply in_remove_at in Hk.
    apply in_seq in Hk. lia.
  - assert (List.length axis = ndim target - 1).
    { unfold axis. rewrite remove_at_length; unfold range; rewrite length_seq; lia. }
    destruct axis; [simpl in *; lia|reflexivity].
  - intros k Hk. unfold axis, range.
    rewrite existsb_remove_at_seq by exact Hs.
    destruct (Nat.leb_spec 0 k); [|lia].
    destruct (Nat.ltb_spec k (0 + ndim target)); [|unfold ndim in *; lia].
    reflexivity.
Qed.

(** With the sequence dimension kept over a layout of at least two
    dimensions, the counts have one entry per step of the dimension
    that is not reduced. *)
Lemma calc_keep_dim_shapes (self : SEVIRSkillScore)
    (pred target : tensor spec_float) (threshold : Z) :
  keep_seq_len_dim self = true ->
  shape target = shape pred ->
  String.length (layout self) = ndim target ->
  2 <= String.length (layout self) ->
  let s := pop_position (String.length (layout self))
             (find (layout self) "T"%char) in
  let steps := nth s (shape target) 0 in
  exists h m f,
    calc_seq_hits_misses_fas self pred target threshold = Ok (h, m, f) /\
    shape h = [steps] /\ shape m = [steps] /\ shape f = [steps].
Proof.
  intros K E Hrank Hlen s steps.
  destruct (keep_axes self target K Hrank Hlen) as (Hax & Hs & Hv & Hne & Hone).
  fold s in Hax, Hs, Hv, Hne, Hone.
  destruct (calc_shapes self pred target threshold _ E Hax Hv)
    as (h & m & f & Hc & Sh & Sm & Sf).
  exists h, m, f. split; [exact Hc|].
  unfold ndim in *. rewrite Hne in Sh, Sm, Sf.
  rewrite (kept_shape_keep_one _ 0 s _) in Sh, Sm, Sf by auto with arith.
  rewrite Nat.sub_0_r in Sh, Sm, Sf. repeat split; assumption.
Qed.

(** Over at most 2^24 positions, each entry is the sum of the products
    of the indicators over the positions at that step. *)
Lemma calc_keep_dim (self : SEVIRSkillScore) (pred target : tensor spec_float)
    (threshold : Z) :
  keep_seq_len_dim self = true ->
  shape target = shape pred ->
  String.length (layout self) = ndim target ->
  2 <= String.length (layout self) ->
  (Z.of_nat (numel (shape target)) <= 2 ^ 24)%Z ->
  let s := pop_position (String.length (layout self))
             (find (layout self) "T"%char) in
  let steps := nth s (shape target) 0 in
  let t := indicator target pred (float_of_int threshold) target in
  let p := indicator target pred (float_of_int threshold) pred in
  exists h m f,
    calc_seq_hits_misses_fas self pred target threshold = Ok (h, m, f) /\
    shape h = [steps] /\ shape m = [steps] /\ shape f = [steps] /\
    (forall k, k < steps ->
       data h [k] = zsum (map (fun idx => (t idx * p idx)%Z)
                            (filter (at_step s k) (all_indices (shape target)))) /\
       data m [k] = zsum (map (fun idx => (t idx * (1 - p idx))%Z)
                            (filter (at_step s k) (all_indices (shape target)))) /\
       data f [k] = zsum (map (fun idx => ((1 - t idx) * p idx)%Z)
                            (filter (at_step s k) (all_indices (shape target))))).
Proof.
  intros K E Hrank Hlen Hb s steps t p.
  destruct (keep_axes self target K Hrank Hlen) as (Hax & Hs & Hv & Hne & Hone).
  fold s in Hax, Hs, Hv, Hne, Hone.
  set (axis := remove_at s (range (ndim target))) in *.
  do 3 eexists.
  split; [apply calc_explicit; [exact E|exact Hax|exact Hv]|].
  unfold astype_int32, freduced, tmap. cbn [shape data]. fold t p. rewrite Hne.
  assert (Hk1 : kept_shape 0 (shape target) axis = [steps]).
  { rewrite (kept_shape_keep_one _ 0 s axis) by (unfold ndim in *; auto with arith).
    rewrite Nat.sub_0_r. reflexivity. }
  rewrite Hk1.
  split; [reflexivity|]. split; [reflexivity|]. split; [reflexivity|].
  intros k Hk.
  assert (Hin : in_range (kept_shape 0 (shape target) axis) [k] = true).
  { rewrite Hk1. cbn [in_range]. apply Nat.ltb_lt in Hk. rewrite Hk. reflexivity. }
  assert (Ht : forall idx, (0 <= t idx <= 1)%Z) by (intros; apply indicator_range).
  assert (Hp : forall idx, (0 <= p idx <= 1)%Z) by (intros; apply indicator_range).
  destruct (fsum_over_exact (shape target) 0 axis
              (fun idx => (t idx * p idx)%Z) [k]) as [E1 B1];
    [intros idx; apply (products_range (t idx) (p idx)); auto|exact Hb|exact Hin|].
  destruct (fsum_over_exact (shape target) 0 axis
              (fun idx => (t idx * (1 - p idx))%Z) [k]) as [E2 B2];
    [intros idx; apply (products_range (t idx) (p idx)); auto|exact Hb|exact Hin|].
  destruct (fsum_over_exact (shape target) 0 axis
              (fun idx => ((1 - t idx) * p idx)%Z) [k]) as [E3 B3];
    [intros idx; apply (products_range (t idx) (p idx)); auto|exact Hb|exact Hin|].
  rewrite E1, E2, E3.
  rewrite !int32_of_float_small by lia.
  rewrite !(sum_over_keep_one _ 0 s axis) by
    (try rewrite Nat.sub_0_r; unfold ndim in *; auto with arith).
  rewrite Nat.sub_0_r. repeat split.
Qed.

Lemma pop_position_found (n : nat) (i : Z) :
  (0 <= i)%Z -> pop_position n i = Z.to_nat i.
Proof.
  intros H. unfold pop_position.
  destruct (Z.ltb_spec i 0); [lia|reflexivity].
Qed.

(** With the sequence dimension kept, over a layout that names 'T' among
    at least two dimensions, the counts of a batch have one entry per
    step of the 'T' dimension. *)
Lemma calc_keep_seq_shapes (self : SEVIRSkillScore)
    (pred target : tensor spec_float) (threshold : Z) :
  keep_seq_len_dim self = true ->
  shape target = shape pred ->
  String.length (layout self) = ndim target ->
  (0 <= find (layout self) "T"%char)%Z ->
  2 <= String.length (layout self) ->
  let seq_dim := Z.to_nat (find (layout self) "T"%char) in
  let steps := nth seq_dim (shape target) 0 in
  exists h m f,
    calc_seq_hits_misses_fas self pred target threshold = Ok (h, m, f) /\
    shape h = [steps] /\ shape m = [steps] /\ shape f = [steps].
Proof.
  intros K E Hrank HT Hlen seq_dim steps.
  pose proof (calc_keep_dim_shapes self pred target threshold K E Hrank Hlen) as H.
  cbv zeta in H. rewrite (pop_position_found _ _ HT) in H. exact H.
Qed.

(** Over at most 2^24 positions, each entry is the sum of the products
    of the indicators over the positions at that step of 'T'. *)
Lemma calc_keep_seq (self : SEVIRSkillScore) (pred target : tensor spec_float)
    (threshold : Z) :
  keep_seq_len_dim self = true ->
  shape target = shape pred ->
  String.length (layout self) = ndim target ->
  (0 <= find (layout self) "T"%char)%Z ->
  2 <= String.length (layout self) ->
  (Z.of_nat (numel (shape target)) <= 2 ^ 24)%Z ->
  let seq_dim := Z.to_nat (find (layout self) "T"%char) in
  let steps := nth seq_dim (shape target) 0 in
  let t := indicator target pred (float_of_int threshold) target in
  let p := indicator target pred (float_of_int threshold) pred in
  exists h m f,
    calc_seq_hits_misses_fas self pred target threshold = Ok (h, m, f) /\
    shape h = [steps] /\ shape m = [steps] /\ shape f = [steps] /\
    (forall k, k < steps ->
       data h [k] = zsum (map (fun idx => (t idx * p idx)%Z)
                            (filter (at_step seq_dim k) (all_indices (shape target)))) /\
       data m [k] = zsum (map (fun idx => (t idx * (1 - p idx))%Z)
                            (filter (at_step seq_dim k) (all_indices (shape target)))) /\
       data f [k] = zsum (map (fun idx => ((1 - t idx) * p idx)%Z)
                            (filter (at_step seq_dim k) (all_indices (shape target))))).
Proof.
  intros K E Hrank HT Hlen Hb seq_dim steps t p.
  pose proof (calc_keep_dim self pred target threshold K E Hrank Hlen Hb) as H.
  cbv zeta in H. rewrite (pop_position_found _ _ HT) in H. exact H.
Qed.

Lemma length_all_indices (sh : list nat) :
  List.length (all_indices sh) = numel sh.
Proof.
  induction sh as [|n sh IH]; [reflexivity|].
  cbn [all_indices numel fold_right]. fold (numel sh). rewrite <- IH.
  generalize 0. induction n as [|n IHn]; intros a; [reflexivity|].
  cbn [seq flat_map]. rewrite length_app, length_map, IHn. reflexivity.
Qed.

Lemma zsum_nonneg {A : Type} (f : A -> Z) (l : list A) :
  (forall a, (0 <= f a)%Z) -> (0 <= zsum (map f l))%Z.
Proof.
  intros H. induction l as [|a l IH]; simpl; [lia|]. specialize (H a). lia.
Qed.

Lemma zsum_le {A : Type} (f g : A -> Z) (l : list A) :
  (forall a, (f a <= g a)%Z) -> (zsum (map f l) <= zsum (map g l))%Z.
Proof.
  intros H. induction l as [|a l IH]; simpl; [lia|]. specialize (H a). lia.
Qed.

Lemma zsum_map_add {A : Type} (f g : A -> Z) (l : list A) :
  (zsum (map f l) + zsum (map g l))%Z = zsum (map (fun a => (f a + g a)%Z) l).
Proof.
  induction l as [|a l IH]; [reflexivity|].
  unfold zsum in *. cbn [map fold_right]. lia.
Qed.

Lemma zsum_ones {A : Type} (l : list A) :
  zsum (map (fun _ => 1%Z) l) = Z.of_nat (List.length l).
Proof.
  induction l as [|a l IH]; [reflexivity|].
  unfold zsum in *. cbn [map fold_right List.length]. lia.
Qed.

Lemma count_where_all (sh : list nat) (c : list nat -> bool) :
  (forall idx, c idx = true) ->
  count_where sh (fun _ => true) c = Z.of_nat (numel sh).
Proof.
  intros H. unfold count_where. rewrite filter_all by reflexivity.
  rewrite (map_ext _ (fun _ => 1%Z)) by (intros idx; rewrite H; reflexivity).
  rewrite zsum_ones, length_all_indices. reflexivity.
Qed.

Lemma count_where_indicator (target pred : tensor spec_float) (T : spec_float)
    (x : tensor spec_float) (sh : list nat) (sel : list nat -> bool) :
  zsum (map (indicator target pred T x) (filter sel (all_indices sh))) =
  count_where sh sel (positive_at target pred T x).
Proof.
  unfold count_where. f_equal. apply map_ext. intros idx. apply indicator_b2z.
Qed.

(** C4, as amended: for an instance that [__init__] built and a target
    and a prediction of equal shape with at most 2^24 elements, whose
    rank is the length of the layout, the counts of
    [calc_seq_hits_misses_fas] are the numbers of positions with t AND p,
    t AND NOT p, NOT t AND p: over all positions in mode "0", and, in
    modes "1" and "2" with a layout that names 'T' among at least two
    dimensions, for each step of the 'T' dimension over the positions at
    that step. *)
Theorem calc_seq_hits_misses_fas_counts
    (layout_ mode_ : string) (seq_len_ : option Z) (pt : string)
    (thrs : list Z) (ml : list string) (eps_ : R) (self : SEVIRSkillScore)
    (pred target : tensor spec_float) (threshold : Z) :
  __init__ layout_ mode_ seq_len_ pt thrs ml eps_ = Ok self ->
  shape target = shape pred ->
  String.length layout_ = ndim target ->
  (Z.of_nat (numel (shape target)) <= 2 ^ 24)%Z ->
  (mode_ = "0"%string ->
   exists t p hits misses fas,
     _threshold target pred (float_of_int threshold) = Ok (t, p) /\
     calc_seq_hits_misses_fas self pred target threshold = Ok (hits, misses, fas) /\
     shape hits = [] /\ shape misses = [] /\ shape fas = [] /\
     counts_are (shape target) (fun _ => true) t p
       (data hits []) (data misses []) (data fas [])) /\
  (mode_ = "1"%string \/ mode_ = "2"%string ->
   (0 <= find layout_ "T"%char)%Z ->
   2 <= String.length layout_ ->
   let seq_dim := Z.to_nat (find layout_ "T"%char) in
   let steps := nth seq_dim (shape target) 0 in
   exists t p hits misses fas,
     _threshold target pred (float_of_int threshold) = Ok (t, p) /\
     calc_seq_hits_misses_fas self pred target threshold = Ok (hits, misses, fas) /\
     shape hits = [steps] /\ shape misses = [steps] /\ shape fas = [steps] /\
     forall k, k < steps ->
       counts_are (shape target) (at_step seq_dim k) t p
         (data hits [k]) (data misses [k]) (data fas [k])).
Proof.
  intros Hinit E Hrank Hb. apply init_inv in Hinit. split.
  - intros ->. simpl in Hinit.
    destruct (calc_no_seq self pred target threshold) as
      (h & m & f & Hc & Sh & Sm & Sf & Hd);
      [subst self; reflexivity|exact E|subst self; exact Hrank|exact Hb|].
    do 2 eexists. exists h, m, f.
    split; [apply threshold_ok; exact E|]. split; [exact Hc|].
    split; [exact Sh|]. split; [exact Sm|]. split; [exact Sf|].
    destruct (Hd []) as (-> & -> & ->).
    rewrite <- (filter_all (fun _ => true) (all_indices (shape target)))
      by reflexivity.
    apply counts_of_sums.
  - intros Hmode HT Hlen seq_dim steps.
    assert (K : keep_seq_len_dim self = true).
    { subst self. cbn [keep_seq_len_dim].
      destruct Hmode as [-> | ->]; reflexivity. }
    assert (L : layout self = layout_) by (subst self; reflexivity).
    destruct (calc_keep_seq self pred target threshold) as
      (h & m & f & Hc & Sh & Sm & Sf & Hd);
      [exact K|exact E|rewrite L; exact Hrank|rewrite L; exact HT|
       rewrite L; exact Hlen|exact Hb|].
    rewrite L in Sh, Sm, Sf, Hd.
    do 2 eexists. exists h, m, f.
    split; [apply threshold_ok; exact E|]. split; [exact Hc|].
    split; [exact Sh|]. split; [exact Sm|]. split; [exact Sf|].
    intros k Hk. destruct (Hd k Hk) as (-> & -> & ->).
    apply counts_of_sums.
Qed.

Lemma calc_seq_hits_misses_fas_counts_witness :
  exists t p hits misses fas,
    _threshold target_example pred_example (float_of_int 16) = Ok (t, p) /\
    calc_seq_hits_misses_fas (instance_example "1" true) pred_example
      target_example 16 = Ok (hits, misses, fas) /\
    shape hits = [2] /\ shape misses = [2] /\ shape fas = [2] /\
    forall k, k < 2 ->
      counts_are (shape target_example) (at_step 3 k) t p
        (data hits [k]) (data misses [k]) (data fas [k]).
Proof.
  destruct (calc_seq_hits_misses_fas_counts "NHWT" "1" (Some 2%Z) "sevir"
              [16%Z] ["csi"%string] (1 / 10000)%R (instance_example "1" true)
              pred_example target_example 16 eq_refl eq_refl eq_refl) as [_ H].
  - cbn. lia.
  - apply H.
    + left. reflexivity.
    + simpl. lia.
    + simpl. lia.
Defined.

(** *** Where float32 rounds: a series of 2^24 + 1 positions *)

Lemma frange_sum_ext (n : nat) (f g : nat -> Z) :
  (forall i, i < n -> f i = g i) -> frange_sum n f = frange_sum n g.
Proof.
  induction n as [|n IH]; intros H; [reflexivity|].
  cbn [frange_sum]. rewrite IH by (intros; apply H; lia).
  rewrite H by lia. reflexivity.
Qed.

(** A float32 sum of ones stops at 2^24: 2^24 + 1 is not a float32 and
    is rounded back to 2^24. *)
Lemma frange_sum_ones (n : nat) :
  frange_sum n (fun _ => 1%Z) = Z.min (Z.of_nat n) (2 ^ 24).
Proof.
  induction n as [|n IH]; [reflexivity|].
  cbn [frange_sum]. rewrite IH.
  destruct (Z.le_gt_cases (Z.of_nat n + 1) (2 ^ 24)) as [Hle|Hgt].
  - rewrite Z.min_l by lia. rewrite fadd_exact by lia. lia.
  - rewrite Z.min_r by lia. rewrite Z.min_r by lia. reflexivity.
Qed.

Lemma frange_sum_zeros (n : nat) : frange_sum n (fun _ => 0%Z) = 0%Z.
Proof.
  induction n as [|n IH]; [reflexivity|]. cbn [frange_sum]. rewrite IH.
  reflexivity.
Qed.

Lemma long_len_value : Z.of_nat long_len = (2 ^ 24 + 1)%Z.
Proof. unfold long_len. apply Z2Nat.id. lia. Qed.

Lemma positive_example :
  is_nan (float_of_int 20) = false /\
  SFgeb (float_of_int 20) (float_of_int 16) = true.
Proof. split; vm_compute; reflexivity. Qed.

Lemma constant_series_indicator (n : nat) (idx : list nat) :
  indicator (constant_series n (float_of_int 20))
    (constant_series n (float_of_int 20)) (float_of_int 16)
    (constant_series n (float_of_int 20)) idx = 1%Z.
Proof.
  unfold indicator, constant_series. cbn [data].
  destruct positive_example as [-> ->]. reflexivity.
Qed.

(** On a series of [n] positions that are all positive in the target
    and in the prediction, the hits are [n] up to 2^24 and stay 2^24
    from there on. *)
Lemma constant_series_counts (n : nat) :
  exists hits misses fas,
    calc_seq_hits_misses_fas (series_instance "0" false)
      (constant_series n (float_of_int 20))
      (constant_series n (float_of_int 20)) 16 = Ok (hits, misses, fas) /\
    data hits [] = Z.min (Z.of_nat n) (2 ^ 24) /\
    data misses [] = 0%Z /\ data fas [] = 0%Z.
Proof.
  do 3 eexists. split.
  - apply (calc_explicit (series_instance "0" false) _ _ 16 [0]); reflexivity.
  - unfold astype_int32, freduced, tmap. cbn [data shape constant_series].
    change (fsum_over 0 [n] (reduce_axes (List.length [n]) [0]))
      with (fun (f : list nat -> Z) (_ : list nat) =>
              frange_sum n (fun i => f [i])).
    cbv beta.
    rewrite (frange_sum_ext n _ (fun _ => 1%Z))
      by (intros i _; rewrite !constant_series_indicator; reflexivity).
    rewrite (frange_sum_ext n
               (fun i => (indicator _ _ _ _ [i] * (1 - indicator _ _ _ _ [i]))%Z)
               (fun _ => 0%Z))
      by (intros i _; rewrite !constant_series_indicator; reflexivity).
    rewrite (frange_sum_ext n
               (fun i => ((1 - indicator _ _ _ _ [i]) * indicator _ _ _ _ [i])%Z)
               (fun _ => 0%Z))
      by (intros i _; rewrite !constant_series_indicator; reflexivity).
    rewrite frange_sum_ones, frange_sum_zeros.
    split; [|split; reflexivity].
    apply int32_of_float_small. lia.
Qed.

Lemma long_series_counts :
  exists hits misses fas,
    calc_seq_hits_misses_fas (series_instance "0" false)
      (long_series (float_of_int 20)) (long_series (float_of_int 20)) 16 =
      Ok (hits, misses, fas) /\
    data hits [] = (2 ^ 24)%Z /\ data misses [] = 0%Z /\ data fas [] = 0%Z.
Proof.
  destruct (constant_series_counts long_len)
    as (hits & misses & fas & Hc & Hh & Hm & Hf).
  exists hits, misses, fas. split; [exact Hc|].
  rewrite Hh, long_len_value. split; [apply Z.min_r; lia|]. split; assumption.
Qed.

Lemma long_series_positives (c : list nat -> bool) :
  (forall idx, c idx = true) ->
  count_where (shape (long_series (float_of_int 20))) (fun _ => true) c =
  (2 ^ 24 + 1)%Z.
Proof.
  intros H. rewrite count_where_all by exact H.
  unfold long_series, constant_series. cbn [shape numel fold_right].
  rewrite Nat.mul_1_r. apply long_len_value.
Qed.

(** The claim C4 fails on the code at two inputs.  With the sequence
    dimension kept over the layout "T", the list of axes is empty and
    the sum runs over the 'T' dimension too: the hits are the scalar 2
    where each of the two steps has one hit.  In mode "0", on 2^24 + 1
    positions that are positive in both fields, the float32 sum gives
    2^24 hits. *)
Lemma calc_seq_hits_misses_fas_counterexample :
  (exists t p hits misses fas,
     __init__ "T" "1" (Some 2%Z) "sevir" [16%Z] ["csi"%string] (1 / 10000)%R =
       Ok (series_instance "1" true) /\
     _threshold (short_series (float_of_int 20) (float_of_int 20))
       (short_series (float_of_int 20) (float_of_int 20)) (float_of_int 16) =
       Ok (t, p) /\
     calc_seq_hits_misses_fas (series_instance "1" true)
       (short_series (float_of_int 20) (float_of_int 20))
       (short_series (float_of_int 20) (float_of_int 20)) 16 =
       Ok (hits, misses, fas) /\
     shape hits = [] /\ data hits [] = 2%Z /\
     count_where [2] (at_step 0 0)
       (fun idx => is_one t idx && is_one p idx) = 1%Z /\
     count_where [2] (at_step 0 1)
       (fun idx => is_one t idx && is_one p idx) = 1%Z) /\
  (exists t p hits misses fas,
     __init__ "T" "0" (Some 2%Z) "sevir" [16%Z] ["csi"%string] (1 / 10000)%R =
       Ok (series_instance "0" false) /\
     _threshold (long_series (float_of_int 20)) (long_series (float_of_int 20))
       (float_of_int 16) = Ok (t, p) /\
     calc_seq_hits_misses_fas (series_instance "0" false)
       (long_series (float_of_int 20)) (long_series (float_of_int 20)) 16 =
       Ok (hits, misses, fas) /\
     data hits [] = (2 ^ 24)%Z /\
     count_where (shape (long_series (float_of_int 20))) (fun _ => true)
       (fun idx => is_one t idx && is_one p idx) = (2 ^ 24 + 1)%Z /\
     ~ counts_are (shape (long_series (float_of_int 20))) (fun _ => true) t p
         (data hits []) (data misses []) (data fas [])).
Proof.
  split.
  - do 5 eexists. split; [reflexivity|]. split; [reflexivity|].
    split; [reflexivity|]. repeat split; vm_compute; reflexivity.
  - destruct long_series_counts as (hits & misses & fas & Hc & Hh & Hm & Hf).
    do 2 eexists. exists hits, misses, fas.
    split; [reflexivity|].
    split; [apply threshold_ok; reflexivity|]. split; [exact Hc|].
    split; [exact Hh|].
    assert (Hcount :
              count_where (shape (long_series (float_of_int 20))) (fun _ => true)
                (fun idx =>
                   is_one (mkTensor (shape (long_series (float_of_int 20)))
                             (indicator (long_series (float_of_int 20))
                                (long_series (float_of_int 20)) (float_of_int 16)
                                (long_series (float_of_int 20)))) idx &&
                   is_one (mkTensor (shape (long_series (float_of_int 20)))
                             (indicator (long_series (float_of_int 20))
                                (long_series (float_of_int 20)) (float_of_int 16)
                                (long_series (float_of_int 20)))) idx) =
              (2 ^ 24 + 1)%Z).
    { apply long_series_positives. intros idx. unfold is_one. cbn [data].
      unfold long_series. rewrite constant_series_indicator. reflexivity. }
    split; [exact Hcount|].
    intros (H1 & _). rewrite Hh, Hcount in H1. lia.
Qed.

(** When the list of axes covers every dimension, every entry of a
    float32 reduction of indicators over at most 2^24 positions is their
    number. *)
Lemma fsum_all (sh : list nat) (axes : list nat) (f : list nat -> Z)
    (out : list nat) :
  (forall k, 0 <= k < 0 + List.length sh -> existsb (Nat.eqb k) axes = true) ->
  (forall idx, (0 <= f idx <= 1)%Z) ->
  (Z.of_nat (numel sh) <= 2 ^ 24)%Z ->
  fsum_over 0 sh axes f out = zsum (map f (all_indices sh)).
Proof.
  intros Hall Hf Hb.
  destruct (fsum_over_all_exact sh 0 axes f out Hall Hf Hb) as [E _].
  rewrite E. apply sum_over_all. exact Hall.
Qed.

Lemma fsum_keep_one (sh : list nat) (s : nat) (axes : list nat)
    (f : list nat -> Z) (j : nat) :
  s < List.length sh ->
  (forall k, 0 <= k < 0 + List.length sh ->
     existsb (Nat.eqb k) axes = negb (k =? s)) ->
  j < nth s sh 0 ->
  (forall idx, (0 <= f idx <= 1)%Z) ->
  (Z.of_nat (numel sh) <= 2 ^ 24)%Z ->
  fsum_over 0 sh axes f [j] =
  zsum (map f (filter (at_step s j) (all_indices sh))).
Proof.
  intros Hs Hone Hj Hf Hb.
  destruct (fsum_over_exact sh 0 axes f [j] Hf Hb) as [E _].
  - rewrite (kept_shape_keep_one sh 0 s axes) by (auto with arith).
    rewrite Nat.sub_0_r. cbn [in_range]. apply Nat.ltb_lt in Hj. rewrite Hj.
    reflexivity.
  - rewrite E. rewrite (sum_over_keep_one sh 0 s axes f j);
      rewrite ?Nat.sub_0_r; auto with arith.
Qed.

Lemma zsum_indicators_range (f : list nat -> Z) (sel : list nat -> bool)
    (sh : list nat) :
  (forall idx, (0 <= f idx <= 1)%Z) ->
  (0 <= zsum (map f (filter sel (all_indices sh))) <= Z.of_nat (numel sh))%Z.
Proof.
  intros Hf. split.
  - apply zsum_nonneg. intros idx. apply Hf.
  - rewrite <- length_all_indices.
    apply Z.le_trans with (Z.of_nat (List.length (filter sel (all_indices sh)))).
    + rewrite <- zsum_ones. apply zsum_le. intros idx. apply Hf.
    + apply Nat2Z.inj_le. apply filter_length_le.
Qed.

Lemma partition_algebra (t p : list nat -> Z) (l : list (list nat)) :
  (zsum (map (fun idx => (t idx * p idx)%Z) l) +
   zsum (map (fun idx => (t idx * (1 - p idx))%Z) l) = zsum (map t l))%Z /\
  (zsum (map (fun idx => (t idx * p idx)%Z) l) +
   zsum (map (fun idx => ((1 - t idx) * p idx)%Z) l) = zsum (map p l))%Z.
Proof.
  rewrite !zsum_map_add. split; f_equal; apply map_ext; intros idx; ring.
Qed.

(** The partition of the positives, for a list of axes whose float32
    reduction of indicators is, at every valid index [out] of the
    result, their exact number over the positions that [sel out]
    selects. *)
Lemma partition_entries (self : SEVIRSkillScore)
    (pred target : tensor spec_float) (threshold : Z) (axis : list nat)
    (sel : list nat -> list nat -> bool) :
  shape target = shape pred ->
  hits_misses_fas_reduce_dims self = Ok axis ->
  forallb (fun a => a <? ndim target) axis = true ->
  (Z.of_nat (numel (shape target)) <= 2 ^ 24)%Z ->
  (forall f out,
     (forall idx, (0 <= f idx <= 1)%Z) ->
     in_range (kept_shape 0 (shape target) (reduce_axes (ndim target) axis)) out
       = true ->
     fsum_over 0 (shape target) (reduce_axes (ndim target) axis) f out =
     zsum (map f (filter (sel out) (all_indices (shape target))))) ->
  exists t p hits misses fas sum_t sum_p,
    _threshold target pred (float_of_int threshold) = Ok (t, p) /\
    calc_seq_hits_misses_fas self pred target threshold = Ok (hits, misses, fas) /\
    Tensor.sum t axis = Ok sum_t /\
    Tensor.sum p axis = Ok sum_p /\
    shape hits = shape sum_t /\ shape misses = shape sum_t /\
    shape fas = shape sum_p /\
    forall out, in_range (shape hits) out = true ->
      (data hits out + data misses out = data sum_t out)%Z /\
      (data hits out + data fas out = data sum_p out)%Z /\
      data sum_t out =
        count_where (shape target) (sel out)
          (positive_at target pred (float_of_int threshold) target) /\
      data sum_p out =
        count_where (shape target) (sel out)
          (positive_at target pred (float_of_int threshold) pred).
Proof.
  intros E Hax Hv Hb Hsum.
  set (t := indicator target pred (float_of_int threshold) target).
  set (p := indicator target pred (float_of_int threshold) pred).
  assert (Ht : forall idx, (0 <= t idx <= 1)%Z) by (intros; apply indicator_range).
  assert (Hp : forall idx, (0 <= p idx <= 1)%Z) by (intros; apply indicator_range).
  do 7 eexists.
  split; [apply threshold_ok; exact E|].
  split; [apply calc_explicit; [exact E|exact Hax|exact Hv]|].
  split; [apply sum_valid_axes; exact Hv|].
  split; [apply sum_valid_axes; unfold ndim in *; cbn [shape]; rewrite <- E; exact Hv|].
  unfold astype_int32, freduced, tmap. cbn [shape data]. rewrite <- E.
  fold t p. fold (ndim target).
  split; [reflexivity|]. split; [reflexivity|]. split; [reflexivity|].
  intros out Hout.
  rewrite !(Hsum _ out) by
    (try exact Hout; intros idx;
     try apply Ht; try apply Hp;
     apply (products_range (t idx) (p idx)); auto).
  rewrite !int32_of_float_small.
  - destruct (partition_algebra t p
                (filter (sel out) (all_indices (shape target)))) as [A1 A2].
    split; [exact A1|]. split; [exact A2|].
    split; apply count_where_indicator.
  - pose proof (zsum_indicators_range (fun idx => ((1 - t idx) * p idx)%Z)
                  (sel out) (shape target)) as B.
    cbv beta in B. split; [apply B|eapply Z.le_trans; [apply B|lia]];
      intros idx; apply (products_range (t idx) (p idx)); auto.
  - pose proof (zsum_indicators_range (fun idx => (t idx * (1 - p idx))%Z)
                  (sel out) (shape target)) as B.
    cbv beta in B. split; [apply B|eapply Z.le_trans; [apply B|lia]];
      intros idx; apply (products_range (t idx) (p idx)); auto.
  - pose proof (zsum_indicators_range (fun idx => (t idx * p idx)%Z)
                  (sel out) (shape target)) as B.
    cbv beta in B. split; [apply B|eapply Z.le_trans; [apply B|lia]];
      intros idx; apply (products_range (t idx) (p idx)); auto.
Qed.

(** C10, as amended: on a target and a prediction of equal shape with at
    most 2^24 elements, whose rank is the length of the layout,
    [calc_seq_hits_misses_fas] returns counts with hits + misses = sum
    of t and hits + fas = sum of p at every entry, and these sums are
    the numbers of target positives and of prediction positives, a
    position where the target or the prediction is NaN counting for
    neither, among the positions that are added into the entry. *)
Theorem hits_misses_fas_partition (self : SEVIRSkillScore)
    (pred target : tensor spec_float) (threshold : Z) :
  shape target = shape pred ->
  String.length (layout self) = ndim target ->
  (keep_seq_len_dim self = true -> 1 <= String.length (layout self)) ->
  (Z.of_nat (numel (shape target)) <= 2 ^ 24)%Z ->
  exists t p axis hits misses fas sum_t sum_p,
    _threshold target pred (float_of_int threshold) = Ok (t, p) /\
    hits_misses_fas_reduce_dims self = Ok axis /\
    calc_seq_hits_misses_fas self pred target threshold = Ok (hits, misses, fas) /\
    Tensor.sum t axis = Ok sum_t /\
    Tensor.sum p axis = Ok sum_p /\
    shape hits = shape sum_t /\ shape misses = shape sum_t /\
    shape fas = shape sum_p /\
    forall out, in_range (shape hits) out = true ->
      (data hits out + data misses out = data sum_t out)%Z /\
      (data hits out + data fas out = data sum_p out)%Z /\
      data sum_t out =
        count_where (shape target) (group self out)
          (positive_at target pred (float_of_int threshold) target) /\
      data sum_p out =
        count_where (shape target) (group self out)
          (positive_at target pred (float_of_int threshold) pred).
Proof.
  intros E Hrank Hn Hb.
  assert (Hcase :
    exists axis,
      hits_misses_fas_reduce_dims self = Ok axis /\
      forallb (fun a => a <? ndim target) axis = true /\
      forall f out,
        (forall idx, (0 <= f idx <= 1)%Z) ->
        in_range (kept_shape 0 (shape target) (reduce_axes (ndim target) axis))
          out = true ->
        fsum_over 0 (shape target) (reduce_axes (ndim target) axis) f out =
        zsum (map f (filter (group self out) (all_indices (shape target))))).
  { destruct (keep_seq_len_dim self) eqn:K.
    - specialize (Hn eq_refl).
      destruct (Nat.eq_dec (String.length (layout self)) 1) as [H1|H1].
      + (* a single dimension: the list of axes is empty *)
        destruct (reduce_dims_keep_seq self K Hn) as [Hax Hs].
        rewrite H1 in Hax, Hs.
        assert (Hz : pop_position 1 (find (layout self) "T"%char) = 0) by lia.
        rewrite Hz in Hax. cbn [range seq remove_at] in Hax.
        exists []. split; [exact Hax|]. split; [reflexivity|].
        intros f out Hf _.
        assert (G : group self out = fun _ => true).
        { unfold group, kept_dim. rewrite K, H1. reflexivity. }
        rewrite G, filter_all by reflexivity.
        apply fsum_all; [|exact Hf|exact Hb].
        intros k Hk. fold (ndim target) in Hk. rewrite <- Hrank, H1 in *.
        cbn [reduce_axes]. unfold range. rewrite existsb_seq.
        apply andb_true_intro. split; [apply Nat.leb_le|apply Nat.ltb_lt]; lia.
      + assert (Hlen : 2 <= String.length (layout self)) by lia.
        destruct (keep_axes self target K Hrank Hlen)
          as (Hax & Hs & Hv & Hne & Hone).
        set (s := pop_position (String.length (layout self))
                    (find (layout self) "T"%char)) in *.
        eexists. split; [exact Hax|]. split; [exact Hv|].
        intros f out Hf Hout. unfold ndim in *. rewrite Hne in *.
        rewrite (kept_shape_keep_one _ 0 s _) in Hout by auto with arith.
        rewrite Nat.sub_0_r in Hout.
        destruct out as [|k [|k' out]]; try discriminate.
        * cbn [in_range] in Hout. rewrite andb_true_r in Hout.
          apply Nat.ltb_lt in Hout.
          assert (G : group self [k] = at_step s k).
          { unfold group, kept_dim. rewrite K.
            destruct (Nat.leb_spec 2 (String.length (layout self))); [|lia].
            reflexivity. }
          rewrite G. apply fsum_keep_one; assumption.
        * cbn [in_range] in Hout. rewrite andb_false_r in Hout. discriminate.
    - exists (range (ndim target)).
      split; [rewrite reduce_dims_no_seq by exact K; rewrite Hrank; reflexivity|].
      split; [apply forallb_below_seq; intros k Hk; apply in_seq in Hk; lia|].
      intros f out Hf _.
      assert (G : group self out = fun _ => true).
      { unfold group, kept_dim. rewrite K. reflexivity. }
      rewrite G, filter_all by reflexivity.
      apply fsum_all; [apply all_reduced_no_seq|exact Hf|exact Hb]. }
  destruct Hcase as (axis & Hax & Hv & Hsum).
  destruct (partition_entries self pred target threshold axis (group self)
              E Hax Hv Hb Hsum)
    as (t & p & hits & misses & fas & sum_t & sum_p & H).
  exists t, p, axis, hits, misses, fas, sum_t, sum_p.
  destruct H as (H1 & H2 & H3). split; [exact H1|]. split; [exact Hax|].
  split; [exact H2|exact H3].
Qed.

Lemma hits_misses_fas_partition_witness :
  exists hits misses fas,
    calc_seq_hits_misses_fas (instance_example "1" true) pred_example
      target_example 16 = Ok (hits, misses, fas) /\
    (data hits [0%nat] + data misses [0%nat] = 1)%Z /\
    (data hits [0%nat] + data fas [0%nat] = 1)%Z /\
    (data hits [1%nat] + data misses [1%nat] = 0)%Z /\
    (data hits [1%nat] + data fas [1%nat] = 1)%Z.
Proof.
  destruct (hits_misses_fas_partition (instance_example "1" true) pred_example
              target_example 16)
    as (t & p & axis & hits & misses & fas & sum_t & sum_p &
        _ & _ & Hc & _ & _ & _ & _ & _ & Hd).
  - reflexivity.
  - reflexivity.
  - intros _. cbn. lia.
  - cbn. lia.
  - exists hits, misses, fas. split; [exact Hc|].
    assert (Sh : shape hits = [2]).
    { apply (f_equal (fun r => match r with
                               | Ok (h, _, _) => shape h
                               | Raise _ => []
                               end)) in Hc.
      symmetry. exact Hc. }
    destruct (Hd [0]) as (A0 & B0 & C0 & D0); [rewrite Sh; reflexivity|].
    destruct (Hd [1]) as (A1 & B1 & C1 & D1); [rewrite Sh; reflexivity|].
    rewrite A0, B0, A1, B1, C0, D0, C1, D1.
    repeat split; vm_compute; reflexivity.
Defined.

(** The claim C10 fails on the code on the series of 2^24 + 1 positions
    at which the target and the prediction are positive: hits + misses
    is 2^24, one less than the number of target positives. *)
Lemma hits_misses_fas_partition_counterexample :
  exists hits misses fas,
    calc_seq_hits_misses_fas (series_instance "0" false)
      (long_series (float_of_int 20)) (long_series (float_of_int 20)) 16 =
      Ok (hits, misses, fas) /\
    (data hits [] + data misses [] = 2 ^ 24)%Z /\
    count_where (shape (long_series (float_of_int 20))) (fun _ => true)
      (positive_at (long_series (float_of_int 20))
         (long_series (float_of_int 20)) (float_of_int 16)
         (long_series (float_of_int 20))) = (2 ^ 24 + 1)%Z /\
    (data hits [] + data misses [])%Z <>
    count_where (shape (long_series (float_of_int 20))) (fun _ => true)
      (positive_at (long_series (float_of_int 20))
         (long_series (float_of_int 20)) (float_of_int 16)
         (long_series (float_of_int 20))).
Proof.
  destruct long_series_counts as (hits & misses & fas & Hc & Hh & Hm & Hf).
  exists hits, misses, fas. split; [exact Hc|].
  assert (Hcount :
            count_where (shape (long_series (float_of_int 20))) (fun _ => true)
              (positive_at (long_series (float_of_int 20))
                 (long_series (float_of_int 20)) (float_of_int 16)
                 (long_series (float_of_int 20))) = (2 ^ 24 + 1)%Z).
  { apply long_series_positives. intros idx.
    unfold positive_at, long_series, constant_series. cbn [data].
    destruct positive_example as [-> ->]. reflexivity. }
  rewrite Hh, Hm, Hcount. repeat split; lia.
Qed.

(** ** The metrics *)

Lemma pod_ok (hits misses fas : tensor R) (eps : R) :
  shape hits = shape misses ->
  pod hits misses fas eps =
    Ok (mkTensor (shape hits)
          (fun idx => (data hits idx / (data hits idx + data misses idx + eps))%R)).
Proof.
  intros Em. unfold pod, add_scalar, tmap.
  rewrite (tzip_same_shape Rplus hits misses Em). cbn [bind].
  rewrite tzip_same_shape by reflexivity. reflexivity.
Qed.

Lemma sucr_ok (hits misses fas : tensor R) (eps : R) :
  shape hits = shape fas ->
  sucr hits misses fas eps =
    Ok (mkTensor (shape hits)
          (fun idx => (data hits idx / (data hits idx + data fas idx + eps))%R)).
Proof.
  intros Ef. unfold sucr, add_scalar, tmap.
  rewrite (tzip_same_shape Rplus hits fas Ef). cbn [bind].
  rewrite tzip_same_shape by reflexivity. reflexivity.
Qed.

Lemma csi_ok (hits misses fas : tensor R) (eps : R) :
  shape hits = shape misses ->
  shape hits = shape fas ->
  csi hits misses fas eps =
    Ok (mkTensor (shape hits)
          (fun idx =>
             (data hits idx /
              (data hits idx + data misses idx + data fas idx + eps))%R)).
Proof.
  intros Em Ef. unfold csi, add_scalar, tmap.
  rewrite (tzip_same_shape Rplus hits misses Em). cbn [bind].
  rewrite tzip_same_shape by exact Ef. cbn [bind].
  rewrite tzip_same_shape by reflexivity. reflexivity.
Qed.

(** What [bias] returns: the square of the counts' ratio divided by
    log 2.  The logarithm of the ratio is not taken. *)
Lemma bias_ok (hits misses fas : tensor R) (eps : R) :
  shape hits = shape misses ->
  shape hits = shape fas ->
  bias hits misses fas eps =
    Ok (mkTensor (shape hits)
          (fun idx =>
             ((count_ratio (data hits idx) (data misses idx) (data fas idx) eps
               / ln 2) ^ 2)%R)).
Proof.
  intros Em Ef. unfold bias, add_scalar, tmap.
  rewrite (tzip_same_shape Rplus hits fas Ef). cbn [bind].
  rewrite (tzip_same_shape Rplus hits misses Em). cbn [bind].
  rewrite tzip_same_shape by reflexivity. reflexivity.
Qed.

(** C5: on accumulated counts of one shape the metric functions return,
    entry by entry, POD = hits/(hits+misses+eps),
    SUCR = hits/(hits+fas+eps) and CSI = hits/(hits+misses+fas+eps). *)
Theorem metric_formulas (hits misses fas : tensor R) (eps : R) :
  shape hits = shape misses ->
  shape hits = shape fas ->
  exists vpod vsucr vcsi,
    pod hits misses fas eps = Ok vpod /\
    sucr hits misses fas eps = Ok vsucr /\
    csi hits misses fas eps = Ok vcsi /\
    shape vpod = shape hits /\ shape vsucr = shape hits /\
    shape vcsi = shape hits /\
    forall idx,
      data vpod idx = (data hits idx / (data hits idx + data misses idx + eps))%R /\
      data vsucr idx = (data hits idx / (data hits idx + data fas idx + eps))%R /\
      data vcsi idx =
        (data hits idx / (data hits idx + data misses idx + data fas idx + eps))%R.
Proof.
  intros Em Ef. do 3 eexists.
  split; [apply pod_ok; exact Em|].
  split; [apply sucr_ok; exact Ef|].
  split; [apply csi_ok; [exact Em|exact Ef]|].
  repeat split.
Qed.

Lemma metric_formulas_witness :
  exists vpod vsucr vcsi,
    pod (counts 3) (counts 1) (counts 2) (1 / 10000)%R = Ok vpod /\
    sucr (counts 3) (counts 1) (counts 2) (1 / 10000)%R = Ok vsucr /\
    csi (counts 3) (counts 1) (counts 2) (1 / 10000)%R = Ok vcsi /\
    shape vpod = [1] /\ shape vsucr = [1] /\ shape vcsi = [1] /\
    forall idx,
      data vpod idx =
        (data (counts 3) idx / (data (counts 3) idx + data (counts 1) idx + 1 / 10000))%R /\
      data vsucr idx =
        (data (counts 3) idx / (data (counts 3) idx + data (counts 2) idx + 1 / 10000))%R /\
      data vcsi idx =
        (data (counts 3) idx /
         (data (counts 3) idx + data (counts 1) idx + data (counts 2) idx + 1 / 10000))%R.
Proof.
  apply (metric_formulas (counts 3) (counts 1) (counts 2) (1 / 10000)%R);
    reflexivity.
Defined.

Lemma ln_near_one : (- (1 / 10000) < ln (10000 / 10001) < 0)%R.
Proof.
  assert (H1 : (ln (10001 / 10000) < 1 / 10000)%R).
  { apply Rlt_le_trans with (ln (exp (1 / 10000))).
    - apply ln_increasing; [lra|].
      pose proof (exp_ineq1 (1 / 10000)%R) as H. lra.
    - rewrite ln_exp. lra. }
  assert (H2 : (0 < ln (10001 / 10000))%R).
  { rewrite <- ln_1. apply ln_increasing; lra. }
  replace (10000 / 10001)%R with (/ (10001 / 10000))%R by (field; lra).
  rewrite ln_Rinv by lra. lra.
Qed.

(** C2, at hits = 1, misses = 0, fas = 0 and eps = 1e-4: [bias] returns
    (ratio / log 2)^2 for the ratio 10000/10001, which is not
    (log(ratio) / log 2)^2. *)
Theorem bias_omits_log :
  exists v,
    bias (counts 1) (counts 0) (counts 0) (1 / 10000)%R = Ok v /\
    data v [0] = ((10000 / 10001 / ln 2) ^ 2)%R /\
    data v [0] <> ((ln (10000 / 10001) / ln 2) ^ 2)%R.
Proof.
  eexists. split; [apply bias_ok; reflexivity|].
  match goal with |- ?d = _ /\ _ =>
    assert (E : d = ((10000 / 10001 / ln 2) ^ 2)%R)
  end.
  { unfold count_ratio, counts, of_list. cbn [data hd nth].
    f_equal. f_equal. field. }
  split; [exact E|]. rewrite E.
  pose proof ln_near_one as [L1 L2]. pose proof ln_lt_2 as L3.
  intros H.
  set (a := (10000 / 10001)%R) in *. set (x := ln a) in *. set (l := ln 2) in *.
  assert (Ha : ((a / l) ^ 2 * l ^ 2 = a ^ 2)%R) by (field; lra).
  assert (Hx : ((x / l) ^ 2 * l ^ 2 = x ^ 2)%R) by (field; lra).
  assert (Hsq : (a ^ 2 = x ^ 2)%R) by (rewrite <- Ha, <- Hx, H; reflexivity).
  assert (A : (a = 10000 / 10001)%R) by reflexivity.
  simpl in Hsq. nra.
Qed.

(** ** The forward pass of the FNO network *)

Section ForwardProperties.

Variable T : Type.
Variable concat_to_tensor : dict string T -> list string -> T.
Variable lifting : T -> T.
Variable projection : T -> T.
Variable pad : FNO.DomainPadding -> T -> T.
Variable unpad : FNO.DomainPadding -> T -> T.
Variable fno_blocks : T -> nat -> T.

Lemma loop_blocks_in_order (n : nat) :
  forall i x,
    fold_left (fun x index => fno_blocks x index) (seq i n) x =
    FNO.blocks_in_order fno_blocks i n x.
Proof.
  induction n as [|n IH]; intros i x; simpl; [reflexivity|]. apply IH.
Qed.

Lemma blocks_in_order_last (n : nat) :
  forall i x,
    FNO.blocks_in_order fno_blocks i (S n) x =
    fno_blocks (FNO.blocks_in_order fno_blocks i n x) (i + n).
Proof.
  induction n as [|n IH]; intros i x.
  - simpl. rewrite Nat.add_0_r. reflexivity.
  - change (FNO.blocks_in_order fno_blocks i (S (S n)) x)
      with (FNO.blocks_in_order fno_blocks (S i) (S n) (fno_blocks x i)).
    rewrite IH. simpl. rewrite Nat.add_succ_r. reflexivity.
Qed.

(** C9: [forward] returns the dictionary with the single key
    [output_keys[0]], whose value is the projection of the unpadded
    output of the Fourier blocks 0, ..., n_layers - 1, applied in this
    order to the padded lifting of the concatenated input; padding and
    unpadding take place exactly when [self.domain_padding] is set. *)
Theorem forward_is_pipeline (self : FNO.FNONet) (x : dict string T)
    (k : string) (ks : list string) :
  FNO.output_keys self = k :: ks ->
  FNO.forward concat_to_tensor lifting projection pad unpad fno_blocks self x =
    Ok [(k, FNO.pipeline concat_to_tensor lifting projection pad unpad
              fno_blocks self x)].
Proof.
  intros Hk. unfold FNO.forward, FNO.pipeline, FNO.pad_when_configured,
    FNO.unpad_when_configured, range.
  rewrite Hk, loop_blocks_in_order. reflexivity.
Qed.

End ForwardProperties.

(** The constructor sets [self.domain_padding] exactly for a positive
    number and for a list of numbers whose sum, as Python adds them, is
    positive. *)
Lemma domain_padding_configured (arg : FNO.padding_arg) (m : string) :
  FNO.init_domain_padding arg m <> None <->
  (exists l, arg = FNO.PadList l /\ FNO.positive (FNO.float_sum l) = true) \/
  (exists x, arg = FNO.PadNumber x /\ FNO.positive x = true).
Proof.
  destruct arg as [|l|x|]; simpl.
  - split; [congruence|]. intros [(l & H & _)|(x & H & _)]; discriminate.
  - destruct (FNO.positive (FNO.float_sum l)) eqn:E.
    + split; [|discriminate]. intros _. left. exists l. split; [reflexivity|].
      exact E.
    + split; [congruence|]. intros [(l' & H & Hp)|(x & H & _)]; [|discriminate].
      injection H as <-. congruence.
  - destruct (FNO.positive x) eqn:E.
    + split; [|discriminate]. intros _. right. exists x. split; [reflexivity|].
      exact E.
    + split; [congruence|]. intros [(l & H & _)|(x' & H & Hp)]; [discriminate|].
      injection H as <-. congruence.
  - split; [congruence|]. intros [(l & H & _)|(x & H & _)]; discriminate.
Qed.

Lemma forward_is_pipeline_witness :
  FNO.forward trace_concat (trace_layer "lifting") (trace_layer "projection")
    (fun _ => trace_layer "pad") (fun _ => trace_layer "unpad") trace_block
    net_example [("input"%string, [("x"%string, 0)])] =
  Ok [("output"%string,
       [("x"%string, 0); ("lifting"%string, 0); ("pad"%string, 0);
        ("fno_blocks"%string, 0); ("fno_blocks"%string, 1);
        ("unpad"%string, 0); ("projection"%string, 0)])].
Proof.
  rewrite (forward_is_pipeline trace trace_concat (trace_layer "lifting")
             (trace_layer "projection") (fun _ => trace_layer "pad")
             (fun _ => trace_layer "unpad") trace_block net_example
             [("input"%string, [("x"%string, 0)])] "output" [] eq_refl).
  reflexivity.
Defined.

(** ** Modes *)

Lemma metric_lookup_value (name : string) (h m f : tensor R) (e : R) :
  In name known_metrics ->
  shape h = shape m ->
  shape h = shape f ->
  exists fn,
    dict_get String.eqb metrics_dict name = Some fn /\
    fn h m f e =
      Ok (mkTensor (shape h)
            (fun idx => score_value name (data h idx) (data m idx) (data f idx) e)).
Proof.
  intros Hin Em Ef. unfold known_metrics in Hin. simpl in Hin.
  destruct Hin as [<-|[<-|[<-|[<-|[]]]]]; eexists; (split; [reflexivity|]).
  - rewrite pod_ok by exact Em. reflexivity.
  - rewrite csi_ok by assumption. reflexivity.
  - rewrite sucr_ok by exact Ef. reflexivity.
  - rewrite bias_ok by assumption. reflexivity.
Qed.

Lemma unsupported_not_in (m : string) :
  m <> "0"%string -> m <> "1"%string -> m <> "2"%string ->
  str_in m ["0"%string] = false /\
  str_in m ["1"%string; "2"%string] = false /\
  str_in m ["0"%string; "1"%string] = false /\
  str_in m ["2"%string] = false.
Proof.
  intros H0 H1 H2. apply String.eqb_neq in H0, H1, H2.
  unfold str_in. simpl. rewrite H0, H1, H2. repeat split.
Qed.

(** ** The accumulated state *)

(** In every mode the constructor allocates the three counts with the
    shape (num_thresholds,). *)
Lemma init_state_shape (layout_ mode_ : string) (seq_len_ : option Z)
    (pt : string) (thrs : list Z) (ml : list string) (eps_ : R)
    (self : SEVIRSkillScore) :
  __init__ layout_ mode_ seq_len_ pt thrs ml eps_ = Ok self ->
  shape (hits self) = [List.length thrs] /\
  shape (misses self) = [List.length thrs] /\
  shape (fas self) = [List.length thrs].
Proof.
  intros H. apply init_inv in H. subst self. repeat split.
Qed.

(** C1, at [SEVIRSkillScore(layout="NHWT", mode="1", seq_len=2,
    threshold_list=(16,))]: the counts have the shape (1,), which is not
    the shape (1, 2) that the constructor computes as [state_shape]. *)
Theorem state_shape_without_seq_len :
  exists self,
    score_example "1" = Ok self /\
    keep_seq_len_dim self = true /\
    shape (hits self) = [1] /\ shape (misses self) = [1] /\
    shape (fas self) = [1] /\
    state_shape_seq (threshold_list self) 2 = [1; 2]%Z /\
    map Z.of_nat (shape (hits self)) <> state_shape_seq (threshold_list self) 2.
Proof.
  eexists. split; [reflexivity|]. cbn. repeat split. discriminate.
Qed.

Lemma example_reduce_dims (m : string) :
  hits_misses_fas_reduce_dims (instance_example m true) = Ok [0; 1; 2].
Proof. reflexivity. Qed.

(** On the instance of the example in a mode that keeps the sequence
    dimension, the counts of a batch with two time steps have the shape
    (2,), and the assignment [self.hits[0] += hits] is rejected: [compute]
    raises and leaves the instance as it was. *)
Lemma compute_step_counts_rejected
    (process_data_dict_back : tensor spec_float -> tensor spec_float)
    (m : string) :
  (forall x, shape (process_data_dict_back x) = shape x) ->
  compute process_data_dict_back pred_example target_example
    (instance_example m true) =
  (instance_example m true, Raise ValueError).
Proof.
  intros Hpb. unfold compute, mbind, reads, preprocess.
  cbn [instance_example preprocess_type threshold_list String.eqb Ascii.eqb
       Bool.eqb enumerate List.length seq combine for_each].
  unfold accumulate_step at 1. unfold mbind at 1. unfold mbind at 1.
  unfold reads at 1.
  change (mkSkillScore "NHWT" "sevir" [16%Z] ["csi"%string] (1 / 10000)%R m
            (Some 2%Z) true (zeros [1]) (zeros [1]) (zeros [1]))
    with (instance_example m true).
  rewrite (calc_explicit (instance_example m true) _ _ 16 [0; 1; 2]).
  - unfold iadd_field, iadd_item, reduced.
    rewrite (Hpb target_example).
    reflexivity.
  - rewrite !Hpb. reflexivity.
  - apply example_reduce_dims.
  - unfold ndim. rewrite Hpb. reflexivity.
Qed.

Lemma iadd_item_vector_rejected (x v : tensor Z) (n i k : nat) :
  shape x = [n] -> i < n -> shape v = [k] -> k <> 1 ->
  iadd_item x i v = Raise ValueError.
Proof.
  intros Hx Hi Hv Hk. unfold iadd_item, getitem. rewrite Hx.
  apply Nat.ltb_lt in Hi. rewrite Hi. cbn [bind].
  unfold tzip, tmap. cbn [shape]. rewrite Hv.
  unfold shape_eqb. destruct (list_eq_dec Nat.eq_dec [] [k]); [discriminate|].
  cbn [bind]. unfold setitem. rewrite Hx, Hi. cbn [negb shape].
  destruct k as [|[|k]]; [reflexivity|contradiction|reflexivity].
Qed.

(** With the sequence dimension kept and counts of shape
    (num_thresholds,), a batch whose 'T' dimension does not have exactly
    one step is rejected at the first assignment to the state: [compute]
    raises and leaves the instance as it was. *)
Lemma compute_keep_seq_rejected
    (process_data_dict_back : tensor spec_float -> tensor spec_float)
    (self : SEVIRSkillScore) (pred target : tensor spec_float)
    (thr : Z) (thrs : list Z) :
  keep_seq_len_dim self = true ->
  preprocess_type self = "sevir"%string ->
  threshold_list self = thr :: thrs ->
  shape (hits self) = [List.length (threshold_list self)] ->
  shape (process_data_dict_back target) = shape (process_data_dict_back pred) ->
  String.length (layout self) = ndim (process_data_dict_back target) ->
  (0 <= find (layout self) "T"%char)%Z ->
  2 <= String.length (layout self) ->
  nth (Z.to_nat (find (layout self) "T"%char))
    (shape (process_data_dict_back target)) 0 <> 1 ->
  compute process_data_dict_back pred target self = (self, Raise ValueError).
Proof.
  intros K Hpre Hthr Sh E Hrank HT Hlen Hsteps.
  destruct (calc_keep_seq_shapes self (process_data_dict_back pred)
              (process_data_dict_back target) thr K E Hrank HT Hlen)
    as (h & m & f & Hc & Shh & _).
  unfold compute, mbind, reads, preprocess. rewrite Hpre.
  cbn [String.eqb Ascii.eqb Bool.eqb]. rewrite Hthr.
  cbn [enumerate List.length seq combine for_each].
  unfold accumulate_step at 1. unfold mbind, reads. rewrite Hc.
  cbv beta iota. unfold iadd_field at 1.
  rewrite Hthr in Sh. cbn [List.length] in Sh.
  rewrite (iadd_item_vector_rejected (hits self) h _ 0 _ Sh (Nat.lt_0_succ _)
             Shh Hsteps).
  reflexivity.
Qed.

Lemma score_example_instance :
  score_example "0" = Ok (instance_example "0" false) /\
  score_example "1" = Ok (instance_example "1" true) /\
  score_example "2" = Ok (instance_example "2" true).
Proof. repeat split. Qed.

(** C6, at the instance of mode "1" and a batch of two time steps: the
    counts of the batch have one entry per time step, [compute] raises
    [ValueError] at the first assignment to the state instead of adding
    them, and the state stays as it was. *)
Theorem compute_mode1_does_not_accumulate
    (process_data_dict_back : tensor spec_float -> tensor spec_float) :
  (forall x, shape (process_data_dict_back x) = shape x) ->
  score_example "1" = Ok (instance_example "1" true) /\
  (exists h m f,
     calc_seq_hits_misses_fas (instance_example "1" true)
       (process_data_dict_back pred_example)
       (process_data_dict_back target_example) 16 = Ok (h, m, f) /\
     shape h = [2] /\ shape m = [2] /\ shape f = [2]) /\
  compute process_data_dict_back pred_example target_example
    (instance_example "1" true) =
  (instance_example "1" true, Raise ValueError).
Proof.
  intros Hpb. split; [reflexivity|]. split.
  - do 3 eexists. split.
    + apply (calc_explicit (instance_example "1" true) _ _ 16 [0; 1; 2]).
      * rewrite !Hpb. reflexivity.
      * apply example_reduce_dims.
      * unfold ndim. rewrite Hpb. reflexivity.
    + unfold astype_int32, freduced, tmap. cbn [shape]. rewrite Hpb.
      repeat split.
  - apply compute_step_counts_rejected. exact Hpb.
Qed.

Lemma compute_mode1_does_not_accumulate_witness :
  score_example "1" = Ok (instance_example "1" true) /\
  (exists h m f,
     calc_seq_hits_misses_fas (instance_example "1" true) pred_example
       target_example 16 = Ok (h, m, f) /\
     shape h = [2] /\ shape m = [2] /\ shape f = [2]) /\
  compute (fun x => x) pred_example target_example (instance_example "1" true) =
  (instance_example "1" true, Raise ValueError).
Proof.
  apply (compute_mode1_does_not_accumulate (fun x => x)). reflexivity.
Defined.

(** C8, at the instance of mode "2" and a batch of two time steps:
    [compute] returns no mapping, it raises [ValueError]. *)
Theorem compute_mode2_returns_no_mapping
    (process_data_dict_back : tensor spec_float -> tensor spec_float) :
  (forall x, shape (process_data_dict_back x) = shape x) ->
  score_example "2" = Ok (instance_example "2" true) /\
  snd (compute process_data_dict_back pred_example target_example
         (instance_example "2" true)) = Raise ValueError /\
  forall ret,
    snd (compute process_data_dict_back pred_example target_example
           (instance_example "2" true)) <> Ok ret.
Proof.
  intros Hpb. rewrite compute_step_counts_rejected by exact Hpb.
  split; [reflexivity|]. split; [reflexivity|]. intros ret. discriminate.
Qed.

Lemma compute_mode2_returns_no_mapping_witness :
  score_example "2" = Ok (instance_example "2" true) /\
  snd (compute (fun x => x) pred_example target_example
         (instance_example "2" true)) = Raise ValueError /\
  forall ret,
    snd (compute (fun x => x) pred_example target_example
           (instance_example "2" true)) <> Ok ret.
Proof.
  apply (compute_mode2_returns_no_mapping (fun x => x)). reflexivity.
Defined.

(** ** Accumulation without the sequence dimension *)

Lemma iadd_item_scalar (x v : tensor Z) (n i : nat) :
  shape x = [n] -> i < n -> shape v = [] ->
  iadd_item x i v = Ok (bump x i (data v [])).
Proof.
  intros Hx Hi Hv. unfold iadd_item, getitem, bump. rewrite Hx.
  apply Nat.ltb_lt in Hi. rewrite Hi. cbn [bind].
  unfold tzip, tmap. cbn [shape]. rewrite Hv. cbn [shape_eqb bind].
  unfold setitem. rewrite Hx. rewrite Hi. cbn [negb shape].
  reflexivity.
Qed.

Lemma batch_counts_nonneg (self : SEVIRSkillScore)
    (pred target : tensor spec_float) (threshold : Z) :
  keep_seq_len_dim self = false ->
  shape target = shape pred ->
  String.length (layout self) = ndim target ->
  (Z.of_nat (numel (shape target)) <= 2 ^ 24)%Z ->
  let '(h, m, f) := batch_counts self pred target threshold in
  (0 <= h /\ 0 <= m /\ 0 <= f)%Z.
Proof.
  intros K E Hrank Hb.
  destruct (calc_no_seq self pred target threshold K E Hrank Hb)
    as (h & m & f & Hc & _ & _ & _ & Hd).
  unfold batch_counts. rewrite Hc.
  destruct (Hd []) as (-> & -> & ->).
  repeat split; apply zsum_nonneg; intros idx;
    destruct (indicator_01 target pred (float_of_int threshold) target idx) as [-> | ->];
    destruct (indicator_01 target pred (float_of_int threshold) pred idx) as [-> | ->];
    lia.
Qed.

Lemma batch_counts_le_numel (self : SEVIRSkillScore)
    (pred target : tensor spec_float) (threshold : Z) :
  keep_seq_len_dim self = false ->
  shape target = shape pred ->
  String.length (layout self) = ndim target ->
  (Z.of_nat (numel (shape target)) <= 2 ^ 24)%Z ->
  let c := batch_counts self pred target threshold in
  (hits_of c + misses_of c + fas_of c <= Z.of_nat (numel (shape target)))%Z.
Proof.
  intros K E Hrank Hb c.
  destruct (calc_no_seq self pred target threshold K E Hrank Hb)
    as (h & m & f & Hc & _ & _ & _ & Hd).
  subst c. unfold batch_counts. rewrite Hc.
  cbn [hits_of misses_of fas_of fst snd].
  destruct (Hd []) as (-> & -> & ->).
  rewrite !zsum_map_add. rewrite <- length_all_indices, <- zsum_ones.
  apply zsum_le. intros idx.
  destruct (indicator_01 target pred (float_of_int threshold) target idx) as [-> | ->];
    destruct (indicator_01 target pred (float_of_int threshold) pred idx) as [-> | ->];
    lia.
Qed.

(** The counts of a batch depend on the instance through its layout and
    [keep_seq_len_dim] only. *)
Lemma calc_same_layout (s1 s2 : SEVIRSkillScore)
    (pred target : tensor spec_float) (threshold : Z) :
  layout s1 = layout s2 ->
  keep_seq_len_dim s1 = keep_seq_len_dim s2 ->
  calc_seq_hits_misses_fas s1 pred target threshold =
  calc_seq_hits_misses_fas s2 pred target threshold.
Proof.
  intros L K. unfold calc_seq_hits_misses_fas, hits_misses_fas_reduce_dims.
  rewrite L, K. reflexivity.
Qed.

(** One pass of the first loop of [compute]. *)
Lemma accumulate_step_ok (self : SEVIRSkillScore)
    (pred target : tensor spec_float) (n i : nat) (threshold : Z) :
  keep_seq_len_dim self = false ->
  shape target = shape pred ->
  String.length (layout self) = ndim target ->
  shape (hits self) = [n] -> shape (misses self) = [n] -> shape (fas self) = [n] ->
  i < n ->
  accumulate_step pred target (i, threshold) self =
  (add_batch self i (batch_counts self pred target threshold), Ok tt).
Proof.
  intros K E Hrank Hh Hm Hf Hi.
  destruct (calc_no_seq_shapes self pred target threshold K E Hrank)
    as (h & m & f & Hc & Sh & Sm & Sf).
  unfold accumulate_step, batch_counts, mbind, reads. rewrite Hc.
  unfold iadd_field at 1.
  rewrite (iadd_item_scalar (hits self) h n i Hh Hi Sh).
  unfold iadd_field at 1. cbn [set_hits misses].
  rewrite (iadd_item_scalar (misses self) m n i Hm Hi Sm).
  unfold iadd_field at 1. cbn [set_misses set_hits fas].
  rewrite (iadd_item_scalar (fas self) f n i Hf Hi Sf).
  reflexivity.
Qed.

Lemma same_config_refl (s : SEVIRSkillScore) : same_config s s.
Proof. repeat split. Qed.

Lemma same_config_trans (s1 s2 s3 : SEVIRSkillScore) :
  same_config s1 s2 -> same_config s2 s3 -> same_config s1 s3.
Proof.
  unfold same_config. intros H1 H2.
  decompose [and] H1. decompose [and] H2. repeat split; congruence.
Qed.

Lemma add_batch_config (self : SEVIRSkillScore) (i : nat) (c : Z * Z * Z) :
  same_config self (add_batch self i c).
Proof. destruct c as [[h m] f]. repeat split. Qed.

Lemma add_batch_state (self : SEVIRSkillScore) (i n : nat) (c : Z * Z * Z) :
  state_1d self n -> state_1d (add_batch self i c) n.
Proof. destruct c as [[h m] f]. intros H. exact H. Qed.

Lemma accumulated_config (self0 : SEVIRSkillScore)
    (pred target : tensor spec_float) (items : list (nat * Z)) :
  forall self n,
    state_1d self n ->
    same_config self (accumulated self0 pred target items self) /\
    state_1d (accumulated self0 pred target items self) n.
Proof.
  induction items as [|it items IH]; intros self n H; simpl.
  - split; [apply same_config_refl|exact H].
  - destruct (IH (add_batch self (fst it) (batch_counts self0 pred target (snd it))) n)
      as [C S]; [apply add_batch_state; exact H|].
    split; [|exact S].
    eapply same_config_trans; [apply add_batch_config|exact C].
Qed.

(** The first loop of [compute], without the sequence dimension. *)
Lemma accumulate_loop (self0 : SEVIRSkillScore) (pred target : tensor spec_float)
    (n : nat) (items : list (nat * Z)) :
  keep_seq_len_dim self0 = false ->
  shape target = shape pred ->
  String.length (layout self0) = ndim target ->
  (forall it, In it items -> fst it < n) ->
  forall self,
    same_config self0 self -> state_1d self n ->
    for_each items (accumulate_step pred target) self =
    (accumulated self0 pred target items self, Ok tt).
Proof.
  intros K E Hrank. induction items as [|[i thr] items IH]; intros Hi self C S.
  - reflexivity.
  - cbn [for_each]. unfold mbind.
    destruct C as (L & C1 & C2 & C3 & C4 & C5 & C6 & C7).
    destruct S as (Sh & Sm & Sf).
    rewrite (accumulate_step_ok self pred target n i thr);
      try assumption; try congruence.
    + assert (B : batch_counts self pred target thr =
                  batch_counts self0 pred target thr).
      { unfold batch_counts.
        rewrite (calc_same_layout self self0) by congruence. reflexivity. }
      rewrite B. apply IH.
      * intros it Hit. apply Hi. right. exact Hit.
      * eapply same_config_trans; [|apply add_batch_config]. repeat split; assumption.
      * apply add_batch_state. repeat split; assumption.
    + apply (Hi (i, thr)). left. reflexivity.
Qed.

(** After the loop over the thresholds at the positions [a], [a+1],
    ..., every position of the list holds the float32 sum of what it
    held and the count of the batch for its threshold, and the other
    positions hold what they held. *)
Lemma accumulated_with_entry (cnt : Z -> Z * Z * Z)
    (proj : SEVIRSkillScore -> tensor Z) (comp : Z * Z * Z -> Z) :
  (forall s i c, proj (add_batch s i c) = bump (proj s) i (comp c)) ->
  forall l a self i,
    data (proj (accumulated_with cnt (combine (seq a (List.length l)) l) self)) [i] =
    if ((a <=? i) && (i <? a + List.length l))%nat
    then fadd (data (proj self) [i]) (round_f32 (comp (cnt (nth (i - a)%nat l 0%Z))))
    else data (proj self) [i].
Proof.
  intros Hproj. induction l as [|thr l IH]; intros a self i.
  - cbn [List.length seq combine accumulated_with fold_left].
    destruct (Nat.leb_spec a i), (Nat.ltb_spec i (a + 0)); simpl; try reflexivity; lia.
  - cbn [List.length seq combine]. unfold accumulated_with. cbn [fold_left fst snd].
    fold (accumulated_with cnt (combine (seq (S a) (List.length l)) l)
            (add_batch self a (cnt thr))).
    rewrite IH, Hproj. unfold bump. cbn [data].
    destruct (Nat.eqb_spec i a) as [->|Hia].
    + rewrite Nat.sub_diag. cbn [nth].
      destruct (Nat.leb_spec (S a) a); [lia|].
      destruct (Nat.leb_spec a a); [|lia].
      destruct (Nat.ltb_spec a (a + S (List.length l))); [|lia].
      reflexivity.
    + destruct (Nat.leb_spec (S a) i), (Nat.leb_spec a i),
        (Nat.ltb_spec i (S a + List.length l)),
        (Nat.ltb_spec i (a + S (List.length l))); simpl; try reflexivity; try lia.
      replace (i - a) with (S (i - S a)) by lia. reflexivity.
Qed.

Lemma accumulated_entry (self0 : SEVIRSkillScore) (pred target : tensor spec_float)
    (proj : SEVIRSkillScore -> tensor Z) (comp : Z * Z * Z -> Z) :
  (forall s i c, proj (add_batch s i c) = bump (proj s) i (comp c)) ->
  forall l a self i,
    data (proj (accumulated self0 pred target
                  (combine (seq a (List.length l)) l) self)) [i] =
    if ((a <=? i) && (i <? a + List.length l))%nat
    then fadd (data (proj self) [i])
           (round_f32 (comp (batch_counts self0 pred target (nth (i - a)%nat l 0%Z))))
    else data (proj self) [i].
Proof.
  intros Hproj l a self i.
  apply (accumulated_with_entry (batch_counts self0 pred target) proj comp Hproj).
Qed.

(** ** The returned mapping *)

Lemma key_eqb_eq (a b : key) : key_eqb a b = true <-> a = b.
Proof.
  destruct a as [x|x], b as [y|y]; simpl.
  - rewrite Z.eqb_eq. split; congruence.
  - split; discriminate.
  - split; discriminate.
  - rewrite String.eqb_eq. split; congruence.
Qed.

Lemma dict_get_set {K V : Type} (eqb : K -> K -> bool) :
  (forall a b, eqb a b = true <-> a = b) ->
  forall (d : dict K V) k v k',
    dict_get eqb (dict_set eqb d k v) k' =
    if eqb k k' then Some v else dict_get eqb d k'.
Proof.
  intros Heq. induction d as [|[k0 v0] d IH]; intros k v k'; simpl.
  - reflexivity.
  - destruct (eqb k0 k) eqn:E0; simpl.
    + apply Heq in E0. subst k0. destruct (eqb k k'); reflexivity.
    + rewrite IH. destruct (eqb k0 k') eqn:E1; [|reflexivity].
      destruct (eqb k k') eqn:E2; [|reflexivity].
      apply Heq in E1, E2. subst k0 k'.
      assert (eqb k k = true) by (apply Heq; reflexivity). congruence.
Qed.

Lemma same_keys_refl (r : ret_dict) : same_keys r r.
Proof. intros k. reflexivity. Qed.

Lemma same_keys_trans (r1 r2 r3 : ret_dict) :
  same_keys r1 r2 -> same_keys r2 r3 -> same_keys r1 r3.
Proof. intros H1 H2 k. rewrite (H1 k). apply H2. Qed.

Lemma set_entry_ok (ret : ret_dict) (k : key) (name : string) (v : value) :
  dict_get key_eqb ret k <> None ->
  exists ret',
    set_entry ret k name v = Ok ret' /\
    same_keys ret ret' /\
    forall k' name',
      lookup ret' k' name' =
      if key_eqb k k' && String.eqb name name' then Some v
      else lookup ret k' name'.
Proof.
  intros Hk. unfold set_entry.
  destruct (dict_get key_eqb ret k) as [inner|] eqn:E; [|congruence].
  eexists. split; [reflexivity|]. split.
  - intros k'. rewrite (dict_get_set key_eqb key_eqb_eq).
    destruct (key_eqb k k') eqn:Ek; [|reflexivity].
    apply key_eqb_eq in Ek. subst k'. rewrite E. split; discriminate.
  - intros k' name'. unfold lookup.
    rewrite (dict_get_set key_eqb key_eqb_eq).
    destruct (key_eqb k k') eqn:Ek; simpl; [|reflexivity].
    apply key_eqb_eq in Ek. subst k'. rewrite E.
    apply (dict_get_set String.eqb String.eqb_eq).
Qed.

Lemma empty_scores_get (thresholds : list Z) (k : key) :
  dict_get key_eqb (empty_scores thresholds) k =
  if key_eqb (KStr "avg") k || existsb (fun thr => key_eqb (KInt thr) k) thresholds
  then Some [] else None.
Proof.
  unfold empty_scores. rewrite (dict_get_set key_eqb key_eqb_eq).
  destruct (key_eqb (KStr "avg") k); [reflexivity|]. simpl.
  assert (G : forall l (d : ret_dict),
            dict_get key_eqb
              (fold_left (fun ret thr => dict_set key_eqb ret (KInt thr) []) l d) k =
            if existsb (fun thr => key_eqb (KInt thr) k) l then Some []
            else dict_get key_eqb d k).
  { induction l as [|t l IH]; intros d; cbn [fold_left existsb]; [reflexivity|].
    rewrite IH, (dict_get_set key_eqb key_eqb_eq).
    destruct (key_eqb (KInt t) k);
      destruct (existsb (fun thr => key_eqb (KInt thr) k) l); reflexivity. }
  rewrite G. reflexivity.
Qed.

Lemma empty_scores_lookup (thresholds : list Z) (k : key) (name : string) :
  lookup (empty_scores thresholds) k name = None.
Proof.
  unfold lookup. rewrite empty_scores_get.
  destruct (key_eqb (KStr "avg") k || existsb _ thresholds); reflexivity.
Qed.

Lemma empty_scores_keys (thresholds : list Z) (k : key) :
  dict_get key_eqb (empty_scores thresholds) k <> None <->
  k = KStr "avg" \/ exists thr, In thr thresholds /\ k = KInt thr.
Proof.
  rewrite empty_scores_get. split.
  - destruct (key_eqb (KStr "avg") k) eqn:E; cbn [orb].
    + intros _. left. apply key_eqb_eq in E. congruence.
    + destruct (existsb _ thresholds) eqn:X; [|congruence].
      intros _. right. apply existsb_exists in X. destruct X as (thr & Hin & Hk).
      exists thr. split; [exact Hin|]. apply key_eqb_eq in Hk. congruence.
  - intros [->|(thr & Hin & ->)].
    + cbn [key_eqb String.eqb Ascii.eqb Bool.eqb orb]. discriminate.
    + replace (existsb (fun thr0 => key_eqb (KInt thr0) (KInt thr)) thresholds)
        with true; [cbn [key_eqb orb]; discriminate|].
      symmetry. apply existsb_exists. exists thr. split; [exact Hin|].
      apply key_eqb_eq. reflexivity.
Qed.

Section ThresholdLoop.

(** The loop over the thresholds for one metric, in mode "0". *)
Variable self : SEVIRSkillScore.
Variable name : string.
Variable scores : tensor R.
Variable n : nat.
Hypothesis Hmode : mode self = "0"%string.
Hypothesis Hkeep : keep_seq_len_dim self = false.
Hypothesis Hshape : shape scores = [n].

Lemma threshold_step_ok (ret : ret_dict) (acc : R) (i : nat) (thr : Z) :
  i < n ->
  dict_get key_eqb ret (KInt thr) <> None ->
  exists ret',
    threshold_step self name scores (ret, VFloat acc) (i, thr) =
      Ok (ret', VFloat (acc + data scores [i])) /\
    same_keys ret ret' /\
    forall k' name',
      lookup ret' k' name' =
      if key_eqb (KInt thr) k' && String.eqb name name'
      then Some (VFloat (data scores [i]))
      else lookup ret k' name'.
Proof.
  intros Hi Hk.
  destruct (set_entry_ok ret (KInt thr) name (VFloat (data scores [i])) Hk)
    as (ret' & Hset & Hkeys & Hlook).
  exists ret'. split; [|split; assumption].
  unfold threshold_step. rewrite Hkeep, Hmode.
  unfold score_at, getitem. rewrite Hshape.
  apply Nat.ltb_lt in Hi. rewrite Hi. cbn [bind].
  unfold item. cbn [shape numel fold_right Nat.eqb Nat.mul bind data map].
  unfold store. cbn [str_in existsb String.eqb Ascii.eqb Bool.eqb orb].
  rewrite Hset. reflexivity.
Qed.

Lemma threshold_loop_ok (l : list Z) :
  forall (a : nat) (ret : ret_dict) (acc : R),
    a + List.length l <= n ->
    (forall thr, In thr l -> dict_get key_eqb ret (KInt thr) <> None) ->
    exists ret',
      foldM (threshold_step self name scores)
        (combine (seq a (List.length l)) l) (ret, VFloat acc) =
        Ok (ret',
            VFloat (acc + rsum (map (fun j => data scores [j])
                                  (seq a (List.length l))))) /\
      same_keys ret ret' /\
      (forall k' name', name' <> name ->
         lookup ret' k' name' = lookup ret k' name') /\
      (forall k', (forall thr, In thr l -> k' <> KInt thr) ->
         lookup ret' k' name = lookup ret k' name) /\
      (forall thr, In thr l ->
         exists j, a <= j < a + List.length l /\ nth (j - a) l 0%Z = thr /\
                   lookup ret' (KInt thr) name = Some (VFloat (data scores [j]))).
Proof.
  induction l as [|thr0 l IH]; intros a ret acc Ha Hk.
  - exists ret. cbn [List.length seq combine foldM map rsum fold_right].
    rewrite Rplus_0_r. split; [reflexivity|]. split; [apply same_keys_refl|].
    split; [reflexivity|]. split; [reflexivity|]. intros thr [].
  - cbn [List.length] in Ha.
    destruct (threshold_step_ok ret acc a thr0) as (ret1 & Hstep & Hkeys1 & Hlook1);
      [lia|apply Hk; left; reflexivity|].
    destruct (IH (S a) ret1 (acc + data scores [a])%R) as
      (ret' & Hloop & Hkeys & Hother & Hrest & Hthr); [lia| |].
    { intros thr Hin. rewrite <- (Hkeys1 (KInt thr)). apply Hk. right. exact Hin. }
    exists ret'. cbn [List.length seq combine foldM]. rewrite Hstep. cbn [bind].
    rewrite Hloop. cbn [map rsum fold_right]. fold (rsum (map (fun j => data scores [j]) (seq (S a) (List.length l)))).
    rewrite Rplus_assoc. split; [reflexivity|].
    split; [eapply same_keys_trans; eassumption|].
    split; [|split].
    + intros k' name' Hn. rewrite (Hother k' name' Hn), Hlook1.
      destruct (String.eqb_spec name name') as [E|E]; [congruence|].
      rewrite andb_false_r. reflexivity.
    + intros k' Hk'. rewrite Hrest, Hlook1.
      * destruct (key_eqb (KInt thr0) k') eqn:E; [|reflexivity].
        apply key_eqb_eq in E. exfalso. apply (Hk' thr0); [left; reflexivity|].
        congruence.
      * intros thr Hin. apply Hk'. right. exact Hin.
    + intros thr Hin. destruct (in_dec Z.eq_dec thr l) as [Hl|Hl].
      * destruct (Hthr thr Hl) as (j & Hj & Hnth & Hlk).
        exists j. split; [lia|]. split; [|exact Hlk].
        replace (j - a) with (S (j - S a)) by lia. exact Hnth.
      * destruct Hin as [->|Hin]; [|contradiction].
        exists a. split; [lia|]. split; [rewrite Nat.sub_diag; reflexivity|].
        rewrite Hrest, Hlook1.
        -- replace (key_eqb (KInt thr) (KInt thr)) with true
             by (symmetry; apply key_eqb_eq; reflexivity).
           rewrite String.eqb_refl. reflexivity.
        -- intros thr' Hin' E. injection E as ->. contradiction.
Qed.

End ThresholdLoop.

Section ScoresWithoutSequence.

(** The second part of [compute] on an instance of mode "0" whose counts
    have one entry per threshold. *)
Variable self : SEVIRSkillScore.
Variable n : nat.
Hypothesis Hmode : mode self = "0"%string.
Hypothesis Hkeep : keep_seq_len_dim self = false.
Hypothesis Hstate : state_1d self n.
Hypothesis Hn : List.length (threshold_list self) = n.
Hypothesis Hpos : n <> 0.

Lemma metric_step_ok (name : string) (ret : ret_dict) :
  In name known_metrics ->
  (forall thr, In thr (threshold_list self) ->
               dict_get key_eqb ret (KInt thr) <> None) ->
  dict_get key_eqb ret (KStr "avg") <> None ->
  exists ret',
    metric_step self ret name = Ok ret' /\
    same_keys ret ret' /\
    (forall k' name', name' <> name ->
       lookup ret' k' name' = lookup ret k' name') /\
    (forall thr, In thr (threshold_list self) ->
       exists j, j < n /\ nth j (threshold_list self) 0%Z = thr /\
                 lookup ret' (KInt thr) name =
                   Some (VFloat (threshold_score self name j))) /\
    lookup ret' (KStr "avg") name = Some (VFloat (mean_score self name)).
Proof.
  intros Hin Hk Havg. destruct Hstate as (Sh & Sm & Sf).
  destruct (metric_lookup_value name (tmap IZR (hits self))
              (tmap IZR (misses self)) (tmap IZR (fas self)) (eps self) Hin)
    as (fn & Hfn & Hv); [cbn [tmap shape]; congruence..|].
  set (scores := mkTensor (shape (tmap IZR (hits self)))
                   (fun idx => score_value name
                                 (data (tmap IZR (hits self)) idx)
                                 (data (tmap IZR (misses self)) idx)
                                 (data (tmap IZR (fas self)) idx) (eps self))) in *.
  assert (Hs : shape scores = [n]) by exact Sh.
  destruct (threshold_loop_ok self name scores n Hmode Hkeep Hs
              (threshold_list self) 0 ret 0%R) as
    (ret1 & Hloop & Hkeys1 & Hother1 & _ & Hthr1); [lia|exact Hk|].
  destruct (set_entry_ok ret1 (KStr "avg") name
              (VFloat ((0 + rsum (map (fun j => data scores [j])
                                    (seq 0 (List.length (threshold_list self)))))
                       / INR (List.length (threshold_list self)))))
    as (ret' & Hset & Hkeys & Hlook).
  { rewrite <- (Hkeys1 (KStr "avg")). exact Havg. }
  exists ret'. split; [|split; [|split; [|split]]].
  - unfold metric_step. rewrite Hkeep. cbn [bind]. rewrite Hfn. cbn [bind].
    rewrite Hv. cbn [bind]. unfold enumerate. rewrite Hloop. cbn [bind].
    unfold value_idiv. rewrite Hn.
    destruct (Nat.eqb_spec n 0) as [E|_]; [contradiction|]. cbn [bind].
    unfold store. rewrite Hmode.
    cbn [str_in existsb String.eqb Ascii.eqb Bool.eqb orb].
    rewrite <- Hn. exact Hset.
  - eapply same_keys_trans; eassumption.
  - intros k' name' Hne. rewrite Hlook, (Hother1 k' name' Hne).
    destruct (String.eqb_spec name name') as [E|E]; [congruence|].
    rewrite andb_false_r. reflexivity.
  - intros thr Hthr. destruct (Hthr1 thr Hthr) as (j & Hj & Hnth & Hlk).
    exists j. split; [lia|]. rewrite Nat.sub_0_r in Hnth. split; [exact Hnth|].
    rewrite Hlook. cbn [key_eqb andb]. exact Hlk.
  - rewrite Hlook. cbn [key_eqb]. rewrite !String.eqb_refl. cbn [andb].
    unfold mean_score. rewrite Rplus_0_l. reflexivity.
Qed.

Lemma metrics_loop_ok (ml : list string) :
  forall ret : ret_dict,
    (forall name, In name ml -> In name known_metrics) ->
    (forall thr, In thr (threshold_list self) ->
                 dict_get key_eqb ret (KInt thr) <> None) ->
    dict_get key_eqb ret (KStr "avg") <> None ->
    exists ret',
      foldM (metric_step self) ml ret = Ok ret' /\
      same_keys ret ret' /\
      (forall k' name', ~ In name' ml ->
         lookup ret' k' name' = lookup ret k' name') /\
      (forall name, In name ml ->
         (forall thr, In thr (threshold_list self) ->
            exists j, j < n /\ nth j (threshold_list self) 0%Z = thr /\
                      lookup ret' (KInt thr) name =
                        Some (VFloat (threshold_score self name j))) /\
         lookup ret' (KStr "avg") name = Some (VFloat (mean_score self name))).
Proof.
  induction ml as [|name ml IH]; intros ret Hknown Hk Havg.
  - exists ret. split; [reflexivity|]. split; [apply same_keys_refl|].
    split; [reflexivity|]. intros name [].
  - destruct (metric_step_ok name ret) as
      (ret1 & Hstep & Hkeys1 & Hother1 & Hthr1 & Havg1);
      [apply Hknown; left; reflexivity|exact Hk|exact Havg|].
    destruct (IH ret1) as (ret' & Hloop & Hkeys & Hother & Hall).
    { intros nm Hnm. apply Hknown. right. exact Hnm. }
    { intros thr Hthr. rewrite <- (Hkeys1 (KInt thr)). apply Hk. exact Hthr. }
    { rewrite <- (Hkeys1 (KStr "avg")). exact Havg. }
    exists ret'. cbn [foldM]. rewrite Hstep. cbn [bind].
    split; [exact Hloop|]. split; [eapply same_keys_trans; eassumption|].
    split.
    + intros k' name' Hnot. rewrite Hother by (intros H; apply Hnot; right; exact H).
      apply Hother1. intros E. apply Hnot. left. congruence.
    + intros nm Hnm. destruct (in_dec string_dec nm ml) as [Hin|Hnin].
      * apply Hall. exact Hin.
      * destruct Hnm as [<-|Hnm]; [|contradiction]. split.
        -- intros thr Hthr. destruct (Hthr1 thr Hthr) as (j & Hj & Hnth & Hlk).
           exists j. split; [exact Hj|]. split; [exact Hnth|].
           rewrite Hother by exact Hnin. exact Hlk.
        -- rewrite Hother by exact Hnin. exact Havg1.
Qed.

(** In mode "0", with at least one threshold and known metrics, the
    scores are a mapping whose keys are the thresholds and "avg"; under
    a threshold every configured metric has the score of a position of
    the threshold list that holds this threshold, and under "avg" it has
    the arithmetic mean of the scores over the threshold list. *)
Lemma scores_of_mode0 :
  (forall name, In name (metrics_list self) -> In name known_metrics) ->
  exists ret,
    scores_of self = Ok ret /\
    (forall k, dict_get key_eqb ret k <> None <->
               k = KStr "avg" \/
               exists thr, In thr (threshold_list self) /\ k = KInt thr) /\
    (forall k name, ~ In name (metrics_list self) -> lookup ret k name = None) /\
    (forall name, In name (metrics_list self) ->
       (forall thr, In thr (threshold_list self) ->
          exists j, j < n /\ nth j (threshold_list self) 0%Z = thr /\
                    lookup ret (KInt thr) name =
                      Some (VFloat (threshold_score self name j))) /\
       lookup ret (KStr "avg") name = Some (VFloat (mean_score self name))).
Proof.
  intros Hknown.
  destruct (metrics_loop_ok (metrics_list self)
              (empty_scores (threshold_list self)) Hknown)
    as (ret & Hloop & Hkeys & Hother & Hall).
  { intros thr Hthr. apply empty_scores_keys. right. exists thr. auto. }
  { apply empty_scores_keys. left. reflexivity. }
  exists ret. split; [exact Hloop|]. split; [|split].
  - intros k. rewrite <- empty_scores_keys.
    split; intros H E; apply H; apply Hkeys; exact E.
  - intros k name Hnot. rewrite Hother by exact Hnot. apply empty_scores_lookup.
  - exact Hall.
Qed.

End ScoresWithoutSequence.

(** ** [compute] without the sequence dimension *)

Section ComputeWithoutSequence.

Variable process_data_dict_back : tensor spec_float -> tensor spec_float.
Variable self : SEVIRSkillScore.
Variables pred target : tensor spec_float.

Let pred' := process_data_dict_back pred.
Let target' := process_data_dict_back target.
Let n := List.length (threshold_list self).

Hypothesis Hkeep : keep_seq_len_dim self = false.
Hypothesis Hpre : preprocess_type self = "sevir"%string.
Hypothesis Hstate : state_1d self n.
Hypothesis Hshape : shape target' = shape pred'.
Hypothesis Hrank : String.length (layout self) = ndim target'.

(** A call of [compute] adds in float32, at the position of every
    threshold, the counts of the batch to the stored counts, and what
    the call returns is computed from the instance it leaves behind. *)
Lemma compute_accumulates :
  exists self',
    compute process_data_dict_back pred target self = (self', scores_of self') /\
    same_config self self' /\
    state_1d self' n /\
    forall i, i < n ->
      let c := batch_counts self pred' target' (nth i (threshold_list self) 0%Z) in
      data (hits self') [i] = fadd (data (hits self) [i]) (round_f32 (hits_of c)) /\
      data (misses self') [i] =
        fadd (data (misses self) [i]) (round_f32 (misses_of c)) /\
      data (fas self') [i] = fadd (data (fas self) [i]) (round_f32 (fas_of c)).
Proof.
  exists (accumulated self pred' target' (enumerate (threshold_list self)) self).
  destruct (accumulated_config self pred' target'
              (enumerate (threshold_list self)) self n Hstate) as [C S].
  split; [|split; [exact C|split; [exact S|]]].
  - unfold compute, mbind, reads, preprocess. rewrite Hpre.
    cbn [String.eqb Ascii.eqb Bool.eqb].
    fold pred' target'.
    rewrite (accumulate_loop self pred' target' n); try assumption.
    + reflexivity.
    + intros [i thr] Hin. unfold enumerate in Hin. apply in_combine_l in Hin.
      apply in_seq in Hin. cbn [fst]. fold n in Hin. lia.
    + apply same_config_refl.
  - intros i Hi c. unfold enumerate. fold n.
    assert (Hb : ((0 <=? i) && (i <? 0 + n))%nat = true).
    { apply andb_true_intro. split; [apply Nat.leb_le|apply Nat.ltb_lt]; lia. }
    unfold n.
    rewrite (accumulated_entry self pred' target' hits hits_of)
      by (intros s j [[a b] d]; reflexivity).
    rewrite (accumulated_entry self pred' target' misses misses_of)
      by (intros s j [[a b] d]; reflexivity).
    rewrite (accumulated_entry self pred' target' fas fas_of)
      by (intros s j [[a b] d]; reflexivity).
    fold n. rewrite Hb, Nat.sub_0_r. repeat split.
Qed.

End ComputeWithoutSequence.

(** In mode "0", on an instance with at least one threshold and known
    metrics, [compute] returns the mapping of [scores_of_mode0] for the
    counts after the batch was added. *)
Lemma compute_mode0
    (process_data_dict_back : tensor spec_float -> tensor spec_float)
    (self : SEVIRSkillScore) (pred target : tensor spec_float) :
  mode self = "0"%string ->
  keep_seq_len_dim self = false ->
  preprocess_type self = "sevir"%string ->
  state_1d self (List.length (threshold_list self)) ->
  threshold_list self <> [] ->
  (forall name, In name (metrics_list self) -> In name known_metrics) ->
  shape (process_data_dict_back target) = shape (process_data_dict_back pred) ->
  String.length (layout self) = ndim (process_data_dict_back target) ->
  exists self' ret,
    compute process_data_dict_back pred target self = (self', Ok ret) /\
    same_config self self' /\
    state_1d self' (List.length (threshold_list self')) /\
    (forall k, dict_get key_eqb ret k <> None <->
               k = KStr "avg" \/
               exists thr, In thr (threshold_list self) /\ k = KInt thr) /\
    (forall name, In name (metrics_list self) ->
       (forall thr, In thr (threshold_list self) ->
          exists j, j < List.length (threshold_list self) /\
                    nth j (threshold_list self) 0%Z = thr /\
                    lookup ret (KInt thr) name =
                      Some (VFloat (threshold_score self' name j))) /\
       lookup ret (KStr "avg") name = Some (VFloat (mean_score self' name))).
Proof.
  intros Hmode Hkeep Hpre Hstate Hne Hknown Hshape Hrank.
  destruct (compute_accumulates process_data_dict_back self pred target
              Hkeep Hpre Hstate Hshape Hrank) as (self' & Hc & C & S & _).
  pose proof C as (_ & _ & Ct & Cm & _ & Cmode & _ & Ck).
  destruct (scores_of_mode0 self' (List.length (threshold_list self)))
    as (ret & Hs & Hkeys & _ & Hall).
  - congruence.
  - congruence.
  - exact S.
  - congruence.
  - destruct (threshold_list self); [congruence|discriminate].
  - rewrite <- Cm. exact Hknown.
  - exists self', ret. rewrite Hc, Hs.
    split; [reflexivity|]. split; [exact C|].
    split; [rewrite <- Ct; exact S|].
    rewrite <- Ct, <- Cm in *. split; [exact Hkeys|exact Hall].
Qed.

(** ** Unsupported modes *)

(** With an unsupported mode the computation of the scores stops at the
    branch on the mode for the first threshold of the first metric. *)
Lemma scores_of_unsupported (self : SEVIRSkillScore) (thr : Z) (thrs : list Z)
    (metrics : string) (ml : list string) :
  mode self <> "0"%string -> mode self <> "1"%string -> mode self <> "2"%string ->
  keep_seq_len_dim self = false ->
  state_1d self (List.length (threshold_list self)) ->
  threshold_list self = thr :: thrs ->
  metrics_list self = metrics :: ml ->
  In metrics known_metrics ->
  scores_of self = Raise NotImplementedError.
Proof.
  intros H0 H1 H2 Hkeep (Sh & Sm & Sf) Hthr Hml Hin.
  destruct (unsupported_not_in (mode self) H0 H1 H2) as (_ & _ & N01 & N2).
  destruct (metric_lookup_value metrics (tmap IZR (hits self))
              (tmap IZR (misses self)) (tmap IZR (fas self)) (eps self) Hin)
    as (fn & Hfn & Hv); [cbn [tmap shape]; congruence..|].
  unfold scores_of. rewrite Hml. cbn [foldM]. unfold metric_step at 1.
  rewrite Hkeep. cbn [bind]. rewrite Hfn. cbn [bind]. rewrite Hv. cbn [bind].
  unfold enumerate. rewrite Hthr. cbn [List.length seq combine foldM].
  unfold threshold_step at 1. rewrite Hkeep.
  unfold score_at, getitem. cbn [tmap shape]. rewrite Sh, Hthr.
  cbn [List.length Nat.ltb Nat.leb bind]. unfold item.
  cbn [shape numel fold_right Nat.eqb bind].
  unfold store. rewrite N01, N2. reflexivity.
Qed.

(** C7: for a mode string other than "0", "1" and "2" the constructor
    raises [NotImplementedError]; so does the branch on the mode in
    [compute], for the score of a threshold as for the average; and so
    does a call of [compute] on an instance whose mode was set to such a
    string after its construction in mode "0", as soon as one threshold
    and one known metric are configured. *)
Theorem unsupported_mode_raises (m : string) :
  m <> "0"%string -> m <> "1"%string -> m <> "2"%string ->
  (forall layout_ seq_len_ pt thrs ml eps_,
     __init__ layout_ m seq_len_ pt thrs ml eps_ = Raise NotImplementedError) /\
  (forall ret k metrics score,
     store m ret k metrics score = Raise NotImplementedError) /\
  (forall process_data_dict_back layout_ seq_len_ thr thrs metrics ml eps_ self
          pred target,
     __init__ layout_ "0" seq_len_ "sevir" (thr :: thrs) (metrics :: ml) eps_ = Ok self ->
     In metrics known_metrics ->
     shape (process_data_dict_back target) = shape (process_data_dict_back pred) ->
     String.length layout_ = ndim (process_data_dict_back target) ->
     snd (compute process_data_dict_back pred target (set_mode self m)) =
       Raise NotImplementedError).
Proof.
  intros H0 H1 H2.
  destruct (unsupported_not_in m H0 H1 H2) as (N0 & N12 & N01 & N2).
  split; [|split].
  - intros. unfold __init__. rewrite N0, N12. reflexivity.
  - intros. unfold store. rewrite N01, N2. reflexivity.
  - intros pb layout_ seq_len_ thr thrs metrics ml eps_ self pred target
      Hinit Hin Hshape Hrank.
    apply init_inv in Hinit. subst self.
    match goal with |- snd (compute _ _ _ ?s) = _ => set (self := s) end.
    destruct (compute_accumulates pb self pred target) as (self' & Hc & C & S & _);
      try reflexivity; try assumption.
    { repeat split. }
    rewrite Hc. cbn [snd].
    destruct C as (_ & _ & Ct & Cm & _ & Cmode & _ & Ck).
    apply (scores_of_unsupported self' thr thrs metrics ml).
    + rewrite <- Cmode. exact H0.
    + rewrite <- Cmode. exact H1.
    + rewrite <- Cmode. exact H2.
    + rewrite <- Ck. reflexivity.
    + rewrite <- Ct. exact S.
    + rewrite <- Ct. reflexivity.
    + rewrite <- Cm. reflexivity.
    + exact Hin.
Qed.

Lemma unsupported_mode_raises_witness :
  (forall layout_ seq_len_ pt thrs ml eps_,
     __init__ layout_ "3" seq_len_ pt thrs ml eps_ = Raise NotImplementedError) /\
  (forall ret k metrics score,
     store "3" ret k metrics score = Raise NotImplementedError) /\
  (forall process_data_dict_back layout_ seq_len_ thr thrs metrics ml eps_ self
          pred target,
     __init__ layout_ "0" seq_len_ "sevir" (thr :: thrs) (metrics :: ml) eps_ = Ok self ->
     In metrics known_metrics ->
     shape (process_data_dict_back target) = shape (process_data_dict_back pred) ->
     String.length layout_ = ndim (process_data_dict_back target) ->
     snd (compute process_data_dict_back pred target (set_mode self "3")) =
       Raise NotImplementedError).
Proof.
  apply (unsupported_mode_raises "3"); discriminate.
Defined.

(** ** Shapes of the state across calls *)

Lemma setitem_shape {A : Type} (x v x' : tensor A) (i : nat) :
  setitem x i v = Ok x' -> shape x' = shape x.
Proof.
  unfold setitem. destruct (shape x) as [|n sh] eqn:E; [discriminate|].
  destruct (negb (i <? n)); [discriminate|].
  destruct (dims_match sh (shape v)); [|discriminate].
  intros H. injection H as <-. reflexivity.
Qed.

Lemma iadd_item_shape (x v x' : tensor Z) (i : nat) :
  iadd_item x i v = Ok x' -> shape x' = shape x.
Proof.
  unfold iadd_item. destruct (getitem x i) as [cur|]; [|discriminate].
  cbn [bind]. destruct (tzip fadd cur (tmap round_f32 v)) as [s|]; [|discriminate].
  cbn [bind]. apply setitem_shape.
Qed.

Lemma same_shapes_refl (s : SEVIRSkillScore) : same_shapes s s.
Proof. repeat split. Qed.

Lemma same_shapes_trans (s1 s2 s3 : SEVIRSkillScore) :
  same_shapes s1 s2 -> same_shapes s2 s3 -> same_shapes s1 s3.
Proof.
  intros (A1 & A2 & A3) (B1 & B2 & B3). repeat split; congruence.
Qed.

Lemma accumulate_step_shapes (pred target : tensor spec_float) (it : nat * Z)
    (self : SEVIRSkillScore) :
  same_shapes self (fst (accumulate_step pred target it self)).
Proof.
  destruct it as [i thr]. unfold accumulate_step, mbind, reads.
  destruct (calc_seq_hits_misses_fas self pred target thr) as [[[h m] f]|];
    [|apply same_shapes_refl].
  unfold iadd_field at 1.
  destruct (iadd_item (hits self) i h) as [xh|] eqn:Eh; [|apply same_shapes_refl].
  apply iadd_item_shape in Eh.
  unfold iadd_field at 1. cbn [set_hits misses].
  destruct (iadd_item (misses self) i m) as [xm|] eqn:Em;
    [|cbn [fst]; repeat split; exact Eh].
  apply iadd_item_shape in Em.
  unfold iadd_field at 1. cbn [set_misses set_hits fas].
  destruct (iadd_item (fas self) i f) as [xf|] eqn:Ef;
    [|cbn [fst]; repeat split; assumption].
  apply iadd_item_shape in Ef. cbn [fst]. repeat split; assumption.
Qed.

Lemma for_each_shapes (pred target : tensor spec_float) (items : list (nat * Z)) :
  forall self,
    same_shapes self (fst (for_each items (accumulate_step pred target) self)).
Proof.
  induction items as [|it items IH]; intros self; [apply same_shapes_refl|].
  cbn [for_each]. unfold mbind.
  pose proof (accumulate_step_shapes pred target it self) as H.
  destruct (accumulate_step pred target it self) as [s1 [u|e]]; cbn [fst] in *.
  - eapply same_shapes_trans; [exact H|apply IH].
  - exact H.
Qed.

(** Whatever the mode and whether it returns or raises, [compute] leaves
    the three counts with the shapes they had. *)
Lemma compute_keeps_shapes
    (process_data_dict_back : tensor spec_float -> tensor spec_float)
    (pred target : tensor spec_float) (self : SEVIRSkillScore) :
  same_shapes self (fst (compute process_data_dict_back pred target self)).
Proof.
  unfold compute, mbind, reads, preprocess.
  destruct (String.eqb (preprocess_type self) "sevir"); [|apply same_shapes_refl].
  pose proof (for_each_shapes (process_data_dict_back pred)
                (process_data_dict_back target)
                (enumerate (threshold_list self)) self) as H.
  destruct (for_each (enumerate (threshold_list self))
              (accumulate_step (process_data_dict_back pred)
                 (process_data_dict_back target)) self) as [s1 [u|e]];
    cbn [fst] in *; exact H.
Qed.

(** Over a layout without 'T', [find] returns -1 and [pop] drops the last
    dimension from the reduced ones. *)
Lemma reduce_dims_without_T :
  find (layout instance_without_T) "T"%char = (-1)%Z /\
  hits_misses_fas_reduce_dims instance_without_T = Ok [0; 1; 2].
Proof. split; reflexivity. Qed.

(** ** Names of the parameters of a model *)

Section ParameterNamesProperties.

Import ParameterNames.

Variable cls : Type.
Variable issubclass : cls -> cls -> bool.

Lemma Layer_children_ind (P : Layer cls -> Prop) :
  (forall c ps ch,
     (forall name child, In (name, child) ch -> P child) ->
     P (mkLayer c ps ch)) ->
  forall m, P m.
Proof.
  intros H. fix IH 1. intros [c ps ch]. apply H.
  induction ch as [|[n0 c0] l IHl]; intros name child Hin.
  - destruct Hin.
  - destruct Hin as [E|Hin].
    + injection E as _ <-. apply IH.
    + eapply IHl. exact Hin.
Qed.

Lemma get_parameter_names_unfold (c : cls) (ps : list string)
    (ch : list (string * Layer cls)) (forbidden : list cls) :
  get_parameter_names issubclass (mkLayer c ps ch) forbidden =
  flat_map
    (fun nc =>
       map (dotted (fst nc))
         (filter (fun _ => negb (isinstance issubclass (snd nc) forbidden))
            (get_parameter_names issubclass (snd nc) forbidden))) ch
  ++ ps.
Proof.
  cbn [get_parameter_names]. f_equal.
  induction ch as [|[n0 c0] l IH]; [reflexivity|].
  cbn [flat_map fst snd]. rewrite <- IH. reflexivity.
Qed.

Lemma count_parameters_unfold (c : cls) (ps : list string)
    (ch : list (string * Layer cls)) :
  count_parameters (mkLayer c ps ch) =
  list_sum (map (fun nc => count_parameters (snd nc)) ch) + List.length ps.
Proof.
  cbn [count_parameters]. f_equal.
  induction ch as [|[n0 c0] l IH]; [reflexivity|].
  unfold list_sum in *. cbn [map fold_right snd]. rewrite <- IH. reflexivity.
Qed.

Lemma names_reach (forbidden : list cls) (m : Layer cls) :
  forall s,
    In s (get_parameter_names issubclass m forbidden) ->
    reaches issubclass forbidden m s.
Proof.
  induction m as [c ps ch IH] using Layer_children_ind. intros s.
  rewrite get_parameter_names_unfold, in_app_iff, in_flat_map.
  intros [([name child] & Hin & Hs)|Hp].
  - cbn [fst snd] in Hs. apply in_map_iff in Hs. destruct Hs as (n & <- & Hn).
    apply filter_In in Hn. destruct Hn as [Hn Hf].
    apply reaches_child with (child := child).
    + exact Hin.
    + apply negb_true_iff. exact Hf.
    + apply (IH name child Hin). exact Hn.
  - apply reaches_own. exact Hp.
Qed.

Lemma reached_names (forbidden : list cls) (m : Layer cls) (s : string) :
  reaches issubclass forbidden m s ->
  In s (get_parameter_names issubclass m forbidden).
Proof.
  induction 1 as [m p Hp|m name child n Hin Hf _ IH].
  - destruct m as [c ps ch]. rewrite get_parameter_names_unfold, in_app_iff.
    right. exact Hp.
  - destruct m as [c ps ch]. rewrite get_parameter_names_unfold, in_app_iff.
    left. apply in_flat_map. exists (name, child). split; [exact Hin|].
    cbn [fst snd]. apply in_map. apply filter_In. split; [exact IH|].
    apply negb_true_iff. exact Hf.
Qed.

Lemma reaches_fewer_types (f1 f2 : list cls) (m : Layer cls) (s : string) :
  (forall c, existsb (issubclass c) f1 = true -> existsb (issubclass c) f2 = true) ->
  reaches issubclass f2 m s -> reaches issubclass f1 m s.
Proof.
  intros Hsub. induction 1 as [m p Hp|m name child n Hin Hf _ IH].
  - apply reaches_own. exact Hp.
  - apply reaches_child with (child := child); [exact Hin| |exact IH].
    unfold isinstance in *.
    destruct (existsb (issubclass (layer_class child)) f1) eqn:E; [|reflexivity].
    rewrite (Hsub _ E) in Hf. discriminate.
Qed.

(** X1: [get_parameter_names] returns exactly the dotted paths of the
    parameters that are reached from the model through layers none of
    which is an instance of a forbidden type; the class of the model
    itself is not looked at, so its own parameters are always there. *)
Theorem get_parameter_names_paths (forbidden : list cls) (m : Layer cls) :
  (forall s,
     In s (get_parameter_names issubclass m forbidden) <->
     reaches issubclass forbidden m s) /\
  (forall p, In p (_parameters m) ->
             In p (get_parameter_names issubclass m forbidden)).
Proof.
  split.
  - intros s. split; [apply names_reach|apply reached_names].
  - intros p Hp. apply reached_names. apply reaches_own. exact Hp.
Qed.

(** X2: forbidding more types never adds a name: when every class that
    is an instance of a type of [f1] is also an instance of a type of
    [f2], the names returned for [f2] are among those returned for
    [f1]. *)
Theorem get_parameter_names_fewer (f1 f2 : list cls) (m : Layer cls) :
  (forall c, existsb (issubclass c) f1 = true -> existsb (issubclass c) f2 = true) ->
  incl (get_parameter_names issubclass m f2) (get_parameter_names issubclass m f1).
Proof.
  intros Hsub s Hs. apply reached_names.
  apply (reaches_fewer_types f1 f2 m s Hsub). apply names_reach. exact Hs.
Qed.

Lemma length_names_le (forbidden : list cls) (m : Layer cls) :
  List.length (get_parameter_names issubclass m forbidden) <= count_parameters m.
Proof.
  induction m as [c ps ch IH] using Layer_children_ind.
  rewrite get_parameter_names_unfold, count_parameters_unfold, length_app.
  apply Nat.add_le_mono_r.
  induction ch as [|[n0 c0] l IHl]; [apply Nat.le_refl|].
  cbn [flat_map map fst snd]. unfold list_sum in *. cbn [fold_right].
  rewrite length_app, length_map.
  apply Nat.add_le_mono.
  - eapply Nat.le_trans; [apply filter_length_le|].
    apply (IH n0 c0). left. reflexivity.
  - apply IHl. intros name child Hin. apply (IH name child). right. exact Hin.
Qed.

(** X3: the list never has more names than the model and the layers
    below it have parameters, and with no forbidden type it has exactly
    as many: every parameter is named once. *)
Theorem get_parameter_names_count (forbidden : list cls) (m : Layer cls) :
  List.length (get_parameter_names issubclass m forbidden) <= count_parameters m /\
  List.length (get_parameter_names issubclass m []) = count_parameters m.
Proof.
  split; [apply length_names_le|].
  induction m as [c ps ch IH] using Layer_children_ind.
  rewrite get_parameter_names_unfold, count_parameters_unfold, length_app.
  f_equal.
  induction ch as [|[n0 c0] l IHl]; [reflexivity|].
  cbn [flat_map map fst snd]. unfold list_sum in *. cbn [fold_right].
  rewrite length_app, length_map. f_equal.
  - rewrite filter_all by reflexivity. apply (IH n0 c0). left. reflexivity.
  - apply IHl. intros name child Hin. apply (IH name child). right. exact Hin.
Qed.

End ParameterNamesProperties.

Lemma get_parameter_names_fewer_witness :
  ParameterNames.get_parameter_names String.eqb model_example
    ["LayerNorm"%string; "Linear"%string] = ["scale"%string] /\
  ParameterNames.get_parameter_names String.eqb model_example
    ["LayerNorm"%string] =
    ["linear.weight"%string; "linear.bias"%string; "scale"%string] /\
  incl
    (ParameterNames.get_parameter_names String.eqb model_example
       ["LayerNorm"%string; "Linear"%string])
    (ParameterNames.get_parameter_names String.eqb model_example
       ["LayerNorm"%string]).
Proof.
  split; [reflexivity|]. split; [reflexivity|].
  apply (get_parameter_names_fewer string String.eqb ["LayerNorm"%string]
           ["LayerNorm"%string; "Linear"%string] model_example).
  intros c. simpl. destruct (String.eqb c "LayerNorm"); [reflexivity|discriminate].
Defined.

(** ** Edge cases of [compute] *)

(** X4: the constructor takes any [preprocess_type], and [compute] on an
    instance whose [preprocess_type] is not "sevir" raises
    [NotImplementedError] before it counts anything: the instance is left
    as it was. *)
Theorem compute_rejects_preprocess_type (pt : string) :
  pt <> "sevir"%string ->
  (forall layout_ seq_len_ thrs ml eps_,
     exists self,
       __init__ layout_ "0" seq_len_ pt thrs ml eps_ = Ok self /\
       preprocess_type self = pt) /\
  (forall process_data_dict_back self pred target,
     preprocess_type self = pt ->
     compute process_data_dict_back pred target self =
       (self, Raise NotImplementedError)).
Proof.
  intros Hpt. split.
  - intros. eexists. split; reflexivity.
  - intros pb self pred target E. unfold compute, mbind, reads, preprocess.
    rewrite E. apply String.eqb_neq in Hpt. rewrite Hpt. reflexivity.
Qed.

Lemma compute_rejects_preprocess_type_witness :
  (forall layout_ seq_len_ thrs ml eps_,
     exists self,
       __init__ layout_ "0" seq_len_ "other" thrs ml eps_ = Ok self /\
       preprocess_type self = "other"%string) /\
  (forall process_data_dict_back self pred target,
     preprocess_type self = "other"%string ->
     compute process_data_dict_back pred target self =
       (self, Raise NotImplementedError)).
Proof.
  apply (compute_rejects_preprocess_type "other"). discriminate.
Defined.

(** X5: in mode "0" with an empty threshold list and a first metric that
    [metrics_dict] knows, [compute] raises [ZeroDivisionError] when it
    divides the sum of the scores by the number of thresholds, whatever
    the fields are. *)
Theorem compute_without_thresholds
    (process_data_dict_back : tensor spec_float -> tensor spec_float)
    (layout_ : string) (seq_len_ : option Z) (metrics : string)
    (ml : list string) (eps_ : R) (self : SEVIRSkillScore)
    (pred target : tensor spec_float) :
  __init__ layout_ "0" seq_len_ "sevir" [] (metrics :: ml) eps_ = Ok self ->
  In metrics known_metrics ->
  compute process_data_dict_back pred target self = (self, Raise ZeroDivisionError).
Proof.
  intros Hinit Hin. apply init_inv in Hinit. subst self.
  unfold compute, mbind, reads, preprocess.
  cbn [preprocess_type threshold_list String.eqb Ascii.eqb Bool.eqb enumerate
       List.length seq combine for_each mret].
  f_equal. unfold scores_of.
  cbn [metrics_list threshold_list foldM fold_left]. unfold metric_step at 1.
  cbn [keep_seq_len_dim negb String.eqb Ascii.eqb Bool.eqb bind hits misses fas
       eps threshold_list].
  destruct (metric_lookup_value metrics (tmap IZR (zeros [0])) (tmap IZR (zeros [0]))
              (tmap IZR (zeros [0])) eps_ Hin eq_refl eq_refl) as (fn & Hfn & Hv).
  cbn [List.length] in *. rewrite Hfn. cbn [bind]. rewrite Hv. reflexivity.
Qed.

Lemma compute_without_thresholds_witness :
  compute (fun x => x) pred_example target_example
    (mkSkillScore "NHWT" "sevir" [] ["csi"%string] (1 / 10000)%R "0" None false
       (zeros [0]) (zeros [0]) (zeros [0])) =
  (mkSkillScore "NHWT" "sevir" [] ["csi"%string] (1 / 10000)%R "0" None false
     (zeros [0]) (zeros [0]) (zeros [0]),
   Raise ZeroDivisionError).
Proof.
  apply (compute_without_thresholds (fun x => x) "NHWT" None "csi" []
           (1 / 10000)%R _ pred_example target_example eq_refl).
  right. left. reflexivity.
Defined.

Lemma foldM_app {A S : Type} (body : S -> A -> result S) (l1 l2 : list A) :
  forall s, foldM body (l1 ++ l2) s = bind (foldM body l1 s) (foldM body l2).
Proof.
  induction l1 as [|a l1 IH]; intros s; [reflexivity|].
  cbn [app foldM]. destruct (body s a) as [s'|e]; [|reflexivity].
  cbn [bind]. apply IH.
Qed.

Lemma unknown_metric_lookup (name : string) :
  ~ In name known_metrics -> dict_get String.eqb metrics_dict name = None.
Proof.
  intros H. unfold metrics_dict. cbn [dict_get].
  destruct (String.eqb_spec "pod" name) as [<-|_];
    [exfalso; apply H; simpl; auto|].
  destruct (String.eqb_spec "csi" name) as [<-|_];
    [exfalso; apply H; simpl; auto|].
  destruct (String.eqb_spec "sucr" name) as [<-|_];
    [exfalso; apply H; simpl; auto|].
  destruct (String.eqb_spec "bias" name) as [<-|_];
    [exfalso; apply H; simpl; auto 6|].
  reflexivity.
Qed.

(** X6: in mode "0", when [metrics_list] holds a name that [metrics_dict]
    does not know, [compute] raises [KeyError] only after the first loop:
    the state that the failed call leaves behind already holds, for
    every threshold, the float32 sum of the count it held and the count
    of the batch. *)
Theorem compute_unknown_metric
    (process_data_dict_back : tensor spec_float -> tensor spec_float)
    (self : SEVIRSkillScore) (pred target : tensor spec_float)
    (good : list string) (bad : string) (rest : list string) :
  mode self = "0"%string ->
  keep_seq_len_dim self = false ->
  preprocess_type self = "sevir"%string ->
  state_1d self (List.length (threshold_list self)) ->
  threshold_list self <> [] ->
  metrics_list self = good ++ bad :: rest ->
  (forall name, In name good -> In name known_metrics) ->
  ~ In bad known_metrics ->
  shape (process_data_dict_back target) = shape (process_data_dict_back pred) ->
  String.length (layout self) = ndim (process_data_dict_back target) ->
  exists self',
    compute process_data_dict_back pred target self = (self', Raise KeyError) /\
    forall i, i < List.length (threshold_list self) ->
      let c := batch_counts self (process_data_dict_back pred)
                 (process_data_dict_back target)
                 (nth i (threshold_list self) 0%Z) in
      data (hits self') [i] = fadd (data (hits self) [i]) (round_f32 (hits_of c)) /\
      data (misses self') [i] =
        fadd (data (misses self) [i]) (round_f32 (misses_of c)) /\
      data (fas self') [i] = fadd (data (fas self) [i]) (round_f32 (fas_of c)).
Proof.
  intros Hmode Hkeep Hpre Hstate Hne Hml Hgood Hbad Hshape Hrank.
  destruct (compute_accumulates process_data_dict_back self pred target
              Hkeep Hpre Hstate Hshape Hrank) as (self' & Hc & C & S & Hd).
  exists self'. split.
  - rewrite Hc. f_equal.
    destruct C as (_ & _ & Ct & Cm & _ & Cmode & _ & Ck).
    assert (Hmode' : mode self' = "0"%string) by congruence.
    assert (Hkeep' : keep_seq_len_dim self' = false) by congruence.
    assert (Hn : List.length (threshold_list self') =
                 List.length (threshold_list self)) by congruence.
    assert (Hpos : List.length (threshold_list self) <> 0).
    { destruct (threshold_list self); [congruence|discriminate]. }
    assert (Hk : forall thr, In thr (threshold_list self') ->
              dict_get key_eqb (empty_scores (threshold_list self')) (KInt thr)
              <> None).
    { intros thr Hthr. apply empty_scores_keys. right. exists thr. auto. }
    assert (Havg : dict_get key_eqb (empty_scores (threshold_list self'))
                     (KStr "avg") <> None).
    { apply empty_scores_keys. left. reflexivity. }
    destruct (metrics_loop_ok self' (List.length (threshold_list self))
                Hmode' Hkeep' S Hn Hpos good
                (empty_scores (threshold_list self')) Hgood Hk Havg)
      as (ret1 & Hloop & _).
    unfold scores_of. rewrite <- Cm, Hml, foldM_app.
    unfold empty_scores in Hloop. rewrite Hloop. cbn [bind foldM].
    unfold metric_step. rewrite Hkeep'. cbn [bind].
    rewrite (unknown_metric_lookup bad Hbad). reflexivity.
  - intros i Hi c. destruct (Hd i Hi) as (H1 & H2 & H3).
    repeat split; assumption.
Qed.

Lemma compute_unknown_metric_witness :
  exists self',
    compute (fun x => x) pred_example target_example instance_unknown_metric =
      (self', Raise KeyError) /\
    forall i, i < List.length (threshold_list instance_unknown_metric) ->
      let c := batch_counts instance_unknown_metric pred_example target_example
                 (nth i (threshold_list instance_unknown_metric) 0%Z) in
      data (hits self') [i] =
        fadd (data (hits instance_unknown_metric) [i]) (round_f32 (hits_of c)) /\
      data (misses self') [i] =
        fadd (data (misses instance_unknown_metric) [i])
          (round_f32 (misses_of c)) /\
      data (fas self') [i] =
        fadd (data (fas instance_unknown_metric) [i]) (round_f32 (fas_of c)).
Proof.
  apply (compute_unknown_metric (fun x => x) instance_unknown_metric
           pred_example target_example ["csi"%string] "f1" []);
    try reflexivity.
  - repeat split.
  - discriminate.
  - intros name [<-|[]]. simpl. auto.
  - simpl. intuition discriminate.
Defined.


(** ** The dimension that is kept *)







(** ** Sequences of calls *)

Lemma same_config_sym (s1 s2 : SEVIRSkillScore) :
  same_config s1 s2 -> same_config s2 s1.
Proof.
  unfold same_config. intros H. decompose [and] H. repeat split; congruence.
Qed.

Lemma iadd_field_config (field : SEVIRSkillScore -> tensor Z)
    (set : SEVIRSkillScore -> tensor Z -> SEVIRSkillScore)
    (i : nat) (v : tensor Z) (self : SEVIRSkillScore) :
  (forall s x, same_config s (set s x)) ->
  same_config self (fst (iadd_field field set i v self)).
Proof.
  intros Hset. unfold iadd_field.
  destruct (iadd_item (field self) i v); cbn [fst];
    [apply Hset|apply same_config_refl].
Qed.

Lemma accumulate_step_config (pred target : tensor spec_float) (it : nat * Z)
    (self : SEVIRSkillScore) :
  same_config self (fst (accumulate_step pred target it self)).
Proof.
  destruct it as [i thr]. unfold accumulate_step, mbind, reads.
  destruct (calc_seq_hits_misses_fas self pred target thr) as [[[h m] f]|];
    [|apply same_config_refl].
  pose proof (iadd_field_config hits set_hits i h self
                (fun s x => ltac:(repeat split))) as H1.
  destruct (iadd_field hits set_hits i h self) as [s1 [u|e]]; cbn [fst] in *;
    [|exact H1].
  pose proof (iadd_field_config misses set_misses i m s1
                (fun s x => ltac:(repeat split))) as H2.
  destruct (iadd_field misses set_misses i m s1) as [s2 [u2|e]]; cbn [fst] in *;
    [|eapply same_config_trans; eassumption].
  pose proof (iadd_field_config fas set_fas i f s2
                (fun s x => ltac:(repeat split))) as H3.
  destruct (iadd_field fas set_fas i f s2) as [s3 r]; cbn [fst] in *.
  eapply same_config_trans; [exact H1|].
  eapply same_config_trans; [exact H2|].
  destruct r; exact H3.
Qed.

Lemma for_each_config (pred target : tensor spec_float) (items : list (nat * Z)) :
  forall self,
    same_config self (fst (for_each items (accumulate_step pred target) self)).
Proof.
  induction items as [|it items IH]; intros self; [apply same_config_refl|].
  cbn [for_each]. unfold mbind.
  pose proof (accumulate_step_config pred target it self) as H.
  destruct (accumulate_step pred target it self) as [s1 [u|e]]; cbn [fst] in *.
  - eapply same_config_trans; [exact H|apply IH].
  - exact H.
Qed.

Lemma compute_keeps_config
    (process_data_dict_back : tensor spec_float -> tensor spec_float)
    (pred target : tensor spec_float) (self : SEVIRSkillScore) :
  same_config self (fst (compute process_data_dict_back pred target self)).
Proof.
  unfold compute, mbind, reads, preprocess.
  destruct (String.eqb (preprocess_type self) "sevir"); [|apply same_config_refl].
  pose proof (for_each_config (process_data_dict_back pred)
                (process_data_dict_back target)
                (enumerate (threshold_list self)) self) as H.
  destruct (for_each (enumerate (threshold_list self))
              (accumulate_step (process_data_dict_back pred)
                 (process_data_dict_back target)) self) as [s1 [u|e]];
    cbn [fst] in *; exact H.
Qed.

(** X8: whatever the mode, the fields and the outcome of each call, a
    sequence of calls of [compute] leaves the layout, the preprocessing
    type, the thresholds, the metrics, eps, the mode, [seq_len] and
    [keep_seq_len_dim] of the instance as they were, and the three
    counts with the shapes they had. *)
Theorem calls_keep_config_and_shapes
    (process_data_dict_back : tensor spec_float -> tensor spec_float)
    (batches : list (tensor spec_float * tensor spec_float))
    (self : SEVIRSkillScore) :
  same_config self (after_calls process_data_dict_back batches self) /\
  same_shapes self (after_calls process_data_dict_back batches self).
Proof.
  revert self. induction batches as [|b batches IH]; intros self.
  - split; [apply same_config_refl|apply same_shapes_refl].
  - unfold after_calls. cbn [fold_left].
    fold (after_calls process_data_dict_back batches
            (fst (compute process_data_dict_back (fst b) (snd b) self))).
    destruct (IH (fst (compute process_data_dict_back (fst b) (snd b) self)))
      as [C S].
    split.
    + eapply same_config_trans; [apply compute_keeps_config|exact C].
    + eapply same_shapes_trans; [apply compute_keeps_shapes|exact S].
Qed.

Lemma batch_counts_same_layout (s1 s2 : SEVIRSkillScore)
    (pred target : tensor spec_float) (threshold : Z) :
  same_config s1 s2 ->
  batch_counts s1 pred target threshold = batch_counts s2 pred target threshold.
Proof.
  intros (L & _ & _ & _ & _ & _ & _ & K). unfold batch_counts.
  rewrite (calc_same_layout s1 s2 pred target threshold L K). reflexivity.
Qed.

Lemma batches_size_nonneg
    (process_data_dict_back : tensor spec_float -> tensor spec_float)
    (batches : list (tensor spec_float * tensor spec_float)) :
  (0 <= batches_size process_data_dict_back batches)%Z.
Proof.
  unfold batches_size. apply zsum_nonneg. intros b. lia.
Qed.

Lemma after_calls_counts
    (process_data_dict_back : tensor spec_float -> tensor spec_float)
    (self0 : SEVIRSkillScore)
    (batches : list (tensor spec_float * tensor spec_float)) :
  keep_seq_len_dim self0 = false ->
  preprocess_type self0 = "sevir"%string ->
  Forall (batch_fits process_data_dict_back self0) batches ->
  forall self,
    same_config self0 self ->
    state_1d self (List.length (threshold_list self0)) ->
    counts_within self (List.length (threshold_list self0))
      (batches_size process_data_dict_back batches) ->
    forall i, i < List.length (threshold_list self0) ->
      let thr := nth i (threshold_list self0) 0%Z in
      data (hits (after_calls process_data_dict_back batches self)) [i] =
        (data (hits self) [i] +
         batches_counts process_data_dict_back self0 batches thr hits_of)%Z /\
      data (misses (after_calls process_data_dict_back batches self)) [i] =
        (data (misses self) [i] +
         batches_counts process_data_dict_back self0 batches thr misses_of)%Z /\
      data (fas (after_calls process_data_dict_back batches self)) [i] =
        (data (fas self) [i] +
         batches_counts process_data_dict_back self0 batches thr fas_of)%Z.
Proof.
  intros K0 P0 Hfit. induction Hfit as [|b batches [Hshape Hrank] _ IH];
    intros self C S W i Hi thr.
  - unfold batches_counts. cbn [after_calls fold_left map zsum fold_right].
    repeat split; lia.
  - pose proof C as (L & Cp & Ct & _ & _ & _ & _ & Ck).
    destruct (compute_accumulates process_data_dict_back self (fst b) (snd b))
      as (self' & Hc & C' & S' & Hd); try congruence.
    unfold after_calls. cbn [fold_left]. rewrite Hc. cbn [fst].
    fold (after_calls process_data_dict_back batches self').
    rewrite <- Ct in S', Hd.
    pose proof (batches_size_nonneg process_data_dict_back batches) as Hrest.
    assert (Hsize : batches_size process_data_dict_back (b :: batches) =
                    (Z.of_nat (numel (shape (process_data_dict_back (snd b)))) +
                     batches_size process_data_dict_back batches)%Z)
      by reflexivity.
    rewrite Hsize in W. clear Hsize.
    set (nb := Z.of_nat (numel (shape (process_data_dict_back (snd b))))) in *.
    assert (Hstep : forall j, j < List.length (threshold_list self0) ->
              let c := batch_counts self0 (process_data_dict_back (fst b))
                         (process_data_dict_back (snd b))
                         (nth j (threshold_list self0) 0%Z) in
              (0 <= hits_of c /\ 0 <= misses_of c /\ 0 <= fas_of c /\
               hits_of c + misses_of c + fas_of c <= nb)%Z /\
              data (hits self') [j] = (data (hits self) [j] + hits_of c)%Z /\
              data (misses self') [j] = (data (misses self) [j] + misses_of c)%Z /\
              data (fas self') [j] = (data (fas self) [j] + fas_of c)%Z).
    { intros j Hj c. destruct (W j Hj) as ((Wh & Wh') & (Wm & Wm') & (Wf & Wf')).
      assert (Hnb : (nb <= 2 ^ 24)%Z) by lia.
      pose proof (batch_counts_nonneg self0 (process_data_dict_back (fst b))
                    (process_data_dict_back (snd b))
                    (nth j (threshold_list self0) 0%Z) K0 Hshape Hrank Hnb) as Hnn.
      pose proof (batch_counts_le_numel self0 (process_data_dict_back (fst b))
                    (process_data_dict_back (snd b))
                    (nth j (threshold_list self0) 0%Z) K0 Hshape Hrank Hnb) as Hle.
      cbv zeta in Hle. fold c in Hnn, Hle. fold nb in Hle.
      destruct (Hd j Hj) as (D1 & D2 & D3).
      rewrite (batch_counts_same_layout self self0) in D1, D2, D3
        by (apply same_config_sym; exact C).
      fold c in D1, D2, D3.
      destruct c as [[ch cm] cf]. cbn [hits_of misses_of fas_of fst snd] in *.
      destruct Hnn as (N1 & N2 & N3).
      rewrite round_f32_small in D1, D2, D3 by lia.
      rewrite fadd_exact in D1, D2, D3 by lia.
      repeat split; try assumption. }
    assert (W' : counts_within self' (List.length (threshold_list self0))
                   (batches_size process_data_dict_back batches)).
    { intros j Hj. destruct (W j Hj) as ((Wh & Wh') & (Wm & Wm') & (Wf & Wf')).
      destruct (Hstep j Hj) as ((N1 & N2 & N3 & N4) & -> & -> & ->).
      repeat split; lia. }
    destruct (IH self' (same_config_trans _ _ _ C C') S' W' i Hi) as (I1 & I2 & I3).
    destruct (Hstep i Hi) as (_ & D1 & D2 & D3).
    fold thr in I1, I2, I3, D1, D2, D3.
    unfold batches_counts in *. cbn [map zsum fold_right].
    fold (zsum (map (fun b0 => hits_of (batch_counts self0
            (process_data_dict_back (fst b0)) (process_data_dict_back (snd b0)) thr))
            batches)).
    fold (zsum (map (fun b0 => misses_of (batch_counts self0
            (process_data_dict_back (fst b0)) (process_data_dict_back (snd b0)) thr))
            batches)).
    fold (zsum (map (fun b0 => fas_of (batch_counts self0
            (process_data_dict_back (fst b0)) (process_data_dict_back (snd b0)) thr))
            batches)).
    rewrite I1, I2, I3, D1, D2, D3. repeat split; lia.
Qed.

Lemma zsum_permutation (l1 l2 : list Z) :
  Permutation l1 l2 -> zsum l1 = zsum l2.
Proof.
  induction 1; simpl; lia.
Qed.

(** X9: without the sequence dimension, when the stored counts are not
    negative and stay at or below 2^24 (the integers float32 holds
    exactly) even with the number of elements of all the batches added,
    then after a sequence of calls of [compute] on batches that fit the
    instance the stored count of every threshold is the count before
    the calls plus the sum of the counts of the batches; so the counts
    after the calls do not depend on the order of the batches. *)
Theorem calls_accumulate
    (process_data_dict_back : tensor spec_float -> tensor spec_float)
    (self : SEVIRSkillScore)
    (batches : list (tensor spec_float * tensor spec_float)) :
  keep_seq_len_dim self = false ->
  preprocess_type self = "sevir"%string ->
  state_1d self (List.length (threshold_list self)) ->
  Forall (batch_fits process_data_dict_back self) batches ->
  counts_within self (List.length (threshold_list self))
    (batches_size process_data_dict_back batches) ->
  forall i, i < List.length (threshold_list self) ->
    let thr := nth i (threshold_list self) 0%Z in
    (data (hits (after_calls process_data_dict_back batches self)) [i] =
       (data (hits self) [i] +
        batches_counts process_data_dict_back self batches thr hits_of)%Z /\
     data (misses (after_calls process_data_dict_back batches self)) [i] =
       (data (misses self) [i] +
        batches_counts process_data_dict_back self batches thr misses_of)%Z /\
     data (fas (after_calls process_data_dict_back batches self)) [i] =
       (data (fas self) [i] +
        batches_counts process_data_dict_back self batches thr fas_of)%Z) /\
    forall batches',
      Permutation batches batches' ->
      data (hits (after_calls process_data_dict_back batches' self)) [i] =
        data (hits (after_calls process_data_dict_back batches self)) [i] /\
      data (misses (after_calls process_data_dict_back batches' self)) [i] =
        data (misses (after_calls process_data_dict_back batches self)) [i] /\
      data (fas (after_calls process_data_dict_back batches' self)) [i] =
        data (fas (after_calls process_data_dict_back batches self)) [i].
Proof.
  intros K P S Hfit W i Hi thr.
  pose proof (after_calls_counts process_data_dict_back self batches K P Hfit
                self (same_config_refl self) S W i Hi) as H.
  split; [exact H|].
  intros batches' Hperm.
  assert (Hfit' : Forall (batch_fits process_data_dict_back self) batches').
  { apply Forall_forall. intros b Hb. rewrite Forall_forall in Hfit.
    apply Hfit. apply Permutation_in with (l := batches'); [|exact Hb].
    apply Permutation_sym. exact Hperm. }
  assert (W' : counts_within self (List.length (threshold_list self))
                 (batches_size process_data_dict_back batches')).
  { unfold batches_size.
    rewrite <- (zsum_permutation _ _
                  (Permutation_map
                     (fun b => Z.of_nat
                                 (numel (shape (process_data_dict_back (snd b)))))
                     Hperm)).
    exact W. }
  pose proof (after_calls_counts process_data_dict_back self batches' K P Hfit'
                self (same_config_refl self) S W' i Hi) as H'.
  cbv zeta in H, H'. destruct H as (H1 & H2 & H3). destruct H' as (H1' & H2' & H3').
  rewrite H1, H2, H3, H1', H2', H3'. unfold batches_counts.
  repeat split; f_equal; apply zsum_permutation; apply Permutation_map;
    apply Permutation_sym; exact Hperm.
Qed.

Lemma calls_accumulate_witness :
  let thr := nth 0 (threshold_list (instance_example "0" false)) 0%Z in
  (data (hits (after_calls (fun x => x) batches_example
                 (instance_example "0" false))) [0] =
     (data (hits (instance_example "0" false)) [0%nat] +
      batches_counts (fun x => x) (instance_example "0" false) batches_example
        thr hits_of)%Z /\
   data (misses (after_calls (fun x => x) batches_example
                   (instance_example "0" false))) [0] =
     (data (misses (instance_example "0" false)) [0%nat] +
      batches_counts (fun x => x) (instance_example "0" false) batches_example
        thr misses_of)%Z /\
   data (fas (after_calls (fun x => x) batches_example
                (instance_example "0" false))) [0] =
     (data (fas (instance_example "0" false)) [0%nat] +
      batches_counts (fun x => x) (instance_example "0" false) batches_example
        thr fas_of)%Z) /\
  forall batches',
    Permutation batches_example batches' ->
    data (hits (after_calls (fun x => x) batches' (instance_example "0" false))) [0] =
      data (hits (after_calls (fun x => x) batches_example
                    (instance_example "0" false))) [0] /\
    data (misses (after_calls (fun x => x) batches' (instance_example "0" false))) [0] =
      data (misses (after_calls (fun x => x) batches_example
                      (instance_example "0" false))) [0] /\
    data (fas (after_calls (fun x => x) batches' (instance_example "0" false))) [0] =
      data (fas (after_calls (fun x => x) batches_example
                   (instance_example "0" false))) [0].
Proof.
  apply (calls_accumulate (fun x => x) (instance_example "0" false)
           batches_example).
  - reflexivity.
  - reflexivity.
  - repeat split.
  - repeat constructor.
  - intros i Hi. vm_compute. repeat split; discriminate.
  - simpl. lia.
Defined.

(** ** Bounds *)

Lemma SFleb_rank (x y : spec_float) :
  SFleb x y = true <->
  is_nan x = false /\ is_nan y = false /\ lex_le (float_rank x) (float_rank y).
Proof.
  unfold SFleb.
  destruct x as [sx|sx| |sx mx ex], y as [sy|sy| |sy my ey];
    try (simpl; intuition (try discriminate; try lia); fail);
    try (destruct sx; simpl; intuition (try discriminate; try lia); fail);
    try (destruct sy; simpl; intuition (try discriminate; try lia); fail);
    try (destruct sx, sy; simpl; intuition (try discriminate; try lia); fail).
  destruct sx, sy; cbn [SFcompare float_rank lex_le is_nan];
    try (intuition (try discriminate; try lia); fail).
  - destruct (Z.compare_spec ex ey) as [E|E|E].
    + change (Pos.compare_cont Eq mx my) with (mx ?= my)%positive.
      destruct (Pos.compare_spec mx my) as [F|F|F]; simpl;
        intuition (try discriminate; try lia).
    + intuition (try discriminate; try lia).
    + intuition (try discriminate; try lia).
  - destruct (Z.compare_spec ex ey) as [E|E|E].
    + change (Pos.compare_cont Eq mx my) with (mx ?= my)%positive.
      destruct (Pos.compare_spec mx my) as [F|F|F]; simpl;
        intuition (try discriminate; try lia).
    + intuition (try discriminate; try lia).
    + intuition (try discriminate; try lia).
Qed.

Lemma SFleb_trans (x y z : spec_float) :
  SFleb x y = true -> SFleb y z = true -> SFleb x z = true.
Proof.
  rewrite !SFleb_rank. intros (Nx & Ny & H1) (_ & Nz & H2).
  split; [exact Nx|]. split; [exact Nz|].
  destruct (float_rank x) as [[a1 a2] a3], (float_rank y) as [[b1 b2] b3],
    (float_rank z) as [[c1 c2] c3].
  unfold lex_le in *. lia.
Qed.

Lemma indicator_antitone (target pred x : tensor spec_float) (T1 T2 : spec_float)
    (idx : list nat) :
  SFleb T1 T2 = true ->
  (indicator target pred T2 x idx <= indicator target pred T1 x idx)%Z.
Proof.
  intros H. unfold indicator, SFgeb.
  destruct (is_nan (data target idx) || is_nan (data pred idx)); [lia|].
  destruct (SFleb T2 (data x idx)) eqn:E.
  - rewrite (SFleb_trans T1 T2 (data x idx) H E). lia.
  - destruct (SFleb T1 (data x idx)); lia.
Qed.

Lemma zsum_b2z_le_length {A : Type} (c : A -> bool) (l : list A) :
  (zsum (map (fun a => Z.b2z (c a)) l) <= Z.of_nat (List.length l))%Z.
Proof.
  induction l as [|a l IH]; simpl zsum; [simpl; lia|].
  cbn [List.length]. destruct (c a); simpl Z.b2z; lia.
Qed.

(** X10: without the sequence dimension, on a field of at most 2^24
    elements (so that the float32 sums are exact), the hits, misses and
    false alarms of a batch are not negative and together count at most
    the positions at which neither the target nor the prediction is
    NaN, hence at most the number of elements of the field. *)
Theorem batch_counts_bounded (self : SEVIRSkillScore)
    (pred target : tensor spec_float) (threshold : Z) :
  keep_seq_len_dim self = false ->
  shape target = shape pred ->
  String.length (layout self) = ndim target ->
  (Z.of_nat (numel (shape target)) <= 2 ^ 24)%Z ->
  let c := batch_counts self pred target threshold in
  (0 <= hits_of c /\ 0 <= misses_of c /\ 0 <= fas_of c /\
   hits_of c + misses_of c + fas_of c <=
     count_where (shape target) (fun _ => true) (no_nan target pred) /\
   count_where (shape target) (fun _ => true) (no_nan target pred) <=
     Z.of_nat (numel (shape target)))%Z.
Proof.
  intros K E Hrank Hb c.
  pose proof (batch_counts_nonneg self pred target threshold K E Hrank Hb) as Hnn.
  destruct (calc_no_seq self pred target threshold K E Hrank Hb)
    as (h & m & f & Hc & _ & _ & _ & Hd).
  subst c. unfold batch_counts in *. rewrite Hc in *.
  cbn [hits_of misses_of fas_of fst snd].
  destruct Hnn as (N1 & N2 & N3). repeat split; try assumption.
  - destruct (Hd []) as (-> & -> & ->).
    unfold count_where. rewrite filter_all by reflexivity.
    set (t := indicator target pred (float_of_int threshold) target).
    set (p := indicator target pred (float_of_int threshold) pred).
    assert (S3 : forall (t p : list nat -> Z) l,
              (zsum (map (fun idx => t idx * p idx) l) +
               zsum (map (fun idx => t idx * (1 - p idx)) l) +
               zsum (map (fun idx => (1 - t idx) * p idx) l) =
               zsum (map (fun idx => t idx * p idx + t idx * (1 - p idx) +
                                     (1 - t idx) * p idx) l))%Z).
    { clear. intros t p l. induction l as [|a l IH]; [reflexivity|].
      unfold zsum in *. cbn [map fold_right] in *. lia. }
    rewrite S3. apply zsum_le. intros idx. unfold t, p, indicator, no_nan.
    destruct (is_nan (data target idx) || is_nan (data pred idx)); simpl negb;
      [simpl; lia|].
    destruct (SFgeb (data target idx) (float_of_int threshold)),
      (SFgeb (data pred idx) (float_of_int threshold)); simpl; lia.
  - unfold count_where. rewrite filter_all by reflexivity.
    rewrite <- length_all_indices. apply zsum_b2z_le_length.
Qed.

Lemma batch_counts_bounded_witness :
  let c := batch_counts (instance_example "0" false) pred_example
             target_example 16 in
  (0 <= hits_of c /\ 0 <= misses_of c /\ 0 <= fas_of c /\
   hits_of c + misses_of c + fas_of c <=
     count_where (shape target_example) (fun _ => true)
       (no_nan target_example pred_example) /\
   count_where (shape target_example) (fun _ => true)
     (no_nan target_example pred_example) <=
     Z.of_nat (numel (shape target_example)))%Z.
Proof.
  apply (batch_counts_bounded (instance_example "0" false) pred_example
           target_example 16); [reflexivity|reflexivity|reflexivity|].
  cbn. lia.
Defined.

(** X11: without the sequence dimension, on a field of at most 2^24
    elements (so that the float32 sums are exact), raising the
    threshold never raises the hits, the number of target positives
    (hits + misses) or the number of predicted positives (hits + false
    alarms) of a batch. *)
Theorem batch_counts_antitone (self : SEVIRSkillScore)
    (pred target : tensor spec_float) (z1 z2 : Z) :
  keep_seq_len_dim self = false ->
  shape target = shape pred ->
  String.length (layout self) = ndim target ->
  (Z.of_nat (numel (shape target)) <= 2 ^ 24)%Z ->
  SFleb (float_of_int z1) (float_of_int z2) = true ->
  let c1 := batch_counts self pred target z1 in
  let c2 := batch_counts self pred target z2 in
  (hits_of c2 <= hits_of c1 /\
   hits_of c2 + misses_of c2 <= hits_of c1 + misses_of c1 /\
   hits_of c2 + fas_of c2 <= hits_of c1 + fas_of c1)%Z.
Proof.
  intros K E Hrank Hb Hle c1 c2.
  destruct (calc_no_seq self pred target z1 K E Hrank Hb)
    as (h1 & m1 & f1 & Hc1 & _ & _ & _ & Hd1).
  destruct (calc_no_seq self pred target z2 K E Hrank Hb)
    as (h2 & m2 & f2 & Hc2 & _ & _ & _ & Hd2).
  subst c1 c2. unfold batch_counts. rewrite Hc1, Hc2.
  cbn [hits_of misses_of fas_of fst snd].
  destruct (Hd1 []) as (-> & -> & ->). destruct (Hd2 []) as (-> & -> & ->).
  set (l := all_indices (shape target)).
  set (t1 := indicator target pred (float_of_int z1) target).
  set (p1 := indicator target pred (float_of_int z1) pred).
  set (t2 := indicator target pred (float_of_int z2) target).
  set (p2 := indicator target pred (float_of_int z2) pred).
  assert (Ht : forall idx, (0 <= t2 idx <= t1 idx /\ t1 idx <= 1)%Z).
  { intros idx. pose proof (indicator_antitone target pred target _ _ idx Hle).
    destruct (indicator_01 target pred (float_of_int z1) target idx);
      destruct (indicator_01 target pred (float_of_int z2) target idx);
      unfold t1, t2; lia. }
  assert (Hp : forall idx, (0 <= p2 idx <= p1 idx /\ p1 idx <= 1)%Z).
  { intros idx. pose proof (indicator_antitone target pred pred _ _ idx Hle).
    destruct (indicator_01 target pred (float_of_int z1) pred idx);
      destruct (indicator_01 target pred (float_of_int z2) pred idx);
      unfold p1, p2; lia. }
  assert (S2 : forall (f g : list nat -> Z),
            (zsum (map f l) + zsum (map g l) =
             zsum (map (fun idx => f idx + g idx) l))%Z).
  { intros f g. generalize l. clear. intros l.
    induction l as [|a l' IH]; [reflexivity|].
    unfold zsum in *. cbn [map fold_right] in *. lia. }
  split; [|split].
  - apply zsum_le. intros idx. specialize (Ht idx). specialize (Hp idx). nia.
  - rewrite !S2. apply zsum_le. intros idx. specialize (Ht idx). lia.
  - rewrite !S2. apply zsum_le. intros idx. specialize (Hp idx). lia.
Qed.

Lemma batch_counts_antitone_witness :
  let c1 := batch_counts (instance_example "0" false) pred_example
              target_example 16 in
  let c2 := batch_counts (instance_example "0" false) pred_example
              target_example 74 in
  (hits_of c2 <= hits_of c1 /\
   hits_of c2 + misses_of c2 <= hits_of c1 + misses_of c1 /\
   hits_of c2 + fas_of c2 <= hits_of c1 + fas_of c1)%Z.
Proof.
  apply (batch_counts_antitone (instance_example "0" false) pred_example
           target_example 16 74);
    [reflexivity|reflexivity|reflexivity|cbn; lia|reflexivity].
Defined.


Lemma ratio_below_one (h d : R) :
  (0 <= h)%R -> (h < d)%R -> (0 <= h / d < 1)%R.
Proof.
  intros Hh Hd. assert (Hpos : (0 < d)%R) by lra.
  split.
  - apply Rmult_le_pos; [exact Hh|]. left. apply Rinv_0_lt_compat. exact Hpos.
  - apply (Rmult_lt_reg_r d); [exact Hpos|].
    unfold Rdiv. rewrite Rmult_assoc, Rinv_l by lra. lra.
Qed.

Lemma ratio_larger_denominator (h a b : R) :
  (0 <= h)%R -> (0 < a)%R -> (a <= b)%R -> (h / b <= h / a)%R.
Proof.
  intros Hh Ha Hab. unfold Rdiv. apply Rmult_le_compat_l; [exact Hh|].
  apply Rinv_le_contravar; assumption.
Qed.

(** X12: on counts of one shape that are not negative, with a positive
    [eps], the scores are ordered at every entry:
    0 <= CSI <= POD <= 1 and CSI <= SUCR <= 1. *)
Theorem metric_bounds (hits misses fas : tensor R) (eps : R) :
  shape hits = shape misses ->
  shape hits = shape fas ->
  (0 < eps)%R ->
  (forall idx, (0 <= data hits idx)%R /\ (0 <= data misses idx)%R /\
               (0 <= data fas idx)%R) ->
  exists vpod vsucr vcsi,
    pod hits misses fas eps = Ok vpod /\
    sucr hits misses fas eps = Ok vsucr /\
    csi hits misses fas eps = Ok vcsi /\
    forall idx,
      (0 <= data vcsi idx)%R /\
      (data vcsi idx <= data vpod idx)%R /\
      (data vcsi idx <= data vsucr idx)%R /\
      (data vpod idx <= 1)%R /\
      (data vsucr idx <= 1)%R.
Proof.
  intros Em Ef He Hnn. do 3 eexists.
  split; [apply pod_ok; exact Em|].
  split; [apply sucr_ok; exact Ef|].
  split; [apply csi_ok; [exact Em|exact Ef]|].
  intros idx. cbn [data]. destruct (Hnn idx) as (Hh & Hm & Hf).
  set (h := data hits idx) in *. set (m := data misses idx) in *.
  set (f := data fas idx) in *.
  split; [apply ratio_below_one; lra|].
  split; [apply ratio_larger_denominator; lra|].
  split; [apply ratio_larger_denominator; lra|].
  split; [left; apply ratio_below_one; lra|].
  left; apply ratio_below_one; lra.
Qed.

Lemma metric_bounds_witness :
  exists vpod vsucr vcsi,
    pod (counts 3) (counts 1) (counts 2) (1 / 10000)%R = Ok vpod /\
    sucr (counts 3) (counts 1) (counts 2) (1 / 10000)%R = Ok vsucr /\
    csi (counts 3) (counts 1) (counts 2) (1 / 10000)%R = Ok vcsi /\
    forall idx,
      (0 <= data vcsi idx)%R /\
      (data vcsi idx <= data vpod idx)%R /\
      (data vcsi idx <= data vsucr idx)%R /\
      (data vpod idx <= 1)%R /\
      (data vsucr idx <= 1)%R.
Proof.
  apply (metric_bounds (counts 3) (counts 1) (counts 2) (1 / 10000)%R);
    [reflexivity|reflexivity|lra|].
  intros idx. unfold counts, of_list. cbn [data].
  destruct (hd 0 idx) as [|[|n]]; simpl; lra.
Defined.

(** ** What [forward] calls *)

Section ForwardCalls.

Variable T : Type.
Variable concat_to_tensor : dict string T -> list string -> T.
Variable lifting : T -> T.
Variable projection : T -> T.

Lemma fold_left_agree (f g : T -> nat -> T) (l : list nat) :
  (forall y i, In i l -> f y i = g y i) ->
  forall x, fold_left f l x = fold_left g l x.
Proof.
  induction l as [|i l IH]; intros H x; [reflexivity|].
  cbn [fold_left]. rewrite (H x i) by (left; reflexivity).
  apply IH. intros y j Hj. apply H. right. exact Hj.
Qed.

(** X13: [forward] applies no Fourier block of an index from
    [n_layers] on: two families of blocks that agree below [n_layers]
    give the same output, and for [n_layers <= 0] the output does not
    depend on the blocks at all. *)
Theorem forward_uses_first_blocks
    (pad unpad : FNO.DomainPadding -> T -> T)
    (fno_blocks fno_blocks' : T -> nat -> T)
    (self : FNO.FNONet) (x : dict string T) :
  (forall y i, (Z.of_nat i < FNO.n_layers self)%Z ->
               fno_blocks y i = fno_blocks' y i) ->
  FNO.forward concat_to_tensor lifting projection pad unpad fno_blocks self x =
  FNO.forward concat_to_tensor lifting projection pad unpad fno_blocks' self x.
Proof.
  intros H. unfold FNO.forward, range.
  rewrite (fold_left_agree (fun x index => fno_blocks x index)
             (fun x index => fno_blocks' x index)
             (seq 0 (Z.to_nat (FNO.n_layers self)))).
  - reflexivity.
  - intros y i Hi. apply H. apply in_seq in Hi. lia.
Qed.

(** X14: a network built with a [domain_padding] that is [None], not a
    number or a list, a number that is not positive, or a list whose
    sum, added from the left in binary64 as Python's [sum] does, is not
    positive (whatever its entries are) never pads: the output of
    [forward] does not depend on the padding functions. *)
Theorem forward_without_padding
    (pad unpad pad' unpad' : FNO.DomainPadding -> T -> T)
    (fno_blocks : T -> nat -> T)
    (input_keys output_keys : list string) (n_layers : Z)
    (arg : FNO.padding_arg) (domain_padding_mode : string)
    (x : dict string T) :
  ~ ((exists l, arg = FNO.PadList l /\ FNO.positive (FNO.float_sum l) = true) \/
     (exists x, arg = FNO.PadNumber x /\ FNO.positive x = true)) ->
  let self := FNO.__init__ input_keys output_keys n_layers arg
                domain_padding_mode in
  FNO.forward concat_to_tensor lifting projection pad unpad fno_blocks self x =
  FNO.forward concat_to_tensor lifting projection pad' unpad' fno_blocks self x.
Proof.
  intros Hnot self.
  assert (E : FNO.domain_padding self = None).
  { unfold self, FNO.__init__. cbn [FNO.domain_padding].
    destruct (FNO.init_domain_padding arg domain_padding_mode) eqn:Ei;
      [|reflexivity].
    exfalso. apply Hnot. apply (domain_padding_configured arg domain_padding_mode).
    rewrite Ei. discriminate. }
  unfold FNO.forward. rewrite E. reflexivity.
Qed.

End ForwardCalls.

Lemma forward_uses_first_blocks_witness :
  FNO.forward trace_concat (trace_layer "lifting") (trace_layer "projection")
    (fun _ => trace_layer "pad") (fun _ => trace_layer "unpad") trace_block
    net_example [("input"%string, [("x"%string, 0)])] =
  FNO.forward trace_concat (trace_layer "lifting") (trace_layer "projection")
    (fun _ => trace_layer "pad") (fun _ => trace_layer "unpad")
    (fun t index => if index <? 2 then trace_block t index else t)
    net_example [("input"%string, [("x"%string, 0)])].
Proof.
  apply (forward_uses_first_blocks trace trace_concat (trace_layer "lifting")
           (trace_layer "projection") (fun _ => trace_layer "pad")
           (fun _ => trace_layer "unpad") trace_block
           (fun t index => if index <? 2 then trace_block t index else t)
           net_example [("input"%string, [("x"%string, 0)])]).
  intros y i Hi. change (FNO.n_layers net_example) with 2%Z in Hi.
  destruct (Nat.ltb_spec i 2) as [_|Hge]; [reflexivity|lia].
Defined.

Lemma forward_without_padding_witness :
  let self := FNO.__init__ ["input"%string] ["output"%string] 2
                (FNO.PadList [binary64 1 (-1); binary64 (-1) (-1)]) "one-sided" in
  FNO.forward trace_concat (trace_layer "lifting") (trace_layer "projection")
    (fun _ => trace_layer "pad") (fun _ => trace_layer "unpad") trace_block
    self [("input"%string, [("x"%string, 0)])] =
  FNO.forward trace_concat (trace_layer "lifting") (trace_layer "projection")
    (fun _ t => t) (fun _ t => t) trace_block
    self [("input"%string, [("x"%string, 0)])].
Proof.
  apply (forward_without_padding trace trace_concat (trace_layer "lifting")
           (trace_layer "projection") (fun _ => trace_layer "pad")
           (fun _ => trace_layer "unpad") (fun _ t => t) (fun _ t => t)
           trace_block ["input"%string] ["output"%string] 2
           (FNO.PadList [binary64 1 (-1); binary64 (-1) (-1)]) "one-sided"
           [("input"%string, [("x"%string, 0)])]).
  intros [(l & H & Hp)|(q & H & _)]; [|discriminate].
  injection H as <-. vm_compute in Hp. discriminate.
Defined.

(** ** [eval_rmse_func] *)

Lemma sample_ok {A : Type} (x : tensor A) (B : nat) (sh : list nat) (i : nat) :
  shape x = B :: sh -> i < B -> Evaluation.sample x i = Ok (slice x i).
Proof.
  intros Hs Hi. unfold Evaluation.sample, getitem, slice. rewrite Hs.
  destruct (Nat.ltb_spec i B) as [_|Hge]; [|lia]. reflexivity.
Qed.

Lemma setitem_scalar (x : tensor Evaluation.score) (B i : nat)
    (r : Evaluation.score) :
  shape x = [B] -> i < B -> setitem x i (scalar r) = Ok (set_at x i r).
Proof.
  intros Hs Hi. unfold setitem, set_at. rewrite Hs.
  destruct (Nat.ltb_spec i B) as [_|Hge]; [|lia]. reflexivity.
Qed.

Lemma set_at_shape (x : tensor Evaluation.score) (i : nat) (r : Evaluation.score) :
  shape (set_at x i r) = shape x.
Proof. reflexivity. Qed.

Lemma set_at_same (x : tensor Evaluation.score) (i : nat) (r : Evaluation.score) :
  data (set_at x i r) [i] = r.
Proof. unfold set_at. cbn [data]. rewrite Nat.eqb_refl. reflexivity. Qed.

Lemma set_at_other (x : tensor Evaluation.score) (i j : nat)
    (r : Evaluation.score) :
  j <> i -> data (set_at x i r) [j] = data x [j].
Proof.
  intros Hne. unfold set_at. cbn [data].
  destruct (Nat.eqb_spec j i) as [E|_]; [contradiction|reflexivity].
Qed.

Lemma getitem2_lookup (ret : ret_dict) (k : key) (name : string) :
  Evaluation.getitem2 ret k name =
  match lookup ret k name with
  | Some v => Ok v
  | None => Raise KeyError
  end.
Proof.
  unfold Evaluation.getitem2, Evaluation.getkey, lookup.
  destruct (dict_get key_eqb ret k) as [inner|]; reflexivity.
Qed.

(** One round of assignments when every score read is a float. *)
Lemma record_scores_ok (ret : ret_dict) (c : Evaluation.columns) (B i : nat)
    (m r219 r181 r160 r133 r74 r16 : R) :
  columns_of_length c B -> i < B ->
  lookup ret (KStr "avg") "csi" = Some (VFloat m) ->
  lookup ret (KInt 219) "csi" = Some (VFloat r219) ->
  lookup ret (KInt 181) "csi" = Some (VFloat r181) ->
  lookup ret (KInt 160) "csi" = Some (VFloat r160) ->
  lookup ret (KInt 133) "csi" = Some (VFloat r133) ->
  lookup ret (KInt 74) "csi" = Some (VFloat r74) ->
  lookup ret (KInt 16) "csi" = Some (VFloat r16) ->
  Evaluation.record_scores i ret c =
  Ok (Evaluation.mkColumns
        (set_at (Evaluation.csi_loss c) i (Some (- m)%R))
        (set_at (Evaluation.csi_m c) i (Some m))
        (set_at (Evaluation.csi_219 c) i (Some r219))
        (set_at (Evaluation.csi_181 c) i (Some r181))
        (set_at (Evaluation.csi_160 c) i (Some r160))
        (set_at (Evaluation.csi_133 c) i (Some r133))
        (set_at (Evaluation.csi_74 c) i (Some r74))
        (set_at (Evaluation.csi_16 c) i (Some r16))).
Proof.
  intros (S1 & S2 & S3 & S4 & S5 & S6 & S7 & S8) Hi Hm H219 H181 H160 H133 H74 H16.
  unfold Evaluation.record_scores. rewrite !getitem2_lookup.
  rewrite Hm, H219, H181, H160, H133, H74, H16. cbn [bind Evaluation.to_tensor].
  change (Evaluation.neg (scalar (Some m))) with (scalar (Some (- m)%R)).
  rewrite (setitem_scalar _ B i _ S1 Hi). cbn [bind].
  rewrite (setitem_scalar _ B i _ S2 Hi). cbn [bind].
  rewrite (setitem_scalar _ B i _ S3 Hi). cbn [bind].
  rewrite (setitem_scalar _ B i _ S4 Hi). cbn [bind].
  rewrite (setitem_scalar _ B i _ S5 Hi). cbn [bind].
  rewrite (setitem_scalar _ B i _ S6 Hi). cbn [bind].
  rewrite (setitem_scalar _ B i _ S7 Hi). cbn [bind].
  rewrite (setitem_scalar _ B i _ S8 Hi). reflexivity.
Qed.

(** One round of assignments when a score read is missing, every score
    that is present being a float. *)
Lemma record_scores_raises (ret : ret_dict) (c : Evaluation.columns) (B i : nat) :
  columns_of_length c B -> i < B ->
  (forall k, lookup ret k "csi" = None \/
             exists r, lookup ret k "csi" = Some (VFloat r)) ->
  (exists k, In k keys_read /\ lookup ret k "csi" = None) ->
  Evaluation.record_scores i ret c = Raise KeyError.
Proof.
  intros (S1 & S2 & S3 & S4 & S5 & S6 & S7 & S8) Hi Hall (k & Hin & Hk).
  unfold Evaluation.record_scores. rewrite !getitem2_lookup.
  destruct (Hall (KStr "avg")) as [E|(m & E)]; rewrite E; [reflexivity|].
  cbn [bind Evaluation.to_tensor].
  change (Evaluation.neg (scalar (Some m))) with (scalar (Some (- m)%R)).
  rewrite (setitem_scalar _ B i _ S1 Hi). cbn [bind].
  rewrite (setitem_scalar _ B i _ S2 Hi). cbn [bind].
  destruct (Hall (KInt 219)) as [E1|(r1 & E1)]; rewrite E1; [reflexivity|].
  cbn [bind Evaluation.to_tensor]. rewrite (setitem_scalar _ B i _ S3 Hi). cbn [bind].
  destruct (Hall (KInt 181)) as [E2|(r2 & E2)]; rewrite E2; [reflexivity|].
  cbn [bind Evaluation.to_tensor]. rewrite (setitem_scalar _ B i _ S4 Hi). cbn [bind].
  destruct (Hall (KInt 160)) as [E3|(r3 & E3)]; rewrite E3; [reflexivity|].
  cbn [bind Evaluation.to_tensor]. rewrite (setitem_scalar _ B i _ S5 Hi). cbn [bind].
  destruct (Hall (KInt 133)) as [E4|(r4 & E4)]; rewrite E4; [reflexivity|].
  cbn [bind Evaluation.to_tensor]. rewrite (setitem_scalar _ B i _ S6 Hi). cbn [bind].
  destruct (Hall (KInt 74)) as [E5|(r5 & E5)]; rewrite E5; [reflexivity|].
  cbn [bind Evaluation.to_tensor]. rewrite (setitem_scalar _ B i _ S7 Hi). cbn [bind].
  destruct (Hall (KInt 16)) as [E6|(r6 & E6)]; rewrite E6; [reflexivity|].
  exfalso. unfold keys_read in Hin. cbn [In] in Hin.
  destruct Hin as [<-|[<-|[<-|[<-|[<-|[<-|[<-|[]]]]]]]]; congruence.
Qed.

(** What a call of [compute] in mode "0" returns under the name "csi". *)
Lemma compute_csi_lookups
    (process_data_dict_back : tensor spec_float -> tensor spec_float)
    (self : SEVIRSkillScore) (pred target : tensor spec_float) :
  mode self = "0"%string ->
  keep_seq_len_dim self = false ->
  preprocess_type self = "sevir"%string ->
  state_1d self (List.length (threshold_list self)) ->
  threshold_list self <> [] ->
  (forall name, In name (metrics_list self) -> In name known_metrics) ->
  shape (process_data_dict_back target) = shape (process_data_dict_back pred) ->
  String.length (layout self) = ndim (process_data_dict_back target) ->
  exists self' ret,
    compute process_data_dict_back pred target self = (self', Ok ret) /\
    same_config self self' /\
    state_1d self' (List.length (threshold_list self)) /\
    (forall k, lookup ret k "csi" = None \/
               exists r, lookup ret k "csi" = Some (VFloat r)) /\
    (~ In "csi"%string (metrics_list self) ->
     forall k, lookup ret k "csi" = None) /\
    (forall T, ~ In T (threshold_list self) ->
               lookup ret (KInt T) "csi" = None) /\
    (In "csi"%string (metrics_list self) ->
     lookup ret (KStr "avg") "csi" = Some (VFloat (mean_score self' "csi")) /\
     forall T, In T (threshold_list self) ->
       exists j, j < List.length (threshold_list self) /\
                 nth j (threshold_list self) 0%Z = T /\
                 lookup ret (KInt T) "csi" =
                   Some (VFloat (threshold_score self' "csi" j))).
Proof.
  intros Hmode Hkeep Hpre Hstate Hne Hknown Hshape Hrank.
  destruct (compute_accumulates process_data_dict_back self pred target
              Hkeep Hpre Hstate Hshape Hrank) as (self' & Hc & C & S & _).
  pose proof C as (_ & _ & Ct & Cm & _ & Cmode & _ & Ck).
  destruct (scores_of_mode0 self' (List.length (threshold_list self)))
    as (ret & Hs & Hkeys & Hnone & Hall).
  - congruence.
  - congruence.
  - exact S.
  - congruence.
  - destruct (threshold_list self); [congruence|discriminate].
  - rewrite <- Cm. exact Hknown.
  - rewrite <- Ct, <- Cm in *.
    assert (Habsent : forall k,
              ~ (k = KStr "avg" \/
                 exists thr, In thr (threshold_list self) /\ k = KInt thr) ->
              lookup ret k "csi" = None).
    { intros k Hk. unfold lookup.
      destruct (dict_get key_eqb ret k) eqn:E; [|reflexivity].
      exfalso. apply Hk. apply Hkeys. rewrite E. discriminate. }
    exists self', ret. rewrite Hc, Hs.
    split; [reflexivity|]. split; [exact C|]. split; [exact S|].
    split; [|split; [|split]].
    + intros k. destruct (in_dec string_dec "csi"%string (metrics_list self))
        as [Hin|Hnin]; [|left; apply Hnone; exact Hnin].
      destruct (Hall "csi"%string Hin) as [Hthr Havg].
      destruct k as [T|name].
      * destruct (in_dec Z.eq_dec T (threshold_list self)) as [HT|HT].
        -- destruct (Hthr T HT) as (j & _ & _ & Hl). right. eexists. exact Hl.
        -- left. apply Habsent. intros [E|(thr & Hthr' & E)]; [discriminate|].
           injection E as ->. contradiction.
      * destruct (string_dec name "avg") as [->|Hna].
        -- right. eexists. exact Havg.
        -- left. apply Habsent. intros [E|(thr & _ & E)]; [|discriminate].
           injection E as ->. contradiction.
    + intros Hnin k. apply Hnone. exact Hnin.
    + intros T HT. apply Habsent. intros [E|(thr & Hthr' & E)]; [discriminate|].
      injection E as ->. contradiction.
    + intros Hin. destruct (Hall "csi"%string Hin) as [Hthr Havg].
      split; [exact Havg|exact Hthr].
Qed.

Lemma instance_of_init (self : Evaluation.eval_rmse_func) :
  Evaluation.metrics_mode self = "0"%string ->
  __init__ (Evaluation.layout self) (Evaluation.metrics_mode self)
    (Some (Evaluation.out_len self)) "sevir" (Evaluation.threshold_list self)
    (Evaluation.metrics_list self) (1 / 10000)%R = Ok (instance_of self).
Proof.
  intros Hm. rewrite Hm. reflexivity.
Qed.

Lemma running_next
    (process_data_dict_back : tensor spec_float -> tensor spec_float)
    (self : Evaluation.eval_rmse_func) (pred target : tensor spec_float) (a : nat) :
  running process_data_dict_back self pred target (S a) =
  fst (compute process_data_dict_back (slice pred a) (slice target a)
         (running process_data_dict_back self pred target a)).
Proof.
  unfold running, samples, after_calls.
  rewrite seq_S, map_app, fold_left_app. reflexivity.
Qed.

Section EvaluationRounds.

Variable process_data_dict_back : tensor spec_float -> tensor spec_float.
Variable self : Evaluation.eval_rmse_func.
Variables pred vil_target : tensor spec_float.
Variable B : nat.
Variable sh : list nat.

Let n := List.length (Evaluation.threshold_list self).
Let run := running process_data_dict_back self pred vil_target.

Hypothesis Hknown :
  forall name, In name (Evaluation.metrics_list self) -> In name known_metrics.
Hypothesis Hcsi : In "csi"%string (Evaluation.metrics_list self).
Hypothesis Hthr :
  forall T, In T [219; 181; 160; 133; 74; 16]%Z ->
            In T (Evaluation.threshold_list self).
Hypothesis Hp : shape pred = B :: sh.
Hypothesis Ht : shape vil_target = B :: sh.
Hypothesis Hfit :
  forall i, i < B ->
    batch_fits process_data_dict_back (instance_of self)
      (slice pred i, slice vil_target i).

(** The rounds from sample [a] on, started on the instance that the
    first [a] samples have left. *)
Lemma rounds_ok :
  forall k a c,
    a + k = B ->
    same_config (instance_of self) (run a) ->
    state_1d (run a) n ->
    columns_of_length c B ->
    (forall i, i < a ->
       scored_at process_data_dict_back self pred vil_target c i) ->
    exists c',
      foldM (Evaluation.round process_data_dict_back pred vil_target)
        (seq a k) (run a, c) = Ok (run B, c') /\
      columns_of_length c' B /\
      forall i, i < B ->
        scored_at process_data_dict_back self pred vil_target c' i.
Proof.
  induction k as [|k IH]; intros a c Hak C St Hc Hdone.
  - exists c. replace a with B in * by lia.
    split; [reflexivity|]. split; [exact Hc|exact Hdone].
  - assert (Ha : a < B) by lia.
    pose proof C as (Cl & Cp & Ct & Cm & _ & Cmode & _ & Ck).
    cbn [instance_of layout preprocess_type threshold_list metrics_list mode
           keep_seq_len_dim] in Cl, Cp, Ct, Cm, Cmode, Ck.
    destruct (Hfit a Ha) as [Fs Fr]. cbn [fst snd instance_of layout] in Fs, Fr.
    destruct (compute_csi_lookups process_data_dict_back (run a)
                (slice pred a) (slice vil_target a))
      as (self' & ret & Hcomp & C' & St' & _ & _ & _ & Hval).
    + congruence.
    + congruence.
    + congruence.
    + rewrite <- Ct. exact St.
    + rewrite <- Ct. intros E. apply (in_nil (a := 219%Z)). rewrite <- E.
      apply Hthr. left. reflexivity.
    + rewrite <- Cm. exact Hknown.
    + exact Fs.
    + rewrite <- Cl. exact Fr.
    + rewrite <- Ct, <- Cm in *. fold n in St'.
      destruct (Hval Hcsi) as [Havg Hone].
      destruct (Hone 219%Z) as (j1 & J1 & N1 & L1);
        [apply Hthr; cbn [In]; tauto|].
      destruct (Hone 181%Z) as (j2 & J2 & N2 & L2);
        [apply Hthr; cbn [In]; tauto|].
      destruct (Hone 160%Z) as (j3 & J3 & N3 & L3);
        [apply Hthr; cbn [In]; tauto|].
      destruct (Hone 133%Z) as (j4 & J4 & N4 & L4);
        [apply Hthr; cbn [In]; tauto|].
      destruct (Hone 74%Z) as (j5 & J5 & N5 & L5);
        [apply Hthr; cbn [In]; tauto|].
      destruct (Hone 16%Z) as (j6 & J6 & N6 & L6);
        [apply Hthr; cbn [In]; tauto|].
      assert (Hnext : run (S a) = self').
      { unfold run. rewrite running_next. fold run. rewrite Hcomp. reflexivity. }
      set (c1 := Evaluation.mkColumns
                   (set_at (Evaluation.csi_loss c) a
                      (Some (- mean_score self' "csi")%R))
                   (set_at (Evaluation.csi_m c) a (Some (mean_score self' "csi")))
                   (set_at (Evaluation.csi_219 c) a
                      (Some (threshold_score self' "csi" j1)))
                   (set_at (Evaluation.csi_181 c) a
                      (Some (threshold_score self' "csi" j2)))
                   (set_at (Evaluation.csi_160 c) a
                      (Some (threshold_score self' "csi" j3)))
                   (set_at (Evaluation.csi_133 c) a
                      (Some (threshold_score self' "csi" j4)))
                   (set_at (Evaluation.csi_74 c) a
                      (Some (threshold_score self' "csi" j5)))
                   (set_at (Evaluation.csi_16 c) a
                      (Some (threshold_score self' "csi" j6)))).
      destruct (IH (S a) c1) as (c' & Hloop & Hc' & Hall).
      * lia.
      * rewrite Hnext. eapply same_config_trans; [exact C|exact C'].
      * rewrite Hnext. exact St'.
      * destruct Hc as (S1 & S2 & S3 & S4 & S5 & S6 & S7 & S8).
        unfold columns_of_length, c1.
        cbn [Evaluation.csi_loss Evaluation.csi_m Evaluation.csi_219
               Evaluation.csi_181 Evaluation.csi_160 Evaluation.csi_133
               Evaluation.csi_74 Evaluation.csi_16].
        rewrite !set_at_shape. repeat split; assumption.
      * intros i Hi. destruct (Nat.eq_dec i a) as [->|Hne].
        -- unfold scored_at. fold run. rewrite Hnext. unfold c1.
           cbn [Evaluation.csi_loss Evaluation.csi_m].
           rewrite !set_at_same.
           split; [reflexivity|]. split; [reflexivity|].
           intros col T Hin. unfold threshold_columns in Hin.
           destruct Hin as [E|[E|[E|[E|[E|[E|[]]]]]]]; injection E as <- <-;
             cbn [Evaluation.csi_219 Evaluation.csi_181 Evaluation.csi_160
                    Evaluation.csi_133 Evaluation.csi_74 Evaluation.csi_16];
             rewrite set_at_same; eexists; (split; [|split; [|reflexivity]]);
             assumption.
        -- assert (Hlt : i < a) by lia.
           destruct (Hdone i Hlt) as (D1 & D2 & D3).
           unfold scored_at, c1.
           cbn [Evaluation.csi_loss Evaluation.csi_m].
           rewrite !set_at_other by exact Hne.
           split; [exact D1|]. split; [exact D2|].
           intros col T Hin. destruct (D3 col T Hin) as (j & Hj & Hn & Hd).
           exists j. split; [exact Hj|]. split; [exact Hn|].
           rewrite <- Hd. unfold threshold_columns in Hin.
           destruct Hin as [E|[E|[E|[E|[E|[E|[]]]]]]]; injection E as <- _;
             cbn [Evaluation.csi_219 Evaluation.csi_181 Evaluation.csi_160
                    Evaluation.csi_133 Evaluation.csi_74 Evaluation.csi_16];
             apply set_at_other; exact Hne.
      * exists c'. split; [|split; [exact Hc'|exact Hall]].
        cbn [seq foldM]. unfold Evaluation.round at 1.
        rewrite (sample_ok pred B sh a Hp Ha), (sample_ok vil_target B sh a Ht Ha).
        cbn [bind]. rewrite Hcomp.
        rewrite (record_scores_ok ret c B a _ _ _ _ _ _ _ Hc Ha Havg L1 L2 L3 L4 L5 L6).
        cbn [bind]. fold c1. rewrite <- Hnext. exact Hloop.
Qed.

End EvaluationRounds.

(** X15: in mode "0", with known metrics that include "csi" and a
    threshold list that holds 16, 74, 133, 160, 181 and 219, on a
    prediction and a target of one shape whose samples fit the layout,
    [eval_rmse_func.__call__] returns its ten entries.  A single
    instance scores every sample, so the entries at position [i] are
    running scores: [csi_m[i]] is the average CSI of the counts that the
    calls of [compute] on the samples 0, ..., i have accumulated
    together in the float32 state, [valid_loss_epoch[i]] is its negation
    and [csi_T[i]] is the CSI of these counts for the threshold [T]. *)
Theorem eval_scores_are_running
    (process_data_dict_back : tensor spec_float -> tensor spec_float)
    (L : Type)
    (reshape_leading : tensor spec_float -> result (tensor spec_float))
    (l1_loss_mean mse_loss_mean :
       tensor spec_float -> tensor spec_float -> result L)
    (self : Evaluation.eval_rmse_func)
    (output_dict label_dict : dict string (tensor spec_float))
    (pred label vil_target : tensor spec_float) (mae mse : L)
    (B : nat) (sh : list nat) :
  Evaluation.metrics_mode self = "0"%string ->
  (forall name, In name (Evaluation.metrics_list self) ->
                In name known_metrics) ->
  In "csi"%string (Evaluation.metrics_list self) ->
  (forall T, In T [219; 181; 160; 133; 74; 16]%Z ->
             In T (Evaluation.threshold_list self)) ->
  Evaluation.getkey output_dict "vil" = Ok pred ->
  Evaluation.getkey label_dict "vil" = Ok label ->
  reshape_leading label = Ok vil_target ->
  l1_loss_mean pred vil_target = Ok mae ->
  mse_loss_mean pred vil_target = Ok mse ->
  shape pred = B :: sh ->
  shape vil_target = B :: sh ->
  (forall i, i < B ->
     batch_fits process_data_dict_back (instance_of self)
       (slice pred i, slice vil_target i)) ->
  exists c,
    Evaluation.__call__ process_data_dict_back reshape_leading l1_loss_mean
      mse_loss_mean self output_dict label_dict = Ok (outputs c mse mae) /\
    columns_of_length c B /\
    forall i, i < B ->
      scored_at process_data_dict_back self pred vil_target c i.
Proof.
  intros Hmode Hknown Hcsi Hthr Hout Hlab Hre Hl1 Hmse Hp Ht Hfit.
  set (z := Evaluation.rzeros B).
  destruct (rounds_ok process_data_dict_back self pred vil_target B sh
              Hknown Hcsi Hthr Hp Ht Hfit B 0
              (Evaluation.mkColumns z z z z z z z z))
    as (c & Hloop & Hc & Hall).
  - reflexivity.
  - apply same_config_refl.
  - repeat split.
  - repeat split.
  - intros i Hi. lia.
  - exists c. split; [|split; [exact Hc|exact Hall]].
    unfold Evaluation.__call__. rewrite Hout, Hlab. cbn [bind].
    rewrite Hre. cbn [bind]. rewrite Hl1, Hmse. cbn [bind].
    rewrite (instance_of_init self Hmode), Hp. cbn [bind]. fold z.
    unfold range.
    change (instance_of self)
      with (running process_data_dict_back self pred vil_target 0).
    rewrite Hloop. reflexivity.
Qed.

Lemma eval_scores_are_running_witness :
  exists c,
    Evaluation.__call__ (fun x => x) (fun x => Ok x) (fun _ _ => Ok tt)
      (fun _ _ => Ok tt) eval_example
      [("vil"%string, batch_example 20 30)]
      [("vil"%string, batch_example 20 10)] = Ok (outputs c tt tt) /\
    columns_of_length c 2 /\
    forall i, i < 2 ->
      scored_at (fun x => x) eval_example (batch_example 20 30)
        (batch_example 20 10) c i.
Proof.
  apply (eval_scores_are_running (fun x => x) unit (fun x => Ok x)
           (fun _ _ => Ok tt) (fun _ _ => Ok tt) eval_example
           [("vil"%string, batch_example 20 30)]
           [("vil"%string, batch_example 20 10)]
           (batch_example 20 30) (batch_example 20 10) (batch_example 20 10)
           tt tt 2 [1; 1; 2]); try reflexivity.
  - intros name [<-|[]]. right. left. reflexivity.
  - left. reflexivity.
  - intros T HT. cbn [In] in HT. unfold eval_example.
    cbn [Evaluation.threshold_list In]. intuition.
  - intros i Hi. split; reflexivity.
Defined.

(** X16: the thresholds and the metric that [eval_rmse_func.__call__]
    reads are fixed in its body: in mode "0", when "csi" is not among
    the metrics or one of 16, 74, 133, 160, 181 and 219 is not among the
    thresholds, a call on a batch with at least one sample raises
    KeyError, although [compute] itself accepts the configuration. *)
Theorem eval_requires_csi_and_thresholds
    (process_data_dict_back : tensor spec_float -> tensor spec_float)
    (L : Type)
    (reshape_leading : tensor spec_float -> result (tensor spec_float))
    (l1_loss_mean mse_loss_mean :
       tensor spec_float -> tensor spec_float -> result L)
    (self : Evaluation.eval_rmse_func)
    (output_dict label_dict : dict string (tensor spec_float))
    (pred label vil_target : tensor spec_float) (mae mse : L)
    (B : nat) (sh : list nat) :
  Evaluation.metrics_mode self = "0"%string ->
  Evaluation.threshold_list self <> [] ->
  (forall name, In name (Evaluation.metrics_list self) ->
                In name known_metrics) ->
  (~ In "csi"%string (Evaluation.metrics_list self) \/
   exists T, In T [219; 181; 160; 133; 74; 16]%Z /\
             ~ In T (Evaluation.threshold_list self)) ->
  Evaluation.getkey output_dict "vil" = Ok pred ->
  Evaluation.getkey label_dict "vil" = Ok label ->
  reshape_leading label = Ok vil_target ->
  l1_loss_mean pred vil_target = Ok mae ->
  mse_loss_mean pred vil_target = Ok mse ->
  shape pred = S B :: sh ->
  shape vil_target = S B :: sh ->
  batch_fits process_data_dict_back (instance_of self)
    (slice pred 0, slice vil_target 0) ->
  Evaluation.__call__ process_data_dict_back reshape_leading l1_loss_mean
    mse_loss_mean self output_dict label_dict = Raise KeyError.
Proof.
  intros Hmode Hne Hknown Hmiss Hout Hlab Hre Hl1 Hmse Hp Ht [Fs Fr].
  cbn [fst snd instance_of layout] in Fs, Fr.
  destruct (compute_csi_lookups process_data_dict_back (instance_of self)
              (slice pred 0) (slice vil_target 0))
    as (self' & ret & Hcomp & _ & _ & Hall & Hnone & Habs & _);
    try reflexivity; try assumption.
  { repeat split. }
  cbn [instance_of metrics_list threshold_list] in Hnone, Habs.
  unfold Evaluation.__call__. rewrite Hout, Hlab. cbn [bind].
  rewrite Hre. cbn [bind]. rewrite Hl1, Hmse. cbn [bind].
  rewrite (instance_of_init self Hmode), Hp. cbn [bind].
  unfold range. cbn [seq foldM]. unfold Evaluation.round at 1.
  assert (H0 : 0 < S B) by lia.
  rewrite (sample_ok pred (S B) sh 0 Hp H0),
    (sample_ok vil_target (S B) sh 0 Ht H0).
  cbn [bind]. rewrite Hcomp.
  rewrite (record_scores_raises ret _ (S B) 0); [reflexivity| |exact H0|exact Hall|].
  - repeat split.
  - destruct Hmiss as [Hcsi|(T & HT & Hnot)].
    + exists (KStr "avg"). split; [left; reflexivity|]. apply Hnone. exact Hcsi.
    + exists (KInt T). split; [|apply Habs; exact Hnot].
      unfold keys_read. cbn [In] in HT |- *.
      destruct HT as [<-|[<-|[<-|[<-|[<-|[<-|[]]]]]]]; tauto.
Qed.

Lemma eval_requires_csi_and_thresholds_witness :
  Evaluation.__call__ (fun x => x) (fun x => Ok x) (fun _ _ => Ok tt)
    (fun _ _ => Ok tt) eval_without_219
    [("vil"%string, batch_example 20 30)]
    [("vil"%string, batch_example 20 10)] = Raise KeyError.
Proof.
  apply (eval_requires_csi_and_thresholds (fun x => x) unit (fun x => Ok x)
           (fun _ _ => Ok tt) (fun _ _ => Ok tt) eval_without_219
           [("vil"%string, batch_example 20 30)]
           [("vil"%string, batch_example 20 10)]
           (batch_example 20 30) (batch_example 20 10) (batch_example 20 10)
           tt tt 1 [1; 1; 2]); try reflexivity.
  - discriminate.
  - intros name [<-|[]]. right. left. reflexivity.
  - right. exists 219%Z. split; [left; reflexivity|].
    unfold eval_without_219. cbn [Evaluation.threshold_list In].
    intros H. decompose [or] H; try discriminate; assumption.
  - split; reflexivity.
Defined.

(** ** The sequence dimension with a single step *)

Lemma iadd_item_one (x v : tensor Z) (n i : nat) :
  shape x = [n] -> i < n -> shape v = [1] ->
  iadd_item x i v = Ok (bump x i (data v [0])).
Proof.
  intros Hx Hi Hv. unfold iadd_item, getitem, bump. rewrite Hx.
  apply Nat.ltb_lt in Hi. rewrite Hi. cbn [bind].
  unfold tzip, tmap. cbn [shape]. rewrite Hv.
  unfold shape_eqb. destruct (list_eq_dec Nat.eq_dec [] [1]); [discriminate|].
  cbn [bind]. unfold setitem. rewrite Hx, Hi. cbn [negb shape dims_match strip_ones].
  f_equal. f_equal. apply functional_extensionality. intros idx.
  destruct idx as [|j idx']; [reflexivity|].
  destruct (j =? i); [|reflexivity]. cbn [data].
  unfold bcast_index. cbn [rev app]. destruct (rev idx'); reflexivity.
Qed.

Lemma accumulate_step_one (self : SEVIRSkillScore)
    (pred target : tensor spec_float) (n i : nat) (threshold : Z) :
  keep_seq_len_dim self = true ->
  shape target = shape pred ->
  String.length (layout self) = ndim target ->
  (0 <= find (layout self) "T"%char)%Z ->
  2 <= String.length (layout self) ->
  nth (Z.to_nat (find (layout self) "T"%char)) (shape target) 0 = 1 ->
  state_1d self n ->
  i < n ->
  accumulate_step pred target (i, threshold) self =
  (add_batch self i (step_counts self pred target threshold), Ok tt).
Proof.
  intros K E Hrank HT Hlen Hone (Hh & Hm & Hf) Hi.
  destruct (calc_keep_seq_shapes self pred target threshold K E Hrank HT Hlen)
    as (h & m & f & Hc & Sh & Sm & Sf).
  rewrite Hone in Sh, Sm, Sf.
  unfold accumulate_step, step_counts, mbind, reads. rewrite Hc.
  unfold iadd_field at 1.
  rewrite (iadd_item_one (hits self) h n i Hh Hi Sh).
  unfold iadd_field at 1. cbn [set_hits misses].
  rewrite (iadd_item_one (misses self) m n i Hm Hi Sm).
  unfold iadd_field at 1. cbn [set_misses set_hits fas].
  rewrite (iadd_item_one (fas self) f n i Hf Hi Sf).
  reflexivity.
Qed.

Lemma accumulated_with_config (cnt : Z -> Z * Z * Z) (items : list (nat * Z)) :
  forall self n,
    state_1d self n ->
    same_config self (accumulated_with cnt items self) /\
    state_1d (accumulated_with cnt items self) n.
Proof.
  induction items as [|it items IH]; intros self n H; simpl.
  - split; [apply same_config_refl|exact H].
  - destruct (IH (add_batch self (fst it) (cnt (snd it))) n) as [C St];
      [apply add_batch_state; exact H|].
    split; [|exact St].
    eapply same_config_trans; [apply add_batch_config|exact C].
Qed.

(** The first loop of [compute] when the sequence dimension is kept and
    has one step. *)
Lemma accumulate_loop_one (self0 : SEVIRSkillScore)
    (pred target : tensor spec_float) (n : nat) (items : list (nat * Z)) :
  keep_seq_len_dim self0 = true ->
  shape target = shape pred ->
  String.length (layout self0) = ndim target ->
  (0 <= find (layout self0) "T"%char)%Z ->
  2 <= String.length (layout self0) ->
  nth (Z.to_nat (find (layout self0) "T"%char)) (shape target) 0 = 1 ->
  (forall it, In it items -> fst it < n) ->
  forall self,
    same_config self0 self -> state_1d self n ->
    for_each items (accumulate_step pred target) self =
    (accumulated_with (step_counts self0 pred target) items self, Ok tt).
Proof.
  intros K E Hrank HT Hlen Hone.
  induction items as [|[i thr] items IH]; intros Hi self C St.
  - reflexivity.
  - cbn [for_each]. unfold mbind.
    pose proof C as (L & C1 & C2 & C3 & C4 & C5 & C6 & C7).
    assert (Hin : i < n) by (apply (Hi (i, thr)); left; reflexivity).
    assert (K' : keep_seq_len_dim self = true) by congruence.
    assert (Hrank' : String.length (layout self) = ndim target) by congruence.
    assert (HT' : (0 <= find (layout self) "T"%char)%Z) by (rewrite <- L; exact HT).
    assert (Hlen' : 2 <= String.length (layout self)) by (rewrite <- L; exact Hlen).
    assert (Hone' : nth (Z.to_nat (find (layout self) "T"%char)) (shape target) 0 = 1)
      by (rewrite <- L; exact Hone).
    rewrite (accumulate_step_one self pred target n i thr K' E Hrank' HT' Hlen'
               Hone' St Hin).
    assert (Bc : step_counts self pred target thr =
                 step_counts self0 pred target thr).
    { unfold step_counts.
      rewrite (calc_same_layout self self0) by congruence. reflexivity. }
    rewrite Bc. apply IH.
    + intros it Hit. apply Hi. right. exact Hit.
    + eapply same_config_trans; [exact C|apply add_batch_config].
    + apply add_batch_state. exact St.
Qed.

Lemma store_keep (m : string) (ret : ret_dict) (k : key) (name : string)
    (v : value) :
  m = "1"%string \/ m = "2"%string ->
  store m ret k name v = set_entry ret k name (stored m v).
Proof. intros [->| ->]; reflexivity. Qed.

Section ScoresWithSequence.

(** The second part of [compute] in the modes "1" and "2", on counts
    with one entry per threshold. *)
Variable self : SEVIRSkillScore.
Variable n : nat.
Variable z : Z.
Hypothesis Hmode : mode self = "1"%string \/ mode self = "2"%string.
Hypothesis Hkeep : keep_seq_len_dim self = true.
Hypothesis Hseq : seq_len self = Some z.
Hypothesis Hz : (0 <= z)%Z.
Hypothesis Hstate : state_1d self n.
Hypothesis Hn : List.length (threshold_list self) = n.
Hypothesis Hpos : 0 < n.

Let len := Z.to_nat z.

Lemma threshold_step_keep (name : string) (scores : tensor R) (ret : ret_dict)
    (acc : R) (i : nat) (thr : Z) :
  shape scores = [n] ->
  i < n ->
  dict_get key_eqb ret (KInt thr) <> None ->
  exists ret',
    threshold_step self name scores (ret, VArray (constant len acc)) (i, thr) =
      Ok (ret', VArray (constant len (acc + data scores [i]))) /\
    same_keys ret ret' /\
    forall k' name',
      lookup ret' k' name' =
      if key_eqb (KInt thr) k' && String.eqb name name'
      then Some (stored (mode self) (VArray (row scores i)))
      else lookup ret k' name'.
Proof.
  intros Hshape Hi Hk.
  destruct (set_entry_ok ret (KInt thr) name
              (stored (mode self) (VArray (row scores i))) Hk)
    as (ret' & Hset & Hkeys & Hlook).
  exists ret'. split; [|split; assumption].
  unfold threshold_step. rewrite Hkeep.
  unfold score_at, getitem. rewrite Hshape.
  apply Nat.ltb_lt in Hi. rewrite Hi. cbn [bind].
  rewrite (store_keep _ _ _ _ _ Hmode). fold (row scores i).
  rewrite Hset. reflexivity.
Qed.

Lemma threshold_loop_keep (name : string) (scores : tensor R) (l : list Z) :
  shape scores = [n] ->
  forall (a : nat) (ret : ret_dict) (acc : R),
    a + List.length l <= n ->
    (forall thr, In thr l -> dict_get key_eqb ret (KInt thr) <> None) ->
    exists ret',
      foldM (threshold_step self name scores)
        (combine (seq a (List.length l)) l) (ret, VArray (constant len acc)) =
        Ok (ret',
            VArray (constant len
                      (acc + rsum (map (fun j => data scores [j])
                                     (seq a (List.length l)))))) /\
      same_keys ret ret' /\
      (forall k' name', name' <> name ->
         lookup ret' k' name' = lookup ret k' name') /\
      (forall k', (forall thr, In thr l -> k' <> KInt thr) ->
         lookup ret' k' name = lookup ret k' name) /\
      (forall thr, In thr l ->
         exists j, a <= j < a + List.length l /\ nth (j - a) l 0%Z = thr /\
                   lookup ret' (KInt thr) name =
                     Some (stored (mode self) (VArray (row scores j)))).
Proof.
  intros Hshape. induction l as [|thr0 l IH]; intros a ret acc Ha Hk.
  - exists ret. cbn [List.length seq combine foldM map rsum fold_right].
    rewrite Rplus_0_r. split; [reflexivity|]. split; [apply same_keys_refl|].
    split; [reflexivity|]. split; [reflexivity|]. intros thr [].
  - cbn [List.length] in Ha.
    destruct (threshold_step_keep name scores ret acc a thr0 Hshape)
      as (ret1 & Hstep & Hkeys1 & Hlook1);
      [lia|apply Hk; left; reflexivity|].
    destruct (IH (S a) ret1 (acc + data scores [a])%R) as
      (ret' & Hloop & Hkeys & Hother & Hrest & Hthr); [lia| |].
    { intros thr Hin. rewrite <- (Hkeys1 (KInt thr)). apply Hk. right. exact Hin. }
    exists ret'. cbn [List.length seq combine foldM]. rewrite Hstep. cbn [bind].
    rewrite Hloop. cbn [map rsum fold_right].
    fold (rsum (map (fun j => data scores [j]) (seq (S a) (List.length l)))).
    rewrite Rplus_assoc. split; [reflexivity|].
    split; [eapply same_keys_trans; eassumption|].
    split; [|split].
    + intros k' name' Hne. rewrite (Hother k' name' Hne), Hlook1.
      destruct (String.eqb_spec name name') as [E|E]; [congruence|].
      rewrite andb_false_r. reflexivity.
    + intros k' Hk'. rewrite Hrest, Hlook1.
      * destruct (key_eqb (KInt thr0) k') eqn:E; [|reflexivity].
        apply key_eqb_eq in E. exfalso. apply (Hk' thr0); [left; reflexivity|].
        congruence.
      * intros thr Hin. apply Hk'. right. exact Hin.
    + intros thr Hin. destruct (in_dec Z.eq_dec thr l) as [Hl|Hl].
      * destruct (Hthr thr Hl) as (j & Hj & Hnth & Hlk).
        exists j. split; [lia|]. split; [|exact Hlk].
        replace (j - a) with (S (j - S a)) by lia. exact Hnth.
      * destruct Hin as [->|Hin]; [|contradiction].
        exists a. split; [lia|]. split; [rewrite Nat.sub_diag; reflexivity|].
        rewrite Hrest, Hlook1.
        -- replace (key_eqb (KInt thr) (KInt thr)) with true
             by (symmetry; apply key_eqb_eq; reflexivity).
           rewrite String.eqb_refl. reflexivity.
        -- intros thr' Hin' E. injection E as ->. contradiction.
Qed.

Lemma metric_step_keep (name : string) (ret : ret_dict) :
  In name known_metrics ->
  (forall thr, In thr (threshold_list self) ->
               dict_get key_eqb ret (KInt thr) <> None) ->
  dict_get key_eqb ret (KStr "avg") <> None ->
  exists ret',
    metric_step self ret name = Ok ret' /\
    same_keys ret ret' /\
    (forall k' name', name' <> name ->
       lookup ret' k' name' = lookup ret k' name') /\
    (forall thr, In thr (threshold_list self) ->
       exists j, j < n /\ nth j (threshold_list self) 0%Z = thr /\
                 lookup ret' (KInt thr) name =
                   Some (stored (mode self) (VArray (row (scores_for self name) j)))) /\
    lookup ret' (KStr "avg") name =
      Some (stored (mode self) (VArray (constant len (mean_score self name)))).
Proof.
  intros Hin Hk Havg. destruct Hstate as (Sh & Sm & Sf).
  destruct (metric_lookup_value name (tmap IZR (hits self))
              (tmap IZR (misses self)) (tmap IZR (fas self)) (eps self) Hin)
    as (fn & Hfn & Hv); [cbn [tmap shape]; congruence..|].
  fold (scores_for self name) in Hv.
  assert (Hs : shape (scores_for self name) = [n]) by exact Sh.
  destruct (threshold_loop_keep name (scores_for self name) (threshold_list self) Hs
              0 ret 0%R) as
    (ret1 & Hloop & Hkeys1 & Hother1 & _ & Hthr1); [lia|exact Hk|].
  destruct (set_entry_ok ret1 (KStr "avg") name
              (stored (mode self) (VArray (constant len (mean_score self name)))))
    as (ret' & Hset & Hkeys & Hlook).
  { rewrite <- (Hkeys1 (KStr "avg")). exact Havg. }
  exists ret'. split; [|split; [|split; [|split]]].
  - unfold metric_step. rewrite Hkeep, Hseq. unfold np_zeros.
    destruct (Z.ltb_spec z 0) as [Hneg|_]; [lia|]. cbn [bind].
    rewrite Hfn. cbn [bind]. rewrite Hv. cbn [bind]. unfold enumerate.
    change (mkTensor [Z.to_nat z] (fun _ : list nat => 0%R)) with (constant len 0).
    rewrite Hloop. cbn [bind]. unfold value_idiv. rewrite Hn.
    destruct (Nat.eqb_spec n 0) as [E0|_]; [lia|]. cbn [bind].
    rewrite (store_keep _ _ _ _ _ Hmode).
    rewrite <- Hset. f_equal. f_equal. f_equal. unfold constant, tmap.
    cbn [shape data]. f_equal. apply functional_extensionality. intros _.
    unfold mean_score. rewrite Rplus_0_l, Hn. reflexivity.
  - eapply same_keys_trans; eassumption.
  - intros k' name' Hne. rewrite Hlook, (Hother1 k' name' Hne).
    destruct (String.eqb_spec name name') as [E|E]; [congruence|].
    rewrite andb_false_r. reflexivity.
  - intros thr Hthr. destruct (Hthr1 thr Hthr) as (j & Hj & Hnth & Hlk).
    exists j. split; [lia|]. rewrite Nat.sub_0_r in Hnth. split; [exact Hnth|].
    rewrite Hlook. cbn [key_eqb andb]. exact Hlk.
  - rewrite Hlook. cbn [key_eqb]. rewrite !String.eqb_refl. reflexivity.
Qed.

Lemma metrics_loop_keep (ml : list string) :
  forall ret : ret_dict,
    (forall name, In name ml -> In name known_metrics) ->
    (forall thr, In thr (threshold_list self) ->
                 dict_get key_eqb ret (KInt thr) <> None) ->
    dict_get key_eqb ret (KStr "avg") <> None ->
    exists ret',
      foldM (metric_step self) ml ret = Ok ret' /\
      same_keys ret ret' /\
      (forall k' name', ~ In name' ml ->
         lookup ret' k' name' = lookup ret k' name') /\
      (forall name, In name ml ->
         (forall thr, In thr (threshold_list self) ->
            exists j, j < n /\ nth j (threshold_list self) 0%Z = thr /\
                      lookup ret' (KInt thr) name =
                        Some (stored (mode self)
                                (VArray (row (scores_for self name) j)))) /\
         lookup ret' (KStr "avg") name =
           Some (stored (mode self)
                   (VArray (constant len (mean_score self name))))).
Proof.
  induction ml as [|name ml IH]; intros ret Hknown Hk Havg.
  - exists ret. split; [reflexivity|]. split; [apply same_keys_refl|].
    split; [reflexivity|]. intros name [].
  - destruct (metric_step_keep name ret) as
      (ret1 & Hstep & Hkeys1 & Hother1 & Hthr1 & Havg1);
      [apply Hknown; left; reflexivity|exact Hk|exact Havg|].
    destruct (IH ret1) as (ret' & Hloop & Hkeys & Hother & Hall).
    { intros nm Hnm. apply Hknown. right. exact Hnm. }
    { intros thr Hthr. rewrite <- (Hkeys1 (KInt thr)). apply Hk. exact Hthr. }
    { rewrite <- (Hkeys1 (KStr "avg")). exact Havg. }
    exists ret'. cbn [foldM]. rewrite Hstep. cbn [bind].
    split; [exact Hloop|]. split; [eapply same_keys_trans; eassumption|].
    split.
    + intros k' name' Hnot. rewrite Hother by (intros H; apply Hnot; right; exact H).
      apply Hother1. intros E. apply Hnot. left. congruence.
    + intros nm Hnm. destruct (in_dec string_dec nm ml) as [Hin|Hnin].
      * apply Hall. exact Hin.
      * destruct Hnm as [<-|Hnm]; [|contradiction]. split.
        -- intros thr Hthr. destruct (Hthr1 thr Hthr) as (j & Hj & Hnth & Hlk).
           exists j. split; [exact Hj|]. split; [exact Hnth|].
           rewrite Hother by exact Hnin. exact Hlk.
        -- rewrite Hother by exact Hnin. exact Havg1.
Qed.

End ScoresWithSequence.

Lemma rsum_constant {A : Type} (r : R) (l : list A) :
  rsum (map (fun _ => r) l) = (INR (List.length l) * r)%R.
Proof.
  induction l as [|a l IH]; [simpl; lra|].
  cbn [map rsum fold_right List.length]. fold (rsum (map (fun _ : A => r) l)).
  rewrite IH, S_INR. lra.
Qed.

Lemma np_mean_row (scores : tensor R) (j : nat) :
  np_mean (row scores j) = data scores [j].
Proof.
  unfold np_mean, row. cbn [shape all_indices numel fold_right map data rsum INR].
  unfold Rdiv. rewrite Rinv_1. lra.
Qed.

Lemma np_mean_constant (len : nat) (r : R) :
  0 < len -> np_mean (constant len r) = r.
Proof.
  intros Hlen. unfold np_mean, constant. cbn [shape data].
  rewrite (rsum_constant r (all_indices [len])), length_all_indices.
  assert (Hne : INR (numel [len]) <> 0%R).
  { apply not_0_INR. cbn [numel fold_right]. lia. }
  field. exact Hne.
Qed.

Lemma stored_row_holds (m : string) (scores : tensor R) (j : nat) :
  m = "1"%string \/ m = "2"%string ->
  holds m [] (stored m (VArray (row scores j))) (data scores [j]).
Proof.
  intros [->| ->]; unfold holds, stored; cbn [String.eqb Ascii.eqb Bool.eqb].
  - exists (row scores j). split; [reflexivity|]. split; [reflexivity|].
    intros idx Hidx. destruct idx; [reflexivity|discriminate].
  - unfold value_mean, row. cbn [shape numel fold_right Nat.eqb].
    fold (row scores j). rewrite np_mean_row. reflexivity.
Qed.

Lemma stored_constant_holds (m : string) (len : nat) (r : R) :
  m = "1"%string \/ (m = "2"%string /\ 0 < len) ->
  holds m [len] (stored m (VArray (constant len r))) r.
Proof.
  intros [->|[-> Hlen]]; unfold holds, stored; cbn [String.eqb Ascii.eqb Bool.eqb].
  - exists (constant len r). split; [reflexivity|]. split; [reflexivity|].
    intros idx _. reflexivity.
  - unfold value_mean, constant. cbn [shape numel fold_right].
    rewrite Nat.mul_1_r. destruct (Nat.eqb_spec len 0) as [E0|_]; [lia|].
    fold (constant len r). rewrite np_mean_constant by exact Hlen. reflexivity.
Qed.

(** X17: the modes "1" and "2" work on a batch whose 'T' dimension has
    one step.  With a threshold list that is not empty, [compute] then
    adds in float32 the counts of the batch to the stored counts and
    returns, for every configured metric: under a threshold, the score
    of the accumulated counts, in mode "1" as an array of no dimension
    and in mode "2" as a float; under "avg", the arithmetic mean of the
    scores, in mode "1" as an array of length [seq_len] whose entries
    are all this mean, in mode "2" (for a positive [seq_len]) as a
    float.  So [seq_len] only sets the length of the arrays under
    "avg". *)
Theorem compute_single_step
    (process_data_dict_back : tensor spec_float -> tensor spec_float)
    (self : SEVIRSkillScore) (pred target : tensor spec_float) (z : Z) :
  mode self = "1"%string \/ mode self = "2"%string ->
  keep_seq_len_dim self = true ->
  preprocess_type self = "sevir"%string ->
  seq_len self = Some z ->
  (0 <= z)%Z ->
  state_1d self (List.length (threshold_list self)) ->
  threshold_list self <> [] ->
  (forall name, In name (metrics_list self) -> In name known_metrics) ->
  shape (process_data_dict_back target) = shape (process_data_dict_back pred) ->
  String.length (layout self) = ndim (process_data_dict_back target) ->
  (0 <= find (layout self) "T"%char)%Z ->
  2 <= String.length (layout self) ->
  nth (Z.to_nat (find (layout self) "T"%char))
    (shape (process_data_dict_back target)) 0 = 1 ->
  exists self' ret,
    compute process_data_dict_back pred target self = (self', Ok ret) /\
    same_config self self' /\
    (forall i, i < List.length (threshold_list self) ->
       let c := step_counts self (process_data_dict_back pred)
                  (process_data_dict_back target)
                  (nth i (threshold_list self) 0%Z) in
       data (hits self') [i] = fadd (data (hits self) [i]) (round_f32 (hits_of c)) /\
       data (misses self') [i] =
         fadd (data (misses self) [i]) (round_f32 (misses_of c)) /\
       data (fas self') [i] = fadd (data (fas self) [i]) (round_f32 (fas_of c))) /\
    (forall name, In name (metrics_list self) ->
       (forall thr, In thr (threshold_list self) ->
          exists j v, j < List.length (threshold_list self) /\
                      nth j (threshold_list self) 0%Z = thr /\
                      lookup ret (KInt thr) name = Some v /\
                      holds (mode self) [] v (threshold_score self' name j)) /\
       exists v, lookup ret (KStr "avg") name = Some v /\
                 ((mode self = "2"%string -> (0 < z)%Z) ->
                  holds (mode self) [Z.to_nat z] v (mean_score self' name))).
Proof.
  intros Hmode Hkeep Hpre Hseq Hz Hstate Hne Hknown Hshape Hrank HT Hlen Hone.
  set (n := List.length (threshold_list self)) in *.
  set (pred' := process_data_dict_back pred) in *.
  set (target' := process_data_dict_back target) in *.
  set (self' := accumulated_with (step_counts self pred' target')
                  (enumerate (threshold_list self)) self).
  destruct (accumulated_with_config (step_counts self pred' target')
              (enumerate (threshold_list self)) self n Hstate) as [C St].
  fold self' in C, St.
  pose proof C as (_ & _ & Ct & Cm & _ & Cmode & Cs & Ck).
  destruct (metrics_loop_keep self' n z) with (ml := metrics_list self')
                                              (ret := empty_scores (threshold_list self'))
    as (ret & Hloop & _ & _ & Hall).
  - rewrite <- Cmode. exact Hmode.
  - congruence.
  - congruence.
  - exact Hz.
  - exact St.
  - rewrite <- Ct. reflexivity.
  - unfold n. destruct (threshold_list self); [congruence|cbn; lia].
  - rewrite <- Cm. exact Hknown.
  - intros thr Hthr. apply empty_scores_keys. right. exists thr. auto.
  - apply empty_scores_keys. left. reflexivity.
  - exists self', ret. split; [|split; [exact C|split]].
    + unfold compute, mbind, reads, preprocess. rewrite Hpre.
      cbn [String.eqb Ascii.eqb Bool.eqb]. fold pred' target'.
      rewrite (accumulate_loop_one self pred' target' n); try assumption.
      * fold self'. exact (f_equal (fun r => (self', r)) Hloop).
      * intros [i thr] Hin. unfold enumerate in Hin. apply in_combine_l in Hin.
        apply in_seq in Hin. cbn [fst]. fold n in Hin. lia.
      * apply same_config_refl.
    + intros i Hi c. unfold self', enumerate. fold n.
      assert (Hb : ((0 <=? i) && (i <? 0 + n))%nat = true).
      { apply andb_true_intro. split; [apply Nat.leb_le|apply Nat.ltb_lt]; lia. }
      unfold n.
      rewrite (accumulated_with_entry (step_counts self pred' target') hits hits_of)
        by (intros s j [[a b] d]; reflexivity).
      rewrite (accumulated_with_entry (step_counts self pred' target') misses
                 misses_of)
        by (intros s j [[a b] d]; reflexivity).
      rewrite (accumulated_with_entry (step_counts self pred' target') fas fas_of)
        by (intros s j [[a b] d]; reflexivity).
      fold n. rewrite Hb, Nat.sub_0_r. fold c. repeat split.
    + intros name Hname. rewrite Cm in Hname.
      destruct (Hall name Hname) as [Hthr Havg]. rewrite <- Ct, <- Cmode in *.
      split.
      * intros thr Hin. destruct (Hthr thr Hin) as (j & Hj & Hnth & Hlk).
        exists j. eexists. split; [exact Hj|]. split; [exact Hnth|].
        split; [exact Hlk|].
        apply (stored_row_holds (mode self) (scores_for self' name) j Hmode).
      * eexists. split; [exact Havg|]. intros Hpos.
        apply stored_constant_holds.
        destruct Hmode as [H1|H2]; [left; exact H1|right].
        split; [exact H2|]. specialize (Hpos H2). lia.
Qed.

Lemma compute_single_step_witness :
  exists self' ret,
    compute (fun x => x) (one_step (float_of_int 20) (float_of_int 10))
      (one_step (float_of_int 20) (float_of_int 30))
      (instance_example "1" true) = (self', Ok ret) /\
    same_config (instance_example "1" true) self' /\
    (forall i, i < 1 ->
       let c := step_counts (instance_example "1" true)
                  (one_step (float_of_int 20) (float_of_int 10))
                  (one_step (float_of_int 20) (float_of_int 30))
                  (nth i [16%Z] 0%Z) in
       data (hits self') [i] =
         fadd (data (hits (instance_example "1" true)) [i])
           (round_f32 (hits_of c)) /\
       data (misses self') [i] =
         fadd (data (misses (instance_example "1" true)) [i])
           (round_f32 (misses_of c)) /\
       data (fas self') [i] =
         fadd (data (fas (instance_example "1" true)) [i])
           (round_f32 (fas_of c))) /\
    (forall name, In name ["csi"%string] ->
       (forall thr, In thr [16%Z] ->
          exists j v, j < 1 /\ nth j [16%Z] 0%Z = thr /\
                      lookup ret (KInt thr) name = Some v /\
                      holds "1" [] v (threshold_score self' name j)) /\
       exists v, lookup ret (KStr "avg") name = Some v /\
                 (("1"%string = "2"%string -> (0 < 2)%Z) ->
                  holds "1" [Z.to_nat 2] v (mean_score self' name))).
Proof.
  apply (compute_single_step (fun x => x) (instance_example "1" true)
           (one_step (float_of_int 20) (float_of_int 10))
           (one_step (float_of_int 20) (float_of_int 30)) 2%Z);
    try reflexivity.
  - left. reflexivity.
  - lia.
  - repeat split.
  - discriminate.
  - intros name [<-|[]]. right. left. reflexivity.
  - cbn. lia.
  - cbn. lia.
Defined.
